(** * Flexisip Forward module (src/module-forward.cc)

    A shallow embedding of the request-forwarding module of the proxy:
    the SIP message and URI data the module reads and rewrites, the module
    and event state it mutates, the collaborators it calls (agent, transport
    registry, registrar, digest library) and the functions [onLoad],
    [overrideDest], [getDestinationFromRoute], [isUs], [onRequest],
    [sendRequest], [countVia], [isLooping], [compute_branch] and the
    [RegistrarListener] callbacks, followed by the properties established
    about them. *)

From Stdlib Require Import String Ascii List ZArith Lia Bool.
From Stdlib Require Import Strings.Byte.
Import ListNotations.
Local Open Scope string_scope.
Local Open Scope Z_scope.

(** ** C strings *)

Module CStr.

(** The NUL character ends a C string. *)
Definition NUL : ascii := Ascii.zero.

(** [c_str s]: the characters a C routine sees when handed the buffer of
    [s], that is, those before the first NUL. *)
Fixpoint c_str (s : string) : string :=
  match s with
  | EmptyString => EmptyString
  | String c s' => if Ascii.eqb c NUL then EmptyString else String c (c_str s')
  end.

(** [strncpy n src] into a zero-filled buffer of more than [n] bytes, read
    back as a C string: at most [n] characters of [src], stopping at NUL. *)
Fixpoint strncpy (n : nat) (src : string) : string :=
  match n, src with
  | O, _ => EmptyString
  | _, EmptyString => EmptyString
  | S n', String c s' =>
      if Ascii.eqb c NUL then EmptyString else String c (strncpy n' s')
  end.

(** [strchr s c != NULL]. *)
Fixpoint strchr (s : string) (c : ascii) : bool :=
  match s with
  | EmptyString => false
  | String d s' => Ascii.eqb d c || strchr s' c
  end.

(** Pointer arithmetic [s + n] on a string of at least [n] characters. *)
Fixpoint advance (n : nat) (s : string) : string :=
  match n, s with
  | O, _ => s
  | S n', String _ s' => advance n' s'
  | S _, EmptyString => EmptyString
  end.

(** ASCII [tolower], as used by the case-folding digest update. *)
Definition tolower (c : ascii) : ascii :=
  let n := nat_of_ascii c in
  if andb (Nat.leb 65 n) (Nat.leb n 90) then ascii_of_nat (n + 32) else c.

Fixpoint lowercase (s : string) : string :=
  match s with
  | EmptyString => EmptyString
  | String c s' => String (tolower c) (lowercase s')
  end.

End CStr.

(** ** URIs and their parameter lists *)

Inductive url_type_e : Type :=
| url_sip
| url_sips
| url_tel
| url_unknown.

Definition url_type_eqb (a b : url_type_e) : bool :=
  match a, b with
  | url_sip, url_sip | url_sips, url_sips
  | url_tel, url_tel | url_unknown, url_unknown => true
  | _, _ => false
  end.

(** [url_t].  [url_host] and [url_port] are nullable C strings.  [url_params]
    is the parameter string [p1;p2;...] held as the list of its raw tokens
    ([name] or [name=value]); the NULL pointer is the empty list. *)
Record url_t : Type := mk_url {
  url_type : url_type_e;
  url_user : option string;
  url_host : option string;
  url_port : option string;
  url_params : list string
}.

Definition set_url_params (u : url_t) (ps : list string) : url_t :=
  mk_url (url_type u) (url_user u) (url_host u) (url_port u) ps.

Definition set_url_host (u : url_t) (h : option string) : url_t :=
  mk_url (url_type u) (url_user u) h (url_port u) (url_params u).

Definition set_url_port (u : url_t) (p : option string) : url_t :=
  mk_url (url_type u) (url_user u) (url_host u) p (url_params u).

Module Params.

(** Name of a raw token: the text before the first [=]. *)
Fixpoint param_name (tok : string) : string :=
  match tok with
  | EmptyString => EmptyString
  | String c s => if Ascii.eqb c "="%char then EmptyString
                  else String c (param_name s)
  end.

(** Value of a raw token: the text after the first [=], if there is one. *)
Fixpoint param_value (tok : string) : option string :=
  match tok with
  | EmptyString => None
  | String c s => if Ascii.eqb c "="%char then Some s else param_value s
  end.

Definition names (tag : string) (tok : string) : bool :=
  String.eqb (param_name tok) tag.

(** Modelled from the spec: [url_param(params, tag, value, vlen)] of the SIP
    library, which is not part of these sources.  Parameters are keyed by
    name, compared case-sensitively, and a duplicated name is resolved by the
    first match.  The result is the return value (0 when absent, otherwise
    the length of the value with its final NUL) and what is written to the
    caller's [vlen]-byte buffer: [None] leaves the buffer as it was, which
    happens when the parameter is absent or its value does not fit. *)
Definition url_param (params : list string) (tag : string) (vlen : nat)
  : nat * option string :=
  match find (names tag) params with
  | None => (O, None)
  | Some tok =>
      match param_value tok with
      | None => (1%nat, if Nat.ltb 0 vlen then Some EmptyString else None)
      | Some v =>
          let flen := String.length v in
          if Nat.leb vlen flen then (S flen, None) else (S flen, Some v)
      end
  end.

(** Contents of a zero-initialised buffer after [url_param] ran on it. *)
Definition buffer (r : nat * option string) : string :=
  match snd r with Some v => v | None => EmptyString end.

(** Modelled from the spec: [url_strip_param_string(params, name)] of the
    SIP library: every parameter named [name] is removed, the others keep
    their relative order; an emptied string is the NULL pointer. *)
Definition url_strip_param_string (params : list string) (name : string)
  : list string :=
  filter (fun tok => negb (names name tok)) params.

(** Modelled from the spec: [url_has_param(url, tag)] of the SIP library,
    [url_param] with no buffer. *)
Definition url_has_param (u : url_t) (tag : string) : bool :=
  negb (Nat.eqb (fst (url_param (url_params u) tag 0)) 0).

(** Modelled from the spec: [url_param_add(home, url, param)] of the SIP
    library appends the raw token to the parameter string. *)
Definition url_param_add (u : url_t) (param : string) : url_t :=
  set_url_params u (url_params u ++ [param])%list.

(** Modelled from the spec: [msg_params_find(params, name)] of the SIP
    library on a header's parameter array: the value of the first parameter
    of that name (the empty string when it has no value). *)
Definition msg_params_find (params : list string) (name : string)
  : option string :=
  match find (names name) params with
  | None => None
  | Some tok => Some (match param_value tok with
                      | Some v => v
                      | None => EmptyString
                      end)
  end.

End Params.
Import Params.

(** ** SIP messages *)

Inductive sip_method_t : Type :=
| sip_method_invite
| sip_method_ack
| sip_method_cancel
| sip_method_bye
| sip_method_options
| sip_method_register
| sip_method_subscribe
| sip_method_notify
| sip_method_message
| sip_method_unknown.

Definition sip_method_eqb (a b : sip_method_t) : bool :=
  match a, b with
  | sip_method_invite, sip_method_invite
  | sip_method_ack, sip_method_ack
  | sip_method_cancel, sip_method_cancel
  | sip_method_bye, sip_method_bye
  | sip_method_options, sip_method_options
  | sip_method_register, sip_method_register
  | sip_method_subscribe, sip_method_subscribe
  | sip_method_notify, sip_method_notify
  | sip_method_message, sip_method_message
  | sip_method_unknown, sip_method_unknown => true
  | _, _ => false
  end.

Record sip_request_t : Type := mk_request {
  rq_method : sip_method_t;
  rq_url : url_t
}.

Record sip_via_t : Type := mk_via {
  v_protocol : string;
  v_host : string;
  v_port : option string;
  v_branch : option string
}.

Record sip_route_t : Type := mk_route {
  r_url : url_t;
  r_params : list string
}.

(** From and To headers. *)
Record sip_addr_t : Type := mk_addr {
  a_url : url_t;
  a_tag : option string
}.

Record sip_contact_t : Type := mk_contact {
  m_url : url_t;
  m_params : list string
}.

(** [sip_t]: the headers the module touches.  A header list is the chain of
    its [_next] pointers; an absent header is [None] or the empty list.
    [sip_max_forwards] holds [mf_count] (unsigned long), [sip_call_id] holds
    [i_id], [sip_cseq] holds [cs_seq] (uint32_t). *)
Record sip_t : Type := mk_sip {
  sip_request : sip_request_t;
  sip_via : list sip_via_t;
  sip_route : list sip_route_t;
  sip_max_forwards : option Z;
  sip_from : option sip_addr_t;
  sip_to : option sip_addr_t;
  sip_call_id : option string;
  sip_cseq : option Z;
  sip_contact : list sip_contact_t
}.

Definition set_rq_url (sip : sip_t) (u : url_t) : sip_t :=
  mk_sip (mk_request (rq_method (sip_request sip)) u)
         (sip_via sip) (sip_route sip) (sip_max_forwards sip) (sip_from sip)
         (sip_to sip) (sip_call_id sip) (sip_cseq sip) (sip_contact sip).

Definition set_sip_route (sip : sip_t) (r : list sip_route_t) : sip_t :=
  mk_sip (sip_request sip) (sip_via sip) r (sip_max_forwards sip)
         (sip_from sip) (sip_to sip) (sip_call_id sip) (sip_cseq sip)
         (sip_contact sip).

Definition set_max_forwards (sip : sip_t) (mf : option Z) : sip_t :=
  mk_sip (sip_request sip) (sip_via sip) (sip_route sip) mf
         (sip_from sip) (sip_to sip) (sip_call_id sip) (sip_cseq sip)
         (sip_contact sip).

Definition set_sip_contact (sip : sip_t) (c : list sip_contact_t) : sip_t :=
  mk_sip (sip_request sip) (sip_via sip) (sip_route sip)
         (sip_max_forwards sip) (sip_from sip) (sip_to sip)
         (sip_call_id sip) (sip_cseq sip) c.

(** Widths of the C integer types involved (LP64). *)
Definition ULONG_MOD : Z := 2 ^ 64.
Definition UINT32_MOD : Z := 2 ^ 32.

(** A parsed message: counters within their C types, and a Via chain that a
    32-bit counter can count. *)
Definition wf_sip (sip : sip_t) : Prop :=
  (forall mf, sip_max_forwards sip = Some mf -> 0 <= mf < ULONG_MOD) /\
  (forall cs, sip_cseq sip = Some cs -> 0 <= cs < UINT32_MOD) /\
  Z.of_nat (length (sip_via sip)) < UINT32_MOD.

(** ** Collaborators *)

(** Transport names and transports of the SIP stack.  [tport_user_data] is
    what [tport_get_user_data] returns, read as an integer (0 is NULL). *)
Record tp_name_t : Type := mk_tp_name {
  tpn_proto : string;
  tpn_host : string;
  tpn_port : string
}.

Record tport_t : Type := mk_tport {
  tport_name : tp_name_t;
  tport_user_data : Z
}.

Definition tport_get_user_data (tp : tport_t) : Z := tport_user_data tp.

(** [Agent]: the proxy instance.  [Agent_isUs u flag] is [Agent::isUs];
    [isUs_default_flag] is the default value its declaration gives to the
    second argument. *)
Record Agent : Type := mk_agent {
  getUniqueId : string;
  getServerString : string;
  Agent_isUs : url_t -> bool -> bool;
  isUs_default_flag : bool
}.

Record OutgoingTransaction : Type := mk_out_tr {
  getBranchId : string
}.

Inductive OutgoingAgent : Type :=
| OutgoingAgent_stateless
| OutgoingAgent_transaction (tr : OutgoingTransaction).

Inductive IncomingAgent : Type :=
| IncomingAgent_stateless
| IncomingAgent_transaction.

(** [dynamic_pointer_cast<OutgoingTransaction>]. *)
Definition as_OutgoingTransaction (a : option OutgoingAgent)
  : option OutgoingTransaction :=
  match a with
  | Some (OutgoingAgent_transaction tr) => Some tr
  | _ => None
  end.

(** [dynamic_pointer_cast<IncomingTransaction>(...) != NULL]. *)
Definition is_IncomingTransaction (a : option IncomingAgent) : bool :=
  match a with
  | Some IncomingAgent_transaction => true
  | _ => false
  end.

(** Everything the module calls that lives outside this file of the
    sources.  [EtcHostsResolver_resolve] is the static-hosts lookup;
    [tport_name_by_url] and [tport_by_name] are the transport registry of the
    SIP stack ([None] for a failed conversion or no transport);
    [urlViaMatch] and [urlIsResolved] are the toolbox predicates;
    [sip_route_make] parses the configured route; [su_md5_digest] is the
    digest of the bytes fed to a context, [url_update] the bytes the stack
    feeds for a URI, [msg_random_token] the token encoding of a digest;
    [new_transaction_branch] is the branch id the transaction layer gives to
    a transaction made by [createOutgoingTransaction]. *)
Record World : Type := mk_world {
  getAgent : Agent;
  EtcHostsResolver_resolve : string -> option string;
  tport_name_by_url : url_t -> option tp_name_t;
  tport_by_name : tp_name_t -> option tport_t;
  urlViaMatch : url_t -> list sip_via_t -> bool -> bool;
  urlIsResolved : url_t -> bool;
  sip_route_make : string -> option sip_route_t;
  su_md5_digest : list byte -> list byte;
  url_update : url_t -> list byte;
  msg_random_token : nat -> list byte -> string;
  new_transaction_branch : string
}.

(** ** Module and event state *)

(** What the module does to an event or asks of a collaborator, in the
    order it does it: [ev->reply], [ev->suspendProcessing],
    [ev->terminateProcessing], [RegistrarDb::fetch], the toolbox's
    [addRecordRoute] and [addPathHeader] (whose writes to the message are
    outside these sources), [ev->createOutgoingTransaction] and
    [ev->send]. *)
Inductive action : Type :=
| Reply (status : Z) (phrase : string) (server : string)
| SuspendProcessing
| TerminateProcessing
| Fetch (dest : url_t) (recursive : bool)
| AddRecordRoute (tport : option tport_t)
| AddPathHeader (tport : option tport_t) (uid : string)
| CreateOutgoingTransaction
| Send (dest : url_t) (branch : string) (tport : option tport_t).

Record RequestSipEvent : Type := mk_ev {
  ev_sip : sip_t;
  mRecordRouteAdded : bool;
  getOutgoingAgent : option OutgoingAgent;
  getIncomingAgent : option IncomingAgent;
  ev_log : list action
}.

Record ForwardModule : Type := mk_module {
  mOutRoute : option sip_route_t;
  mRewriteReqUri : bool;
  mAddPath : bool;
  mDefaultTransport : string;
  mParamsToRemove : list string
}.

(** The module and the event it is processing: [url_t *dest] may point into
    either. *)
Record State : Type := mk_state {
  fwd : ForwardModule;
  ev : RequestSipEvent
}.

Definition set_sip (s : State) (sip : sip_t) : State :=
  mk_state (fwd s)
           (mk_ev sip (mRecordRouteAdded (ev s)) (getOutgoingAgent (ev s))
                  (getIncomingAgent (ev s)) (ev_log (ev s))).

Definition set_outgoing (s : State) (a : option OutgoingAgent) : State :=
  mk_state (fwd s)
           (mk_ev (ev_sip (ev s)) (mRecordRouteAdded (ev s)) a
                  (getIncomingAgent (ev s)) (ev_log (ev s))).

Definition set_mOutRoute (s : State) (r : option sip_route_t) : State :=
  mk_state (mk_module r (mRewriteReqUri (fwd s)) (mAddPath (fwd s))
                      (mDefaultTransport (fwd s)) (mParamsToRemove (fwd s)))
           (ev s).

(** Record one action at the end of the event's log. *)
Definition emit (a : action) (s : State) : State :=
  mk_state (fwd s)
           (mk_ev (ev_sip (ev s)) (mRecordRouteAdded (ev s))
                  (getOutgoingAgent (ev s)) (getIncomingAgent (ev s))
                  (ev_log (ev s) ++ [a])%list).

Definition sip_of (s : State) : sip_t := ev_sip (ev s).

(** [ev->reply(status, phrase, SIPTAG_SERVER_STR(server), TAG_END())]. *)
Definition reply (w : World) (status : Z) (phrase : string) (s : State)
  : State :=
  emit (Reply status phrase (getServerString (getAgent w))) s.

(** *** Where [dest] points *)

(** The targets of the [url_t *dest] of [onRequest] and [sendRequest]: the
    Request-URI inside the message, the URI of the configured route inside
    the module, or a URI allocated apart from both. *)
Inductive dest_t : Type :=
| dest_rq_url
| dest_out_route
| dest_copy (u : url_t).

Definition null_url : url_t := mk_url url_unknown None None None [].

Definition out_route_url (m : ForwardModule) : url_t :=
  match mOutRoute m with
  | Some r => r_url r
  | None => null_url
  end.

(** [*dest]. *)
Definition deref (s : State) (d : dest_t) : url_t :=
  match d with
  | dest_rq_url => rq_url (sip_request (sip_of s))
  | dest_out_route => out_route_url (fwd s)
  | dest_copy u => u
  end.

(** [*dest = u]: the write lands where [dest] points. *)
Definition store (s : State) (d : dest_t) (u : url_t) : State * dest_t :=
  match d with
  | dest_rq_url => (set_sip s (set_rq_url (sip_of s) u), dest_rq_url)
  | dest_out_route =>
      (set_mOutRoute s
         (option_map (fun r => mk_route u (r_params r)) (mOutRoute (fwd s))),
       dest_out_route)
  | dest_copy _ => (s, dest_copy u)
  end.

(** ** Toolbox routines and digest updates *)

(** Modelled from the spec: [ModuleToolbox::removeParamsFromUrl], not part
    of these sources (the spec's [stripParams]): every parameter whose name is
    listed is removed, all others are kept in their order. *)
Definition removeParamsFromUrl (u : url_t) (params : list string) : url_t :=
  fold_left (fun u' tag => set_url_params u' (url_strip_param_string (url_params u') tag))
            params u.

(** Modelled from the spec: [ModuleToolbox::removeParamsFromContacts], not
    part of these sources: [removeParamsFromUrl] on every Contact URI. *)
Definition removeParamsFromContacts (c : list sip_contact_t)
           (params : list string) : list sip_contact_t :=
  map (fun ct => mk_contact (removeParamsFromUrl (m_url ct) params) (m_params ct)) c.

(** Modelled from the spec: [ModuleToolbox::urlSetHost], not part of these
    sources: the host of the URI is overridden with the given value. *)
Definition urlSetHost (u : url_t) (host : string) : url_t :=
  set_url_host u (Some host).

(** The parameter string as the C string [p1;p2;...]. *)
Definition params_string (ps : list string) : string := String.concat ";" ps.

Module MD5.

(** The digest context, as the bytes fed to it so far: the digest of the
    stack is a function of their concatenation. *)
Definition su_md5_t : Type := list byte.

Definition su_md5_init : su_md5_t := [].

Definition su_md5_update (ctx : su_md5_t) (b : list byte) : su_md5_t :=
  (ctx ++ b)%list.

(** The string with its final NUL; a NULL pointer counts as the empty
    string. *)
Definition su_md5_str0update (ctx : su_md5_t) (s : option string) : su_md5_t :=
  su_md5_update ctx
    (list_byte_of_string (match s with Some x => x | None => EmptyString end)
     ++ [x00])%list.

(** As [su_md5_str0update], on the lower-cased string. *)
Definition su_md5_stri0update (ctx : su_md5_t) (s : option string) : su_md5_t :=
  su_md5_str0update ctx (option_map CStr.lowercase s).

Definition byte_of_Z (z : Z) : byte :=
  byte_of_ascii (ascii_of_N (Z.to_N (z mod 256))).

(** The four bytes in memory of [htonl(x)]: [x] in network byte order. *)
Definition htonl (x : Z) : list byte :=
  [byte_of_Z (Z.shiftr x 24); byte_of_Z (Z.shiftr x 16);
   byte_of_Z (Z.shiftr x 8); byte_of_Z x].

End MD5.
Import MD5.

(** ** Configuration *)

Record ForwardConfig : Type := mk_config {
  cfg_route : string;
  cfg_add_path : bool;
  cfg_rewrite_req_uri : bool;
  cfg_default_transport : string;
  cfg_params_to_remove : list string
}.

(** The default values declared by [ForwardModule::onDeclare]. *)
Definition onDeclare : ForwardConfig :=
  mk_config "" true false "udp"
            ["pn-tok"; "pn-type"; "app-id"; "pn-msg-str"; "pn-call-str";
             "pn-call-snd"; "pn-msg-snd"; "pn-timeout"].

(** [ForwardModule::onLoad].  [None] is the fatal [LOGF] on a bad route. *)
Definition onLoad (w : World) (mc : ForwardConfig) : option ForwardModule :=
  let route := cfg_route mc in
  let rewrite := cfg_rewrite_req_uri mc in
  let out_route :=
    if Nat.ltb 0 (String.length route) then sip_route_make w route else None in
  let bad_route :=
    Nat.ltb 0 (String.length route) &&
    match out_route with
    | None => true
    | Some r => match url_host (r_url r) with None => true | Some _ => false end
    end in
  if bad_route then None
  else
    let default_transport := cfg_default_transport mc in
    Some (mk_module out_route rewrite (cfg_add_path mc)
            (if String.eqb default_transport "udp" then EmptyString
             else "transport=" ++ default_transport)
            (cfg_params_to_remove mc)).

(** ** The Forward module *)

(** [ForwardModule::countVia]: one increment of a [uint32_t] per Via. *)
Fixpoint countVia_from (via : list sip_via_t) (via_count : Z) : Z :=
  match via with
  | [] => via_count
  | _ :: v_next => countVia_from v_next ((via_count + 1) mod UINT32_MOD)
  end.

Definition countVia (s : State) : Z := countVia_from (sip_via (sip_of s)) 0.

(** [ForwardModule::isLooping]. *)
Fixpoint isLooping_from (via : list sip_via_t) (branch : string) : bool :=
  match via with
  | [] => false
  | v :: v_next =>
      match v_branch v with
      | Some b => if String.eqb b branch then true
                  else isLooping_from v_next branch
      | None => isLooping_from v_next branch
      end
  end.

Definition isLooping (s : State) (branch : string) : bool :=
  isLooping_from (sip_via (sip_of s)) branch.

(** The static function [isUs] on a Route entry. *)
Definition isUs (ag : Agent) (r : sip_route_t) : bool :=
  let uid := CStr.c_str (getUniqueId ag) in
  let param := msg_params_find (r_params r) "fs-proxy-id" in
  if match param with Some p => String.eqb p uid | None => false end then true
  else
    let found := url_param (url_params (r_url r)) "fs-proxy-id" 32 in
    if negb (Nat.eqb (fst found) 0) && String.eqb (buffer found) uid then true
    else Agent_isUs ag (r_url r) (isUs_default_flag ag).

(** [ForwardModule::getDestinationFromRoute]: [None] is the NULL result. *)
Definition getDestinationFromRoute (sip : sip_t) : option url_t :=
  match sip_route sip with
  | route :: _ =>
      let ret := r_url route in
      let received := buffer (url_param (url_params (r_url route)) "fs-received" 64) in
      let rport := buffer (url_param (url_params (r_url route)) "fs-rport" 8) in
      let ret :=
        if negb (String.eqb received EmptyString) then
          set_url_params (urlSetHost ret received)
            (url_strip_param_string (url_params (r_url route)) "fs-received")
        else ret in
      let ret :=
        if negb (String.eqb rport EmptyString) then
          set_url_params (set_url_port ret (Some rport))
            (url_strip_param_string (url_params (r_url route)) "fs-rport")
        else ret in
      Some ret
  | [] => None
  end.

(** The loop of [overrideDest] over the Via chain: each round tests the
    configured route against the head of the chain. *)
Fixpoint outRouteInVia (w : World) (out_url : url_t) (chain : list sip_via_t)
         (via : list sip_via_t) : bool :=
  match via with
  | [] => false
  | _ :: v_next =>
      if urlViaMatch w out_url chain false then true
      else outRouteInVia w out_url chain v_next
  end.

(** The last statement of [overrideDest]: the default transport. *)
Definition addDefaultTransport (s : State) (dest : dest_t) : State * dest_t :=
  let d := deref s dest in
  if negb (String.eqb (mDefaultTransport (fwd s)) EmptyString) &&
     url_type_eqb (url_type d) url_sip &&
     negb (url_has_param d "transport")
  then store s dest (url_param_add d (CStr.c_str (mDefaultTransport (fwd s))))
  else (s, dest).

(** [ForwardModule::overrideDest]. *)
Definition overrideDest (w : World) (s : State) (dest : dest_t)
  : State * dest_t :=
  match mOutRoute (fwd s) with
  | Some out =>
      let sip := sip_of s in
      if outRouteInVia w (r_url out) (sip_via sip) (sip_via sip) then (s, dest)
      else if negb (urlIsResolved w (rq_url (sip_request sip))) then
        let s1 := if mRewriteReqUri (fwd s)
                  then set_sip s (set_rq_url sip (r_url out)) else s in
        addDefaultTransport s1 dest_out_route
      else addDefaultTransport s dest
  | None => addDefaultTransport s dest
  end.

(** *** Branch computation *)

Definition SU_MD5_DIGEST_SIZE : nat := 16.

(** [sizeof(branch)] in [compute_branch]. *)
Definition branch_size : nat := (SU_MD5_DIGEST_SIZE * 8 + 4) / 5 + 1.

(** The digest input [compute_branch] assembles for a request that has no
    outgoing transaction. *)
Definition branch_digest_input (w : World) (sip : sip_t)
           (string_server : string) : su_md5_t :=
  let md5 := su_md5_init in
  let md5 := su_md5_str0update md5 (Some string_server) in
  let rq := rq_url (sip_request sip) in
  let md5 := su_md5_update md5 (url_update w rq) in
  let md5 := match url_params rq with
             | [] => md5
             | ps => su_md5_str0update md5 (Some (params_string ps))
             end in
  let md5 := match sip_call_id sip with
             | Some i_id => su_md5_str0update md5 (Some i_id)
             | None => md5
             end in
  let md5 := match sip_from sip with
             | Some from =>
                 su_md5_stri0update (su_md5_update md5 (url_update w (a_url from)))
                                    (a_tag from)
             | None => md5
             end in
  let md5 := match sip_to sip with
             | Some to => su_md5_update md5 (url_update w (a_url to))
             | None => md5
             end in
  let md5 := match sip_cseq sip with
             | Some cs_seq => su_md5_update md5 (htonl cs_seq)
             | None => md5
             end in
  fold_left (fun ctx r => su_md5_update ctx (url_update w (r_url r)))
            (sip_route sip) md5.

(** The static function [compute_branch]. *)
Definition compute_branch (w : World) (sip : sip_t) (string_server : string)
           (outTr : option OutgoingTransaction) : string :=
  let branch :=
    match outTr with
    | None =>
        let digest := su_md5_digest w (branch_digest_input w sip string_server) in
        msg_random_token w (branch_size - 1) digest
    | Some tr => CStr.strncpy (branch_size - 1) (getBranchId tr)
    end in
  "branch=z9hG4bK." ++ branch.

(** *** Sending *)

(** [ev->createOutgoingTransaction()]: the event's outgoing agent becomes a
    new transaction, whose branch id the transaction layer chooses. *)
Definition createOutgoingTransaction (w : World) (s : State)
  : State * option OutgoingTransaction :=
  let tr := mk_out_tr (new_transaction_branch w) in
  (emit CreateOutgoingTransaction
        (set_outgoing s (Some (OutgoingAgent_transaction tr))),
   Some tr).

Definition is_some {A : Type} (o : option A) : bool :=
  match o with Some _ => true | None => false end.

(** [sendRequest], the static-hosts override: a host found in /etc/hosts
    makes [dest] a duplicate carrying the resolved address. *)
Definition resolve_etc_hosts (w : World) (s : State) (dest : dest_t) : dest_t :=
  match url_host (deref s dest) with
  | Some host =>
      match EtcHostsResolver_resolve w host with
      | Some ip => dest_copy (set_url_host (deref s dest) (Some ip))
      | None => dest
      end
  | None => dest
  end.

(** [sendRequest], the value of [tport] after the transport lookup. *)
Definition find_tport (w : World) (s : State) (dest : dest_t) : option tport_t :=
  if is_some (getOutgoingAgent (ev s)) then
    match tport_name_by_url w (deref s dest) with
    | Some name => tport_by_name w name
    | None => None
    end
  else None.

(** [sendRequest], the test guarding the second [terminateProcessing]. *)
Definition regid_mismatch (tport : option tport_t) (destRegId : Z) : bool :=
  match tport with
  | Some tp =>
      negb (tport_get_user_data tp =? 0) && negb (destRegId =? 0) &&
      negb (tport_get_user_data tp =? destRegId)
  | None => false
  end.

(** [sendRequest], Record-Route and Path. *)
Definition add_route_headers (w : World) (s : State) (tport : option tport_t)
  : State :=
  let method := rq_method (sip_request (sip_of s)) in
  let s :=
    if mRecordRouteAdded (ev s) &&
       (sip_method_eqb method sip_method_invite ||
        sip_method_eqb method sip_method_subscribe)
    then emit (AddRecordRoute tport) s else s in
  if mAddPath (fwd s) && sip_method_eqb method sip_method_register
  then emit (AddPathHeader tport (CStr.c_str (getUniqueId (getAgent w)))) s
  else s.

(** [sendRequest], cleaning the push notification parameters. *)
Definition clean_push_params (s : State) : State :=
  let s :=
    match sip_contact (sip_of s) with
    | [] => s
    | contacts =>
        if negb (sip_method_eqb (rq_method (sip_request (sip_of s)))
                                sip_method_register)
        then set_sip s (set_sip_contact (sip_of s)
                          (removeParamsFromContacts contacts
                             (mParamsToRemove (fwd s))))
        else s
    end in
  set_sip s (set_rq_url (sip_of s)
               (removeParamsFromUrl (rq_url (sip_request (sip_of s)))
                                    (mParamsToRemove (fwd s)))).

(** [sendRequest], the value of [outTr]. *)
Definition outgoing_transaction (w : World) (s : State)
  : State * option OutgoingTransaction :=
  if is_some (getOutgoingAgent (ev s)) then
    match as_OutgoingTransaction (getOutgoingAgent (ev s)) with
    | Some tr => (s, Some tr)
    | None =>
        if is_IncomingTransaction (getIncomingAgent (ev s))
        then createOutgoingTransaction w s
        else (s, None)
    end
  else (s, None).

(** [ForwardModule::sendRequest]. *)
Definition sendRequest (w : World) (s : State) (dest : dest_t) : State :=
  let destRegId : Z := 0 in
  let dest := resolve_etc_hosts w s dest in
  (* Check self-forwarding *)
  if is_some (getOutgoingAgent (ev s)) &&
     Agent_isUs (getAgent w) (deref s dest) true
  then emit TerminateProcessing s
  else
    let tport := find_tport w s dest in
    if regid_mismatch tport destRegId then emit TerminateProcessing s
    else
      let s := add_route_headers w s tport in
      let s := clean_push_params s in
      let s_outTr := outgoing_transaction w s in
      let s := fst s_outTr in
      let outTr := snd s_outTr in
      (* Compute branch, output branch=XXXXX *)
      let branchStr :=
        compute_branch w (sip_of s) (CStr.c_str (getUniqueId (getAgent w))) outTr in
      if isLooping s (CStr.advance 7 branchStr)
      then reply w 482 "Loop Detected" s
      else emit (Send (deref s dest) branchStr tport) s.

(** *** Registrar callbacks *)

(** A registrar binding; [toSofiaContact] is the Contact it converts to. *)
Record ExtendedContact : Type := mk_extended_contact {
  toSofiaContact : sip_contact_t
}.

(** A registrar record: its extended contacts, [count()] being their
    number. *)
Definition RegistrarRecord : Type := list ExtendedContact.

Module RegistrarListener.

(** [RegistrarListener::onRecordFound]; [None] is the NULL record. *)
Definition onRecordFound (w : World) (r : option RegistrarRecord) (s : State)
  : State :=
  match r with
  | None => reply w 500 "Internal Server Error" s
  | Some contacts =>
      if negb (Nat.eqb (length contacts) 1)
      then reply w 500 "Internal Server Error" s
      else
        match contacts with
        | contact :: _ =>
            let ct := toSofiaContact contact in
            let dest := m_url ct in
            let s := set_sip s (set_rq_url (sip_of s) dest) in
            let s :=
              set_sip s (set_rq_url (sip_of s)
                (set_url_params (rq_url (sip_request (sip_of s)))
                   (url_strip_param_string
                      (url_params (rq_url (sip_request (sip_of s)))) "gr"))) in
            let s :=
              if url_has_param (rq_url (sip_request (sip_of s))) "regid" then
                set_sip s (set_rq_url (sip_of s)
                  (set_url_params (rq_url (sip_request (sip_of s)))
                     (url_strip_param_string
                        (url_params (rq_url (sip_request (sip_of s)))) "regid")))
              else s in
            sendRequest w s (dest_copy dest)
        | [] => reply w 500 "Internal Server Error" s
        end
  end.

(** [RegistrarListener::onError]. *)
Definition onError (w : World) (s : State) : State :=
  reply w 500 "Internal Server Error" s.

(** [RegistrarListener::onInvalid]. *)
Definition onInvalid (w : World) (s : State) : State :=
  reply w 500 "Internal Server Error" s.

End RegistrarListener.

(** *** Request entry point *)

(** Where [onRequest] stands after [overrideDest]: either a reply was made
    and the function returned, or the destination is known. *)
Inductive resolution : Type :=
| Rejected (s : State)
| Resolved (s : State) (dest : dest_t).

(** [onRequest], the loop [while (sip_route != NULL && isUs(...))
    sip_route_remove(msg, sip)] on the Route header. *)
Fixpoint pop_routes (ag : Agent) (route : list sip_route_t) : list sip_route_t :=
  match route with
  | r :: r_next => if isUs ag r then pop_routes ag r_next else route
  | [] => []
  end.

(** [onRequest], the Max-Forwards test. *)
Definition too_many_hops (s : State) : bool :=
  match sip_max_forwards (sip_of s) with
  | Some mf_count => mf_count <=? countVia s
  | None => false
  end.

(** [onRequest], the decrement of Max-Forwards and the loop removing the
    top Route entries that name this proxy. *)
Definition after_route_pop (w : World) (s : State) : State :=
  let s1 :=
    match sip_max_forwards (sip_of s) with
    | Some mf_count =>
        set_sip s (set_max_forwards (sip_of s)
                     (Some ((mf_count - 1) mod ULONG_MOD)))
    | None => s
    end in
  set_sip s1 (set_sip_route (sip_of s1)
                (pop_routes (getAgent w) (sip_route (sip_of s1)))).

(** [onRequest] from its first statement to the call of [overrideDest]. *)
Definition onRequest_resolve (w : World) (s : State) : resolution :=
  (* Check max forwards *)
  if too_many_hops s
  then Rejected (reply w 483 "Too Many Hops" s)
  else
    (* Decrease max forward; removes top route headers if they matches us *)
    let s := after_route_pop w s in
    let dest :=
      match sip_route (sip_of s), getDestinationFromRoute (sip_of s) with
      | _ :: _, Some u => dest_copy u
      | _, _ => dest_rq_url
      end in
    let d := deref s dest in
    if (negb (url_type_eqb (url_type d) url_sip) &&
        negb (url_type_eqb (url_type d) url_sips)) ||
       match url_host d with
       | None => true
       | Some host => CStr.strchr host "@"%char
       end
    then Rejected (reply w 400 "Bad Request" s)
    else
      let '(s, dest) :=
        match url_params (deref s dest) with
        | [] => (s, dest)
        | ps =>
            if Nat.ltb 0 (fst (url_param ps "regid" 31))
            then store s dest (set_url_params (deref s dest)
                                 (url_strip_param_string ps "regid"))
            else (s, dest)
        end in
      let '(s, dest) := overrideDest w s dest in
      Resolved s dest.

(** The test of [onRequest] for GRUU processing: the destination has a
    [gr] parameter and the To header has a tag. *)
Definition needs_gruu_lookup (s : State) (dest : dest_t) : bool :=
  url_has_param (deref s dest) "gr" &&
  match sip_to (sip_of s) with
  | Some to => is_some (a_tag to)
  | None => false
  end.

(** [ForwardModule::onRequest]: the resolution above, then the GRUU
    lookup or [sendRequest]. *)
Definition onRequest (w : World) (s : State) : State :=
  match onRequest_resolve w s with
  | Rejected s' => s'
  | Resolved s dest =>
      if needs_gruu_lookup s dest
      then emit (Fetch (deref s dest) false) (emit SuspendProcessing s)
      else sendRequest w s dest
  end.

(** Modelled from the spec: [RegistrarDb::fetch], not part of these
    sources, answers a lookup by invoking exactly one listener callback,
    exactly once: [onRecordFound] with a record or with NULL, [onError] or
    [onInvalid]. *)
Inductive registrar_answer : Type :=
| RecordFound (r : option RegistrarRecord)
| LookupError
| LookupInvalid.

Definition deliver (w : World) (a : registrar_answer) (s : State) : State :=
  match a with
  | RecordFound r => RegistrarListener.onRecordFound w r s
  | LookupError => RegistrarListener.onError w s
  | LookupInvalid => RegistrarListener.onInvalid w s
  end.

(** A request from its arrival to the end of its processing: [onRequest],
    followed by the registrar's answer when the event was suspended. *)
Definition process (w : World) (a : registrar_answer) (s : State) : State :=
  match onRequest_resolve w s with
  | Rejected _ => onRequest w s
  | Resolved s1 dest =>
      if needs_gruu_lookup s1 dest then deliver w a (onRequest w s)
      else onRequest w s
  end.

(** ** Vocabulary of the properties *)

(** [s'] differs from [s] at most in the Request-URI, the Contact URIs, the
    event's outgoing agent and log, and the module's route. *)
Definition keeps_routing (s s' : State) : Prop :=
  sip_via (sip_of s') = sip_via (sip_of s) /\
  sip_route (sip_of s') = sip_route (sip_of s) /\
  sip_max_forwards (sip_of s') = sip_max_forwards (sip_of s) /\
  rq_method (sip_request (sip_of s')) = rq_method (sip_request (sip_of s)) /\
  sip_to (sip_of s') = sip_to (sip_of s) /\
  mParamsToRemove (fwd s') = mParamsToRemove (fwd s).

(** [s'] differs from [s] at most in the Request-URI and the module's
    route. *)
Definition rewrites_uri_only (s s' : State) : Prop :=
  keeps_routing s s' /\
  sip_contact (sip_of s') = sip_contact (sip_of s) /\
  ev_log (ev s') = ev_log (ev s) /\
  mDefaultTransport (fwd s') = mDefaultTransport (fwd s).

(** Actions that add a header or a transaction, and end nothing. *)
Definition is_header_action (a : action) : bool :=
  match a with
  | AddRecordRoute _ | AddPathHeader _ _ | CreateOutgoingTransaction => true
  | _ => false
  end.

(** The three ways [sendRequest] ends: the request is dropped, rejected as
    looping, or sent. *)
Definition is_forward_outcome (a : action) : bool :=
  match a with
  | TerminateProcessing | Send _ _ _ => true
  | Reply status _ _ => status =? 482
  | _ => false
  end.

(** The event as [sendRequest] has it when it computes the branch. *)
Definition before_branch (w : World) (s : State) (dest : dest_t) : State :=
  let tport := find_tport w s (resolve_etc_hosts w s dest) in
  fst (outgoing_transaction w (clean_push_params (add_route_headers w s tport))).

(** [dest] points to a URI that exists: the module's route is configured
    when [dest] points to it. *)
Definition points_to_url (s : State) (d : dest_t) : Prop :=
  match d with
  | dest_out_route => mOutRoute (fwd s) <> None
  | _ => True
  end.

(** The early return of [overrideDest]: a route is configured and the loop
    over the Via chain found it. *)
Definition static_route_in_via (w : World) (s : State) : bool :=
  match mOutRoute (fwd s) with
  | Some out =>
      outRouteInVia w (r_url out) (sip_via (sip_of s)) (sip_via (sip_of s))
  | None => false
  end.

(** The destination [overrideDest] settles on before it looks at the
    transport: the configured route when there is one, it was not found in
    the Via chain and the Request-URI is not resolved, else [dest]. *)
Definition routed_dest (w : World) (s : State) (dest : dest_t) : dest_t :=
  match mOutRoute (fwd s) with
  | Some _ =>
      if static_route_in_via w s then dest
      else if negb (urlIsResolved w (rq_url (sip_request (sip_of s))))
           then dest_out_route else dest
  | None => dest
  end.

(** The test of [onRequest] that rejects a destination with 400. *)
Definition bad_destination (d : url_t) : bool :=
  (negb (url_type_eqb (url_type d) url_sip) &&
   negb (url_type_eqb (url_type d) url_sips)) ||
  match url_host d with
  | None => true
  | Some host => CStr.strchr host "@"%char
  end.

(** The URI [dest] points to when [onRequest] makes that test: the one
    derived from the top Route entry left after popping, else the
    Request-URI. *)
Definition next_hop (w : World) (s : State) : url_t :=
  let s' := after_route_pop w s in
  match sip_route (sip_of s'), getDestinationFromRoute (sip_of s') with
  | _ :: _, Some u => u
  | _, _ => rq_url (sip_request (sip_of s'))
  end.

(** Actions after which the processing of the event goes on. *)
Definition is_step_action (a : action) : bool :=
  match a with
  | SuspendProcessing | Fetch _ _ | AddRecordRoute _ | AddPathHeader _ _
  | CreateOutgoingTransaction => true
  | _ => false
  end.

(** Actions that end the processing of the event: a reply, a drop, a
    send. *)
Definition is_final_action (a : action) : bool :=
  match a with
  | Reply _ _ _ | TerminateProcessing | Send _ _ _ => true
  | _ => false
  end.

(** The self-forwarding test of [sendRequest]. *)
Definition forwards_to_self (w : World) (s : State) (dest : dest_t) : bool :=
  is_some (getOutgoingAgent (ev s)) &&
  Agent_isUs (getAgent w) (deref s (resolve_etc_hosts w s dest)) true.

(** The branch string [sendRequest] computes. *)
Definition branch_of (w : World) (s : State) (dest : dest_t) : string :=
  let tport := find_tport w s (resolve_etc_hosts w s dest) in
  let s_outTr :=
    outgoing_transaction w (clean_push_params (add_route_headers w s tport)) in
  compute_branch w (sip_of (fst s_outTr))
                 (CStr.c_str (getUniqueId (getAgent w))) (snd s_outTr).

(** ** Concrete requests *)

Module Sample.

Definition sip_uri (user host : string) (params : list string) : url_t :=
  mk_url url_sip (Some user) (Some host) None params.

(** A proxy instance answering for [proxy.example.org]. *)
Definition agent : Agent :=
  mk_agent "proxy-1" "Flexisip"
    (fun u _ => match url_host u with
                | Some h => String.eqb h "proxy.example.org"
                | None => false
                end)
    true.

(** A stand-in for the digest and token routines: the first sixteen bytes
    fed, NUL shown as a dot. *)
Definition toy_digest (b : list byte) : list byte := firstn 16 b.

Definition toy_token (n : nat) (d : list byte) : string :=
  string_of_list_byte
    (firstn n (map (fun b => if Byte.eqb b x00 then x2e else b) d)).

(** A world with one open transport, towards 192.0.2.9, pinned to
    registration id 0xcd. *)
Definition world : World :=
  mk_world agent
    (fun _ => None)
    (fun u => match url_host u with
              | Some h => Some (mk_tp_name "udp" h "5060")
              | None => None
              end)
    (fun n => if String.eqb (tpn_host n) "192.0.2.9"
              then Some (mk_tport n 205) else None)
    (fun _ _ _ => false)
    (fun _ => false)
    (fun _ => None)
    toy_digest
    (fun u => list_byte_of_string
                (match url_host u with Some h => h | None => EmptyString end))
    toy_token
    "sLpYx3Qm0aZk9Tg7Wb2Nc5Re1V".

(** A front-end world: [bob.example.org] is in /etc/hosts, the route
    [sip:gw.example.com] parses, a route matches a Via chain when some entry
    has its host, and only 192.0.2.9 counts as a resolved host. *)
Definition gateway_route : sip_route_t :=
  mk_route (mk_url url_sip None (Some "gw.example.com") None ["lr"]) [].

Definition gateway_world : World :=
  mk_world agent
    (fun host => if String.eqb host "bob.example.org"
                 then Some "192.0.2.9" else None)
    (tport_name_by_url world)
    (tport_by_name world)
    (fun u chain _ =>
       existsb (fun v => match url_host u with
                         | Some h => String.eqb (v_host v) h
                         | None => false
                         end) chain)
    (fun u => match url_host u with
              | Some h => String.eqb h "192.0.2.9"
              | None => false
              end)
    (fun route => if String.eqb route "sip:gw.example.com"
                  then Some gateway_route else None)
    toy_digest
    (url_update world)
    toy_token
    (new_transaction_branch world).

(** The module loaded with [route=sip:gw.example.com], [rewrite-req-uri]
    and [default-transport=tcp]. *)
Definition gateway_config : ForwardConfig :=
  mk_config "sip:gw.example.com" true true "tcp" (cfg_params_to_remove onDeclare).

Definition gateway_module : ForwardModule :=
  mk_module (Some gateway_route) true true "transport=tcp"
            (cfg_params_to_remove onDeclare).

(** The module loaded with the declared defaults. *)
Definition default_module : ForwardModule :=
  mk_module None false true EmptyString (cfg_params_to_remove onDeclare).

(** The module loaded with [default-transport=tcp]. *)
Definition tcp_config : ForwardConfig :=
  mk_config "" true false "tcp" (cfg_params_to_remove onDeclare).

Definition tcp_module : ForwardModule :=
  mk_module None false true "transport=tcp" (cfg_params_to_remove onDeclare).

Definition alice : sip_addr_t :=
  mk_addr (sip_uri "alice" "example.org" []) (Some "a73kszlfl").

Definition bob (tag : option string) : sip_addr_t :=
  mk_addr (sip_uri "bob" "example.org" []) tag.

Definition via1 : sip_via_t :=
  mk_via "SIP/2.0/UDP" "198.51.100.7" None (Some "z9hG4bK.74bf9").

Definition alice_contact : sip_contact_t :=
  mk_contact (sip_uri "alice" "198.51.100.7" ["pn-tok=xyz"; "transport=tcp"]) [].

(** A request with one Via and no Route. *)
Definition request (method : sip_method_t) (rq : url_t) (mf : option Z)
           (to_tag : option string) : sip_t :=
  mk_sip (mk_request method rq) [via1] [] mf (Some alice) (Some (bob to_tag))
         (Some "3848276298220188511@example.org") (Some 1) [alice_contact].

(** A fresh event being forwarded statelessly. *)
Definition event (sip : sip_t) (rr_added : bool) : RequestSipEvent :=
  mk_ev sip rr_added (Some OutgoingAgent_stateless) None [].

Definition state (m : ForwardModule) (sip : sip_t) (rr_added : bool) : State :=
  mk_state m (event sip rr_added).

Definition bob_at (params : list string) : url_t :=
  sip_uri "bob" "192.0.2.9" params.

(** INVITE with Max-Forwards 1 and one Via. *)
Definition invite_last_hop : sip_t :=
  request sip_method_invite (bob_at []) (Some 1) None.

(** INVITE with Max-Forwards 70. *)
Definition invite : sip_t :=
  request sip_method_invite (bob_at ["pn-tok=xyz"]) (Some 70) None.

(** The INVITE with its From tag in upper case. *)
Definition invite_upper_tag : sip_t :=
  mk_sip (mk_request sip_method_invite (bob_at ["pn-tok=xyz"]))
         [via1] [] (Some 70)
         (Some (mk_addr (sip_uri "alice" "example.org" []) (Some "A73KSZLFL")))
         (Some (bob None))
         (Some "3848276298220188511@example.org") (Some 1) [alice_contact].

(** Requests to a tel: URI and to a URI written with two [@]. *)
Definition invite_tel : sip_t :=
  request sip_method_invite (mk_url url_tel None None None []) (Some 70) None.

Definition invite_two_at : sip_t :=
  request sip_method_invite (sip_uri "eve" "bad@example.com" []) (Some 70) None.

(** INVITE without Max-Forwards, and with Max-Forwards 0 and no Via. *)
Definition invite_no_max_forwards : sip_t :=
  request sip_method_invite (bob_at []) None None.

Definition invite_zero_hops : sip_t :=
  mk_sip (mk_request sip_method_invite (bob_at [])) [] [] (Some 0)
         (Some alice) (Some (bob None))
         (Some "3848276298220188511@example.org") (Some 1) [].

(** INVITE to a name that is not resolved, arriving from elsewhere than
    the gateway. *)
Definition invite_unresolved : sip_t :=
  request sip_method_invite (sip_uri "bob" "example.org" []) (Some 70) None.

(** INVITE to a host name, with a push parameter. *)
Definition invite_by_name : sip_t :=
  request sip_method_invite (sip_uri "bob" "bob.example.org" ["pn-tok=xyz"])
          (Some 70) None.

(** INVITE whose Request-URI has no parameter. *)
Definition invite_plain : sip_t :=
  request sip_method_invite (bob_at []) (Some 70) None.

(** INVITE to a destination pinned to registration id 0xab. *)
Definition invite_regid : sip_t :=
  request sip_method_invite (bob_at ["regid=ab"]) (Some 70) None.

(** In-dialog request to a GRUU. *)
Definition bye_gruu : sip_t :=
  request sip_method_bye (sip_uri "bob" "203.0.113.5" ["gr=xyz"]) (Some 70)
          (Some "314159").

Definition bob_binding : ExtendedContact :=
  mk_extended_contact
    (mk_contact (mk_url url_sip (Some "bob") (Some "192.0.2.9") (Some "5070")
                        ["regid=ab"; "transport=tcp"]) []).

(** A binding whose contact URI has no parameter. *)
Definition bob_plain_binding : ExtendedContact :=
  mk_extended_contact
    (mk_contact (mk_url url_sip (Some "bob") (Some "192.0.2.9") (Some "5070") [])
                []).

(** A Route entry carrying both NAT markers. *)
Definition nat_route : sip_route_t :=
  mk_route (mk_url url_sip None (Some "edge.example.net") None
                   ["fs-received=203.0.113.5"; "fs-rport=5062"; "lr"]) [].

Definition invite_nat_route : sip_t :=
  set_sip_route invite [nat_route].

(** A transaction whose branch id is 27 characters long. *)
Definition long_transaction : OutgoingTransaction :=
  mk_out_tr "ABCDEFGHIJKLMNOPQRSTUVWXYZ0".

Definition transaction : OutgoingTransaction :=
  mk_out_tr "Hq7rT2mVx0cPz8Lk4Ns6Yb1Wd3".

(** The same INVITE seen with another Via chain, hop count, To tag, Contact
    and Route parameters. *)
Definition invite_retransmitted : sip_t :=
  mk_sip (mk_request sip_method_invite (bob_at ["pn-tok=xyz"]))
         [via1; via1] [] (Some 12) (Some alice) (Some (bob (Some "8321234356")))
         (Some "3848276298220188511@example.org") (Some 1) [].

(** A REGISTER that comes back to the proxy inside the transaction whose
    branch its Via already carries. *)
Definition looping_via : sip_via_t :=
  mk_via "SIP/2.0/UDP" "proxy.example.org" None
         (Some "z9hG4bK.Hq7rT2mVx0cPz8Lk4Ns6Yb1Wd3").

Definition register_looping : State :=
  mk_state default_module
    (mk_ev (mk_sip (mk_request sip_method_register
                               (sip_uri "alice" "registrar.example.net" ["pn-tok=xyz"]))
                   [looping_via] [] (Some 70) (Some alice) (Some alice)
                   (Some "843817637684230@998sdasdh09") (Some 1826)
                   [alice_contact])
           false (Some (OutgoingAgent_transaction transaction)) None []).

Definition invite_looping : State :=
  mk_state default_module
    (mk_ev (mk_sip (mk_request sip_method_invite (bob_at ["pn-tok=xyz"]))
                   [looping_via] [] (Some 70) (Some alice) (Some (bob None))
                   (Some "3848276298220188511@example.org") (Some 1)
                   [alice_contact])
           false (Some (OutgoingAgent_transaction transaction)) None []).

End Sample.

(** ** Properties *)

(** *** Logs and state updates *)

Lemma strncpy_short (n : nat) (s : string) :
  (String.length s <= n)%nat -> CStr.c_str s = s -> CStr.strncpy n s = s.
Proof.
  revert n; induction s as [|c s IH]; intros n Hn Hc.
  - destruct n; reflexivity.
  - destruct n as [|n]; [simpl in Hn; lia|].
    simpl in *. destruct (Ascii.eqb c CStr.NUL); [discriminate|].
    f_equal. apply IH; [lia | congruence].
Qed.

Lemma countVia_from_length (via : list sip_via_t) (c : Z) :
  countVia_from via c = (c + Z.of_nat (length via)) mod UINT32_MOD \/ via = [].
Proof.
  revert c; induction via as [|v via IH]; intros c; [now right|left].
  cbn [countVia_from length]. destruct (IH ((c + 1) mod UINT32_MOD)) as [-> | ->].
  - rewrite Zplus_mod_idemp_l. f_equal. lia.
  - cbn. f_equal.
Qed.

Lemma countVia_length (s : State) :
  Z.of_nat (length (sip_via (sip_of s))) < UINT32_MOD ->
  countVia s = Z.of_nat (length (sip_via (sip_of s))).
Proof.
  intros H. unfold countVia.
  destruct (countVia_from_length (sip_via (sip_of s)) 0) as [-> | ->].
  - rewrite Z.add_0_l. apply Z.mod_small. lia.
  - reflexivity.
Qed.

(** *** Loop detection *)

Lemma isLooping_from_spec (via : list sip_via_t) (branch : string) :
  isLooping_from via branch = true <->
  exists v, In v via /\ v_branch v = Some branch.
Proof.
  induction via as [|v via IH]; cbn [isLooping_from].
  - split; [discriminate | intros (v & [] & _)].
  - destruct (v_branch v) as [b|] eqn:Hb.
    + destruct (String.eqb_spec b branch) as [->|Hne].
      * split; [|reflexivity]. intros _. exists v. split; [now left | exact Hb].
      * rewrite IH. split.
        -- intros (v' & Hin & Hv'). exists v'. split; [now right | exact Hv'].
        -- intros (v' & [<- | Hin] & Hv'); [congruence|]. now exists v'.
    + rewrite IH. split.
      * intros (v' & Hin & Hv'). exists v'. split; [now right | exact Hv'].
      * intros (v' & [<- | Hin] & Hv'); [congruence|]. now exists v'.
Qed.

(** C7: [isLooping] answers true exactly when some entry of the message's
    Via chain carries a branch equal, as a string, to the given one; for a
    branch that no entry carries verbatim it answers false. *)
Theorem isLooping_iff_branch_in_via (s : State) (branch : string) :
  (isLooping s branch = true <->
   exists v, In v (sip_via (sip_of s)) /\ v_branch v = Some branch) /\
  ((forall v, In v (sip_via (sip_of s)) -> v_branch v <> Some branch) ->
   isLooping s branch = false).
Proof.
  split; [apply isLooping_from_spec|].
  intros Hnone. destruct (isLooping s branch) eqn:E; [|reflexivity].
  apply isLooping_from_spec in E. destruct E as (v & Hin & Hv).
  now destruct (Hnone v Hin).
Qed.

Lemma isLooping_iff_branch_in_via_witness :
  isLooping Sample.invite_looping "z9hG4bK.Hq7rT2mVx0cPz8Lk4Ns6Yb1Wd3" = true /\
  isLooping Sample.invite_looping "z9hG4bK.74bf9" = false.
Proof.
  split.
  - apply (proj2 (proj1 (isLooping_iff_branch_in_via Sample.invite_looping
                           "z9hG4bK.Hq7rT2mVx0cPz8Lk4Ns6Yb1Wd3"))).
    exists Sample.looping_via. split; [simpl; left; reflexivity | reflexivity].
  - apply (proj2 (isLooping_iff_branch_in_via Sample.invite_looping
                    "z9hG4bK.74bf9")).
    simpl. intros v [<- | []] H. discriminate H.
Defined.

(** *** Branch computation *)

Lemma branch_size_value : (branch_size - 1 = 26)%nat.
Proof. reflexivity. Qed.

(** C2: with an outgoing transaction supplied, [compute_branch] returns
    [branch=z9hG4bK.] followed by the transaction's branch id, whatever the
    message and the server string are.  The id is copied into the fixed-size
    token buffer: it is returned verbatim whenever it fits the 26 characters
    of a token, which is the size of the tokens the module itself makes, and
    is cut to those 26 characters otherwise. *)
Theorem compute_branch_reuses_transaction_branch
        (w : World) (tr : OutgoingTransaction) :
  (forall sip string_server,
     compute_branch w sip string_server (Some tr) =
     "branch=z9hG4bK." ++ CStr.strncpy 26 (getBranchId tr)) /\
  (forall sip1 sip2 server1 server2,
     compute_branch w sip1 server1 (Some tr) =
     compute_branch w sip2 server2 (Some tr)) /\
  ((String.length (getBranchId tr) <= 26)%nat ->
   CStr.c_str (getBranchId tr) = getBranchId tr ->
   forall sip string_server,
     compute_branch w sip string_server (Some tr) =
     "branch=z9hG4bK." ++ getBranchId tr).
Proof.
  split; [reflexivity|]. split; [reflexivity|].
  intros Hlen Hc sip srv. unfold compute_branch.
  rewrite branch_size_value, strncpy_short by assumption. reflexivity.
Qed.

Lemma compute_branch_reuses_transaction_branch_witness :
  (String.length (getBranchId Sample.transaction) <= 26)%nat /\
  CStr.c_str (getBranchId Sample.transaction) = getBranchId Sample.transaction /\
  compute_branch Sample.world Sample.invite "proxy-1" (Some Sample.transaction) =
  "branch=z9hG4bK.Hq7rT2mVx0cPz8Lk4Ns6Yb1Wd3".
Proof.
  split; [simpl; lia|]. split; [reflexivity|].
  apply (proj2 (proj2 (compute_branch_reuses_transaction_branch
                         Sample.world Sample.transaction))).
  - simpl; lia.
  - reflexivity.
Defined.

(** The copy into the token buffer at work: of a branch id of 27
    characters the first 26 are kept. *)
Lemma compute_branch_truncates_long_branch :
  getBranchId Sample.long_transaction = "ABCDEFGHIJKLMNOPQRSTUVWXYZ0" /\
  compute_branch Sample.world Sample.invite "proxy-1"
                 (Some Sample.long_transaction) =
  "branch=z9hG4bK.ABCDEFGHIJKLMNOPQRSTUVWXYZ".
Proof.
  split; reflexivity.
Qed.

Lemma fold_route_urls (w : World) (route : list sip_route_t) (ctx : su_md5_t) :
  fold_left (fun c r => su_md5_update c (url_update w (r_url r))) route ctx =
  fold_left (fun c u => su_md5_update c (url_update w u)) (map r_url route) ctx.
Proof.
  revert ctx; induction route as [|r route IH]; intros ctx; [reflexivity|].
  cbn [fold_left map]. apply IH.
Qed.

(** C8: two requests without outgoing transaction that agree on the server
    identity, the Request-URI with its parameters, the Call-ID, the From URI
    and tag, the To URI, the CSeq number and the list of Route URIs get the
    same branch from [compute_branch], whatever else differs between them. *)
Theorem compute_branch_deterministic
        (w : World) (string_server : string) (sip1 sip2 : sip_t) :
  rq_url (sip_request sip1) = rq_url (sip_request sip2) ->
  sip_call_id sip1 = sip_call_id sip2 ->
  option_map a_url (sip_from sip1) = option_map a_url (sip_from sip2) ->
  option_map a_tag (sip_from sip1) = option_map a_tag (sip_from sip2) ->
  option_map a_url (sip_to sip1) = option_map a_url (sip_to sip2) ->
  sip_cseq sip1 = sip_cseq sip2 ->
  map r_url (sip_route sip1) = map r_url (sip_route sip2) ->
  compute_branch w sip1 string_server None =
  compute_branch w sip2 string_server None.
Proof.
  intros Hrq Hid Hfrom Htag Hto Hcseq Hroute.
  unfold compute_branch. do 3 f_equal.
  unfold branch_digest_input.
  rewrite !fold_route_urls, Hroute, Hrq, Hid, Hcseq. f_equal.
  assert (Hf : sip_from sip1 = sip_from sip2).
  { destruct (sip_from sip1) as [[u1 t1]|], (sip_from sip2) as [[u2 t2]|];
      cbn in Hfrom, Htag; congruence. }
  rewrite Hf.
  destruct (sip_to sip1) as [to1|], (sip_to sip2) as [to2|];
    cbn in Hto; try discriminate; [|reflexivity].
  injection Hto as ->. reflexivity.
Qed.

Lemma compute_branch_deterministic_witness :
  Sample.invite <> Sample.invite_retransmitted /\
  compute_branch Sample.world Sample.invite "proxy-1" None =
  compute_branch Sample.world Sample.invite_retransmitted "proxy-1" None.
Proof.
  split; [intro H; discriminate H|].
  apply (compute_branch_deterministic Sample.world "proxy-1"
           Sample.invite Sample.invite_retransmitted); reflexivity.
Defined.

(** *** What a step leaves untouched *)

Ltac break_match :=
  match goal with
  | |- context [if ?c then _ else _] => destruct c eqn:?
  | |- context [match ?c with _ => _ end] => destruct c eqn:?
  end.

Ltac solve_keeps :=
  unfold rewrites_uri_only, keeps_routing; cbn; repeat split; reflexivity.

Lemma keeps_routing_trans (s1 s2 s3 : State) :
  keeps_routing s1 s2 -> keeps_routing s2 s3 -> keeps_routing s1 s3.
Proof.
  unfold keeps_routing.
  intros (A1 & A2 & A3 & A4 & A5 & A6) (B1 & B2 & B3 & B4 & B5 & B6).
  repeat split; congruence.
Qed.

Lemma rewrites_uri_only_refl (s : State) : rewrites_uri_only s s.
Proof. solve_keeps. Qed.

Lemma rewrites_uri_only_trans (s1 s2 s3 : State) :
  rewrites_uri_only s1 s2 -> rewrites_uri_only s2 s3 ->
  rewrites_uri_only s1 s3.
Proof.
  intros (A & A1 & A2 & A3) (B & B1 & B2 & B3).
  split; [eapply keeps_routing_trans; eassumption|].
  repeat split; congruence.
Qed.

Lemma store_rewrites_uri_only (s : State) (d : dest_t) (u : url_t) :
  rewrites_uri_only s (fst (store s d u)).
Proof. destruct d; solve_keeps. Qed.

Lemma addDefaultTransport_rewrites_uri_only (s : State) (d : dest_t) :
  rewrites_uri_only s (fst (addDefaultTransport s d)).
Proof.
  unfold addDefaultTransport. break_match.
  - apply store_rewrites_uri_only.
  - apply rewrites_uri_only_refl.
Qed.

Lemma overrideDest_rewrites_uri_only (w : World) (s : State) (d : dest_t) :
  rewrites_uri_only s (fst (overrideDest w s d)).
Proof.
  unfold overrideDest.
  destruct (mOutRoute (fwd s)) as [out|];
    [|apply addDefaultTransport_rewrites_uri_only].
  destruct (outRouteInVia _ _ _ _); [apply rewrites_uri_only_refl|].
  destruct (negb _); [|apply addDefaultTransport_rewrites_uri_only].
  eapply rewrites_uri_only_trans;
    [|apply addDefaultTransport_rewrites_uri_only].
  destruct (mRewriteReqUri (fwd s)); solve_keeps.
Qed.

Lemma add_route_headers_keeps (w : World) (s : State) (tp : option tport_t) :
  keeps_routing s (add_route_headers w s tp) /\
  sip_of (add_route_headers w s tp) = sip_of s /\
  fwd (add_route_headers w s tp) = fwd s.
Proof.
  unfold add_route_headers. repeat break_match; repeat split; solve_keeps.
Qed.

Lemma clean_push_params_keeps (s : State) :
  keeps_routing s (clean_push_params s) /\
  ev_log (ev (clean_push_params s)) = ev_log (ev s) /\
  fwd (clean_push_params s) = fwd s.
Proof.
  unfold clean_push_params. repeat break_match; repeat split; solve_keeps.
Qed.

Lemma outgoing_transaction_keeps (w : World) (s : State) :
  keeps_routing s (fst (outgoing_transaction w s)) /\
  sip_of (fst (outgoing_transaction w s)) = sip_of s /\
  fwd (fst (outgoing_transaction w s)) = fwd s.
Proof.
  unfold outgoing_transaction, createOutgoingTransaction.
  repeat break_match; repeat split; solve_keeps.
Qed.

Lemma emit_keeps_routing (a : action) (s : State) : keeps_routing s (emit a s).
Proof. solve_keeps. Qed.

Lemma sendRequest_keeps_routing (w : World) (s : State) (d : dest_t) :
  keeps_routing s (sendRequest w s d).
Proof.
  unfold sendRequest, reply.
  destruct (_ && _); [apply emit_keeps_routing|].
  destruct (regid_mismatch _ _); [apply emit_keeps_routing|].
  set (tp := find_tport _ _ _).
  assert (K : keeps_routing s (fst (outgoing_transaction w
                (clean_push_params (add_route_headers w s tp))))).
  { eapply keeps_routing_trans; [apply add_route_headers_keeps|].
    eapply keeps_routing_trans; [apply clean_push_params_keeps|].
    apply outgoing_transaction_keeps. }
  destruct (isLooping _ _);
    (eapply keeps_routing_trans; [exact K | apply emit_keeps_routing]).
Qed.

(** *** The stages of [onRequest] *)

Lemma onRequest_resolve_cases (w : World) (s : State) :
  (too_many_hops s = true /\
   onRequest_resolve w s = Rejected (reply w 483 "Too Many Hops" s)) \/
  (too_many_hops s = false /\
   onRequest_resolve w s =
   Rejected (reply w 400 "Bad Request" (after_route_pop w s))) \/
  (too_many_hops s = false /\
   exists s1 dest,
     onRequest_resolve w s = Resolved s1 dest /\
     rewrites_uri_only (after_route_pop w s) s1).
Proof.
  unfold onRequest_resolve. fold (too_many_hops s).
  destruct (too_many_hops s); [left; split; reflexivity|right].
  fold (after_route_pop w s). set (s0 := after_route_pop w s).
  set (dest := match sip_route (sip_of s0), getDestinationFromRoute (sip_of s0) with
               | _ :: _, Some u => dest_copy u
               | _, _ => dest_rq_url
               end).
  destruct (_ || _); [left; split; reflexivity|right].
  split; [reflexivity|].
  set (p := match url_params (deref s0 dest) with
            | [] => (s0, dest)
            | _ => _
            end).
  assert (Hp : rewrites_uri_only s0 (fst p)).
  { subst p. destruct (url_params (deref s0 dest)) as [|tok ps];
      [apply rewrites_uri_only_refl|].
    break_match; [apply store_rewrites_uri_only | apply rewrites_uri_only_refl]. }
  destruct p as [s2 d2]. cbn [fst] in Hp.
  pose proof (overrideDest_rewrites_uri_only w s2 d2) as Ho.
  destruct (overrideDest w s2 d2) as [s3 d3]. cbn [fst] in Ho.
  exists s3, d3. split; [reflexivity|].
  eapply rewrites_uri_only_trans; eassumption.
Qed.

Lemma after_route_pop_fields (w : World) (s : State) :
  sip_via (sip_of (after_route_pop w s)) = sip_via (sip_of s) /\
  sip_route (sip_of (after_route_pop w s)) =
    pop_routes (getAgent w) (sip_route (sip_of s)) /\
  sip_max_forwards (sip_of (after_route_pop w s)) =
    option_map (fun mf => (mf - 1) mod ULONG_MOD) (sip_max_forwards (sip_of s)) /\
  rq_method (sip_request (sip_of (after_route_pop w s))) =
    rq_method (sip_request (sip_of s)) /\
  sip_to (sip_of (after_route_pop w s)) = sip_to (sip_of s) /\
  sip_contact (sip_of (after_route_pop w s)) = sip_contact (sip_of s) /\
  rq_url (sip_request (sip_of (after_route_pop w s))) =
    rq_url (sip_request (sip_of s)) /\
  ev_log (ev (after_route_pop w s)) = ev_log (ev s) /\
  fwd (after_route_pop w s) = fwd s.
Proof.
  unfold after_route_pop.
  destruct (sip_max_forwards (sip_of s)) as [mf|] eqn:E; cbn;
    rewrite ?E; repeat split; reflexivity.
Qed.

(** *** Parameter lists *)

Lemma url_has_param_find (u : url_t) (tag : string) :
  url_has_param u tag = is_some (find (names tag) (url_params u)).
Proof.
  unfold url_has_param, url_param.
  destruct (find (names tag) (url_params u)) as [tok|]; [|reflexivity].
  destruct (param_value tok); reflexivity.
Qed.

Lemma find_strip_same (ps : list string) (tag : string) :
  find (names tag) (url_strip_param_string ps tag) = None.
Proof.
  unfold url_strip_param_string.
  induction ps as [|tok ps IH]; [reflexivity|]. cbn [filter].
  destruct (names tag tok) eqn:E; cbn [negb]; [exact IH|].
  cbn [find]. now rewrite E.
Qed.

Lemma find_strip_other (ps : list string) (tag other : string) :
  find (names tag) ps = None ->
  find (names tag) (url_strip_param_string ps other) = None.
Proof.
  unfold url_strip_param_string.
  induction ps as [|tok ps IH]; [reflexivity|]. cbn [find filter].
  destruct (names tag tok) eqn:E; [discriminate|]. intros H.
  destruct (negb (names other tok)); [cbn [find]; rewrite E|]; now apply IH.
Qed.

Lemma strip_absent (ps : list string) (tag : string) :
  find (names tag) ps = None -> url_strip_param_string ps tag = ps.
Proof.
  unfold url_strip_param_string.
  induction ps as [|tok ps IH]; [reflexivity|]. cbn [find filter].
  destruct (names tag tok) eqn:E; [discriminate|]. intros H.
  cbn [negb]. f_equal. now apply IH.
Qed.

Lemma removeParamsFromUrl_keeps_absent
      (params : list string) (u : url_t) (tag : string) :
  url_has_param u tag = false ->
  url_has_param (removeParamsFromUrl u params) tag = false.
Proof.
  unfold removeParamsFromUrl.
  revert u; induction params as [|q params IH]; intros u H; [exact H|].
  cbn [fold_left]. apply IH.
  rewrite url_has_param_find in *. cbn [url_params set_url_params].
  destruct (find (names tag) (url_params u)) eqn:E; [discriminate|].
  now rewrite find_strip_other.
Qed.

Lemma removeParamsFromUrl_absent
      (params : list string) (u : url_t) (tag : string) :
  In tag params -> url_has_param (removeParamsFromUrl u params) tag = false.
Proof.
  revert u; induction params as [|q params IH]; intros u []; subst.
  - apply (removeParamsFromUrl_keeps_absent params).
    rewrite url_has_param_find. cbn [url_params set_url_params].
    now rewrite find_strip_same.
  - now apply (IH (set_url_params u (url_strip_param_string (url_params u) q))).
Qed.

Lemma onRecordFound_cases (w : World) (r : option RegistrarRecord) (s : State) :
  (exists contact,
     r = Some [contact] /\
     let u := m_url (toSofiaContact contact) in
     let rq := set_url_params u
                 (url_strip_param_string
                    (url_strip_param_string (url_params u) "gr") "regid") in
     RegistrarListener.onRecordFound w r s =
     sendRequest w (set_sip s (set_rq_url (sip_of s) rq)) (dest_copy u)) \/
  ((forall contact, r <> Some [contact]) /\
   RegistrarListener.onRecordFound w r s =
   reply w 500 "Internal Server Error" s).
Proof.
  destruct r as [[|contact [|c2 l]]|].
  - right. split; [intros c H; discriminate H | reflexivity].
  - left. exists contact. split; [reflexivity|].
    cbn -[sendRequest url_strip_param_string url_has_param].
    destruct (url_has_param _ "regid") eqn:E; [reflexivity|].
    rewrite url_has_param_find in E. cbn [url_params set_url_params] in E.
    destruct (find _ _) eqn:F in E; [discriminate|].
    now rewrite (strip_absent _ _ F).
  - right. split; [intros c H; discriminate H | reflexivity].
  - right. split; [intros c H; discriminate H | reflexivity].
Qed.

Lemma reply_keeps_routing (w : World) (c : Z) (p : string) (s : State) :
  keeps_routing s (reply w c p s).
Proof. solve_keeps. Qed.

Lemma deliver_keeps_routing (w : World) (a : registrar_answer) (s : State) :
  keeps_routing s (deliver w a s).
Proof.
  destruct a as [r| |]; try apply reply_keeps_routing.
  cbn [deliver].
  destruct (onRecordFound_cases w r s) as [(c & _ & ->) | (_ & ->)];
    [|apply reply_keeps_routing].
  eapply keeps_routing_trans; [|apply sendRequest_keeps_routing].
  solve_keeps.
Qed.

Lemma onRequest_keeps_routing (w : World) (s : State) :
  too_many_hops s = false ->
  keeps_routing (after_route_pop w s) (onRequest w s).
Proof.
  intros Hmf. unfold onRequest.
  destruct (onRequest_resolve_cases w s)
    as [(H & _) | [(_ & ->) | (_ & s1 & dest & -> & (K & _))]];
    [congruence | apply reply_keeps_routing |].
  eapply keeps_routing_trans; [exact K|].
  destruct (needs_gruu_lookup s1 dest);
    [solve_keeps | apply sendRequest_keeps_routing].
Qed.

Lemma process_keeps_routing (w : World) (a : registrar_answer) (s : State) :
  too_many_hops s = false ->
  keeps_routing (after_route_pop w s) (process w a s).
Proof.
  intros Hmf. pose proof (onRequest_keeps_routing w s Hmf) as K.
  unfold process. destruct (onRequest_resolve w s) as [|s1 dest]; [exact K|].
  destruct (needs_gruu_lookup s1 dest); [|exact K].
  eapply keeps_routing_trans; [exact K | apply deliver_keeps_routing].
Qed.

Lemma too_many_hops_spec (s : State) (mf : Z) :
  wf_sip (sip_of s) -> sip_max_forwards (sip_of s) = Some mf ->
  too_many_hops s = (mf <=? Z.of_nat (length (sip_via (sip_of s)))).
Proof.
  intros (_ & _ & Hvia) Hmf. unfold too_many_hops.
  now rewrite Hmf, countVia_length.
Qed.

(** *** Max-Forwards *)

(** C1: a request whose Max-Forwards count is at most the number of its Via
    entries gets exactly the reply 483 Too Many Hops, the message and the
    module being left as they were; a request whose Max-Forwards is present
    and exceeds the number of Via entries ends its processing, whatever the
    outcome and the registrar's answer, with the count decremented by
    exactly one. *)
Theorem max_forwards_checked_then_decremented
        (w : World) (s : State) (mf : Z) :
  wf_sip (sip_of s) ->
  sip_max_forwards (sip_of s) = Some mf ->
  (mf <= Z.of_nat (length (sip_via (sip_of s))) ->
   forall a,
     onRequest w s = reply w 483 "Too Many Hops" s /\
     process w a s = onRequest w s /\
     sip_of (onRequest w s) = sip_of s /\
     fwd (onRequest w s) = fwd s /\
     ev_log (ev (onRequest w s)) =
     (ev_log (ev s) ++ [Reply 483 "Too Many Hops" (getServerString (getAgent w))])%list) /\
  (Z.of_nat (length (sip_via (sip_of s))) < mf ->
   forall a,
     sip_max_forwards (sip_of (onRequest w s)) = Some (mf - 1) /\
     sip_max_forwards (sip_of (process w a s)) = Some (mf - 1)).
Proof.
  intros Hwf Hmf.
  pose proof (too_many_hops_spec s mf Hwf Hmf) as Hhops.
  split.
  - intros Hle a. apply Z.leb_le in Hle. rewrite Hle in Hhops.
    destruct (onRequest_resolve_cases w s) as [(_ & E) | [(H & _) | (H & _)]];
      try congruence.
    unfold process, onRequest. rewrite E. repeat split; reflexivity.
  - intros Hgt a. apply Z.leb_gt in Hgt. rewrite Hgt in Hhops.
    destruct (after_route_pop_fields w s) as (_ & _ & Hdec & _).
    rewrite Hmf in Hdec. cbn [option_map] in Hdec.
    destruct Hwf as (Hrange & _ & _). specialize (Hrange mf Hmf).
    apply Z.leb_gt in Hgt.
    rewrite Z.mod_small in Hdec by lia.
    destruct (onRequest_keeps_routing w s Hhops) as (_ & _ & K1 & _).
    destruct (process_keeps_routing w a s Hhops) as (_ & _ & K2 & _).
    split; congruence.
Qed.

Ltac solve_wf_sip :=
  unfold wf_sip, ULONG_MOD, UINT32_MOD; cbn;
  repeat split; intros;
  repeat match goal with
         | H : Some _ = Some _ |- _ => inversion H; clear H
         end;
  subst; lia.

Lemma invite_last_hop_wf : wf_sip Sample.invite_last_hop.
Proof. solve_wf_sip. Qed.

Lemma invite_wf : wf_sip Sample.invite.
Proof. solve_wf_sip. Qed.

Lemma max_forwards_checked_then_decremented_witness :
  (onRequest Sample.world
     (Sample.state Sample.default_module Sample.invite_last_hop false) =
   reply Sample.world 483 "Too Many Hops"
     (Sample.state Sample.default_module Sample.invite_last_hop false)) /\
  sip_max_forwards
    (sip_of (onRequest Sample.world
               (Sample.state Sample.default_module Sample.invite false))) =
  Some 69.
Proof.
  assert (Hle : 1 <= Z.of_nat (length (sip_via (sip_of
                  (Sample.state Sample.default_module Sample.invite_last_hop false)))))
    by (simpl; lia).
  assert (Hgt : Z.of_nat (length (sip_via (sip_of
                  (Sample.state Sample.default_module Sample.invite false)))) < 70)
    by (simpl; lia).
  split.
  - exact (proj1 (proj1 (max_forwards_checked_then_decremented Sample.world
                    (Sample.state Sample.default_module Sample.invite_last_hop false)
                    1 invite_last_hop_wf eq_refl) Hle LookupError)).
  - exact (proj1 (proj2 (max_forwards_checked_then_decremented Sample.world
                    (Sample.state Sample.default_module Sample.invite false)
                    70 invite_wf eq_refl) Hgt LookupError)).
Defined.

(** *** Outcomes of [sendRequest] *)

Lemma sendRequest_result (w : World) (s : State) (dest : dest_t) :
  let d := resolve_etc_hosts w s dest in
  let tport := find_tport w s d in
  let s' := before_branch w s dest in
  sendRequest w s dest = emit TerminateProcessing s \/
  sendRequest w s dest = reply w 482 "Loop Detected" s' \/
  exists branch, sendRequest w s dest = emit (Send (deref s' d) branch tport) s'.
Proof.
  cbv zeta. unfold sendRequest, before_branch.
  destruct (_ && _); [now left|].
  destruct (regid_mismatch _ _); [now left|]. right.
  destruct (isLooping _ _); [now left|right]. eexists. reflexivity.
Qed.

Lemma add_route_headers_log (w : World) (s : State) (tp : option tport_t) :
  let method := rq_method (sip_request (sip_of s)) in
  ev_log (ev (add_route_headers w s tp)) =
  (ev_log (ev s) ++
   (if mRecordRouteAdded (ev s) &&
       (sip_method_eqb method sip_method_invite ||
        sip_method_eqb method sip_method_subscribe)
    then [AddRecordRoute tp] else []) ++
   (if mAddPath (fwd s) && sip_method_eqb method sip_method_register
    then [AddPathHeader tp (CStr.c_str (getUniqueId (getAgent w)))] else []))%list.
Proof.
  cbv zeta. unfold add_route_headers.
  destruct (mRecordRouteAdded (ev s) && _);
    cbn [emit fwd ev ev_log]; destruct (mAddPath (fwd s) && _);
    cbn [emit fwd ev ev_log app];
    rewrite <- ?app_assoc, ?app_nil_r; reflexivity.
Qed.

Lemma outgoing_transaction_log (w : World) (s : State) :
  exists l,
    ev_log (ev (fst (outgoing_transaction w s))) = (ev_log (ev s) ++ l)%list /\
    (l = [] \/ l = [CreateOutgoingTransaction]).
Proof.
  unfold outgoing_transaction, createOutgoingTransaction.
  destruct (is_some _); [|exists []; rewrite app_nil_r; auto].
  destruct (as_OutgoingTransaction _); [exists []; rewrite app_nil_r; auto|].
  destruct (is_IncomingTransaction _); [|exists []; rewrite app_nil_r; auto].
  exists [CreateOutgoingTransaction]. auto.
Qed.

Lemma before_branch_log (w : World) (s : State) (dest : dest_t) :
  let tport := find_tport w s (resolve_etc_hosts w s dest) in
  let method := rq_method (sip_request (sip_of s)) in
  exists rest,
    ev_log (ev (before_branch w s dest)) =
    (ev_log (ev s) ++
     (if mRecordRouteAdded (ev s) &&
         (sip_method_eqb method sip_method_invite ||
          sip_method_eqb method sip_method_subscribe)
      then [AddRecordRoute tport] else []) ++ rest)%list /\
    forallb is_header_action rest = true /\
    forall tp, ~ In (AddRecordRoute tp) rest.
Proof.
  cbv zeta. unfold before_branch.
  set (tport := find_tport w s (resolve_etc_hosts w s dest)).
  destruct (outgoing_transaction_log w
              (clean_push_params (add_route_headers w s tport)))
    as (l & -> & Hl).
  destruct (clean_push_params_keeps (add_route_headers w s tport))
    as (_ & -> & _).
  rewrite add_route_headers_log.
  set (path := if mAddPath (fwd s) && _ then _ else _).
  exists (path ++ l)%list. rewrite <- !app_assoc. split; [reflexivity|].
  subst path.
  destruct (mAddPath (fwd s) && _), Hl as [-> | ->]; cbn;
    (split; [reflexivity|]); intros tp H;
    repeat (destruct H as [H|H]; try discriminate H); exact H.
Qed.

Lemma sendRequest_log (w : World) (s : State) (dest : dest_t) :
  exists headers outcome,
    ev_log (ev (sendRequest w s dest)) =
    (ev_log (ev s) ++ headers ++ [outcome])%list /\
    forallb is_header_action headers = true /\
    is_forward_outcome outcome = true.
Proof.
  destruct (before_branch_log w s dest) as (rest & Hlog & Hrest & _).
  set (rr := if mRecordRouteAdded (ev s) && _ then _ else _) in Hlog.
  assert (Hrr : forallb is_header_action (rr ++ rest) = true).
  { rewrite forallb_app, Hrest. subst rr. now destruct (_ && _). }
  destruct (sendRequest_result w s dest) as [-> | [-> | (b & ->)]].
  - exists [], TerminateProcessing. repeat split.
  - exists (rr ++ rest)%list, (Reply 482 "Loop Detected" (getServerString (getAgent w))).
    cbn [reply emit ev ev_log]. rewrite Hlog, <- !app_assoc. repeat split. exact Hrr.
  - exists (rr ++ rest)%list,
      (Send (deref (before_branch w s dest) (resolve_etc_hosts w s dest)) b
            (find_tport w s (resolve_etc_hosts w s dest))).
    cbn [reply emit ev ev_log]. rewrite Hlog, <- !app_assoc. repeat split. exact Hrr.
Qed.

Lemma removeParamsFromUrl_fields (params : list string) (u : url_t) :
  let u' := removeParamsFromUrl u params in
  (url_type u', url_user u', url_host u', url_port u') =
  (url_type u, url_user u, url_host u, url_port u).
Proof.
  cbv zeta. unfold removeParamsFromUrl.
  revert u; induction params as [|q params IH]; intros u; [reflexivity|].
  cbn [fold_left]. now rewrite IH.
Qed.

Lemma clean_push_params_rq_url (s : State) :
  rq_url (sip_request (sip_of (clean_push_params s))) =
  removeParamsFromUrl (rq_url (sip_request (sip_of s))) (mParamsToRemove (fwd s)).
Proof. unfold clean_push_params. repeat break_match; reflexivity. Qed.

Lemma clean_push_params_contact (s : State) :
  sip_contact (sip_of (clean_push_params s)) =
  if sip_method_eqb (rq_method (sip_request (sip_of s))) sip_method_register
  then sip_contact (sip_of s)
  else removeParamsFromContacts (sip_contact (sip_of s)) (mParamsToRemove (fwd s)).
Proof.
  unfold clean_push_params.
  destruct (sip_contact (sip_of s)) as [|c cs] eqn:E;
    destruct (sip_method_eqb _ _); cbn; rewrite ?E; reflexivity.
Qed.

Lemma before_branch_sip (w : World) (s : State) (dest : dest_t) :
  rq_url (sip_request (sip_of (before_branch w s dest))) =
    removeParamsFromUrl (rq_url (sip_request (sip_of s)))
                        (mParamsToRemove (fwd s)) /\
  sip_contact (sip_of (before_branch w s dest)) =
    if sip_method_eqb (rq_method (sip_request (sip_of s))) sip_method_register
    then sip_contact (sip_of s)
    else removeParamsFromContacts (sip_contact (sip_of s))
                                  (mParamsToRemove (fwd s)).
Proof.
  unfold before_branch.
  set (tp := find_tport _ _ _).
  destruct (outgoing_transaction_keeps w
              (clean_push_params (add_route_headers w s tp))) as (_ & -> & _).
  rewrite clean_push_params_rq_url, clean_push_params_contact.
  destruct (add_route_headers_keeps w s tp) as (_ & -> & ->). now split.
Qed.

Lemma sendRequest_rq_url (w : World) (s : State) (dest : dest_t) :
  let rq := rq_url (sip_request (sip_of (sendRequest w s dest))) in
  rq = rq_url (sip_request (sip_of s)) \/
  rq = removeParamsFromUrl (rq_url (sip_request (sip_of s)))
                           (mParamsToRemove (fwd s)).
Proof.
  cbv zeta.
  destruct (sendRequest_result w s dest) as [-> | [-> | (b & ->)]];
    [now left | right | right]; apply before_branch_sip.
Qed.

(** *** GRUU resolution *)

(** C3: when the resolved destination has a [gr] parameter and the To
    header has a tag, [onRequest] suspends the event and asks the registrar,
    doing nothing else.  The registrar's answer then decides: with exactly
    one binding the Request-URI becomes the binding's contact URI without its
    [gr] and [regid] parameters and [sendRequest] runs towards that contact,
    ending in one of its own outcomes; with a NULL record, a record of zero
    or several bindings, an error or an invalid lookup the only further
    action is the reply 500 Internal Server Error. *)
Theorem gruu_lookup_decides
        (w : World) (s s1 : State) (dest : dest_t) (to : sip_addr_t)
        (tag : string) :
  onRequest_resolve w s = Resolved s1 dest ->
  url_has_param (deref s1 dest) "gr" = true ->
  sip_to (sip_of s) = Some to ->
  a_tag to = Some tag ->
  let s2 := onRequest w s in
  s2 = emit (Fetch (deref s1 dest) false) (emit SuspendProcessing s1) /\
  ev_log (ev s2) =
    (ev_log (ev s) ++ [SuspendProcessing; Fetch (deref s1 dest) false])%list /\
  (forall contact,
     let u := m_url (toSofiaContact contact) in
     let rq := rq_url (sip_request (sip_of
                 (process w (RecordFound (Some [contact])) s))) in
     process w (RecordFound (Some [contact])) s =
       sendRequest w
         (set_sip s2 (set_rq_url (sip_of s2)
            (set_url_params u
               (url_strip_param_string
                  (url_strip_param_string (url_params u) "gr") "regid"))))
         (dest_copy u) /\
     url_has_param rq "gr" = false /\
     url_has_param rq "regid" = false /\
     (url_type rq, url_user rq, url_host rq, url_port rq) =
       (url_type u, url_user u, url_host u, url_port u) /\
     (exists headers outcome,
        ev_log (ev (process w (RecordFound (Some [contact])) s)) =
          (ev_log (ev s2) ++ headers ++ [outcome])%list /\
        forallb is_header_action headers = true /\
        is_forward_outcome outcome = true)) /\
  (forall a,
     (forall contact, a <> RecordFound (Some [contact])) ->
     process w a s = reply w 500 "Internal Server Error" s2 /\
     sip_of (process w a s) = sip_of s2 /\
     ev_log (ev (process w a s)) =
       (ev_log (ev s2) ++
        [Reply 500 "Internal Server Error" (getServerString (getAgent w))])%list).
Proof.
  intros Hres Hgr Hto Htag s2.
  destruct (onRequest_resolve_cases w s)
    as [(_ & E) | [(_ & E) | (_ & s1' & dest' & E & Hkeep)]];
    rewrite E in Hres; try discriminate Hres.
  injection Hres as -> ->.
  destruct Hkeep as ((_ & _ & _ & _ & Hto1 & _) & _ & Hlog1 & _).
  destruct (after_route_pop_fields w s) as (_ & _ & _ & _ & Hto0 & _ & _ & Hlog0 & _).
  assert (Hneeds : needs_gruu_lookup s1 dest = true).
  { unfold needs_gruu_lookup. now rewrite Hgr, Hto1, Hto0, Hto, Htag. }
  assert (Hs2 : s2 = emit (Fetch (deref s1 dest) false) (emit SuspendProcessing s1)).
  { subst s2. unfold onRequest. now rewrite E, Hneeds. }
  assert (Hprocess : forall a, process w a s = deliver w a s2).
  { intros a. unfold process. now rewrite E, Hneeds. }
  assert (Hlog2 : ev_log (ev s2) =
           (ev_log (ev s) ++ [SuspendProcessing; Fetch (deref s1 dest) false])%list).
  { rewrite Hs2. cbn [emit ev ev_log]. now rewrite Hlog1, Hlog0, <- app_assoc. }
  split; [exact Hs2|]. split; [exact Hlog2|]. split.
  - intros contact u rq. subst rq. rewrite Hprocess. cbn [deliver].
    destruct (onRecordFound_cases w (Some [contact]) s2)
      as [(c & Hc & Hfound) | (Hnot & _)]; [|now destruct (Hnot contact)].
    injection Hc as <-. cbv zeta in Hfound. fold u in Hfound. rewrite Hfound.
    set (stripped := set_url_params u _).
    set (s3 := set_sip s2 (set_rq_url (sip_of s2) stripped)).
    assert (Hgr' : url_has_param stripped "gr" = false).
    { rewrite url_has_param_find. subst stripped. cbn [url_params set_url_params].
      now rewrite find_strip_other by apply find_strip_same. }
    assert (Hregid : url_has_param stripped "regid" = false).
    { rewrite url_has_param_find. subst stripped. cbn [url_params set_url_params].
      now rewrite find_strip_same. }
    split; [reflexivity|].
    assert (Hrq : rq_url (sip_request (sip_of s3)) = stripped) by reflexivity.
    destruct (sendRequest_rq_url w s3 (dest_copy u)) as [-> | ->]; rewrite Hrq.
    + repeat split; try assumption. apply (sendRequest_log w s3 (dest_copy u)).
    + split; [now apply removeParamsFromUrl_keeps_absent|].
      split; [now apply removeParamsFromUrl_keeps_absent|].
      split; [now rewrite removeParamsFromUrl_fields|].
      apply (sendRequest_log w s3 (dest_copy u)).
  - intros a Hnot. rewrite Hprocess.
    assert (Hd : deliver w a s2 = reply w 500 "Internal Server Error" s2).
    { destruct a as [r| |]; try reflexivity. cbn [deliver].
      destruct (onRecordFound_cases w r s2) as [(c & -> & _) | (_ & ->)];
        [now destruct (Hnot c) | reflexivity]. }
    rewrite Hd. repeat split.
Qed.

Lemma gruu_lookup_decides_witness :
  let s := Sample.state Sample.default_module Sample.bye_gruu false in
  let s1 := Sample.state Sample.default_module
              (set_max_forwards Sample.bye_gruu (Some 69)) false in
  onRequest_resolve Sample.world s = Resolved s1 dest_rq_url /\
  ev_log (ev (onRequest Sample.world s)) =
    [SuspendProcessing;
     Fetch (Sample.sip_uri "bob" "203.0.113.5" ["gr=xyz"]) false] /\
  process Sample.world LookupError s =
    reply Sample.world 500 "Internal Server Error" (onRequest Sample.world s).
Proof.
  intros s s1.
  assert (Hres : onRequest_resolve Sample.world s = Resolved s1 dest_rq_url)
    by (vm_compute; reflexivity).
  assert (Hgr : url_has_param (deref s1 dest_rq_url) "gr" = true)
    by (vm_compute; reflexivity).
  assert (Hto : sip_to (sip_of s) = Some (Sample.bob (Some "314159")))
    by (vm_compute; reflexivity).
  destruct (gruu_lookup_decides Sample.world s s1 dest_rq_url
              (Sample.bob (Some "314159")) "314159" Hres Hgr Hto eq_refl)
    as (_ & Hlog & _ & Hfail).
  split; [exact Hres|]. split; [exact Hlog|].
  apply (Hfail LookupError). intros contact H; discriminate H.
Defined.

(** The registrar answering the GRUU lookup with one binding. *)
Example gruu_one_binding :
  let s := Sample.state Sample.default_module Sample.bye_gruu false in
  let s' := process Sample.world (RecordFound (Some [Sample.bob_binding])) s in
  rq_url (sip_request (sip_of s')) =
    mk_url url_sip (Some "bob") (Some "192.0.2.9") (Some "5070") ["transport=tcp"] /\
  exists branch tport,
    ev_log (ev s') =
    [SuspendProcessing;
     Fetch (Sample.sip_uri "bob" "203.0.113.5" ["gr=xyz"]) false;
     Send (mk_url url_sip (Some "bob") (Some "192.0.2.9") (Some "5070")
                  ["regid=ab"; "transport=tcp"]) branch tport].
Proof.
  cbv zeta. split; [vm_compute; reflexivity|].
  eexists _, _. vm_compute. reflexivity.
Qed.

(** *** The ways a request ends *)

Lemma process_cases (w : World) (a : registrar_answer) (s : State) :
  process w a s = reply w 483 "Too Many Hops" s \/
  (too_many_hops s = false /\
   (process w a s = reply w 400 "Bad Request" (after_route_pop w s) \/
    (exists s2 u,
       process w a s = reply w 500 "Internal Server Error" s2 /\
       ev_log (ev s2) = (ev_log (ev s) ++ [SuspendProcessing; Fetch u false])%list) \/
    (exists sx dx pre,
       process w a s = sendRequest w sx dx /\
       keeps_routing (after_route_pop w s) sx /\
       sip_contact (sip_of sx) = sip_contact (sip_of s) /\
       ev_log (ev sx) = (ev_log (ev s) ++ pre)%list /\
       (pre = [] \/ exists u, pre = [SuspendProcessing; Fetch u false])))).
Proof.
  unfold process, onRequest.
  destruct (onRequest_resolve_cases w s)
    as [(_ & ->) | [(H & ->) | (H & s1 & dest & -> & K & Hct & Hlog & _)]];
    [now left | right; split; [exact H | now left] |].
  right. split; [exact H|]. right.
  destruct (after_route_pop_fields w s)
    as (_ & _ & _ & _ & _ & Hct0 & _ & Hlog0 & _).
  destruct (needs_gruu_lookup s1 dest).
  - set (s2 := emit (Fetch (deref s1 dest) false) (emit SuspendProcessing s1)).
    assert (Hlog2 : ev_log (ev s2) =
              (ev_log (ev s) ++ [SuspendProcessing; Fetch (deref s1 dest) false])%list).
    { subst s2. cbn [emit ev ev_log]. now rewrite Hlog, Hlog0, <- app_assoc. }
    assert (H500 : forall r, r = reply w 500 "Internal Server Error" s2 ->
              exists s2' u, r = reply w 500 "Internal Server Error" s2' /\
                ev_log (ev s2') =
                (ev_log (ev s) ++ [SuspendProcessing; Fetch u false])%list).
    { intros r ->. now exists s2, (deref s1 dest). }
    destruct a as [r| |]; cbn [deliver]; [|left; now apply H500..].
    destruct (onRecordFound_cases w r s2) as [(c & _ & ->) | (_ & ->)];
      [right | left; now apply H500].
    eexists _, _, _. split; [reflexivity|].
    split; [eapply keeps_routing_trans; [exact K | solve_keeps]|].
    split; [cbn [set_sip sip_of ev ev_sip set_rq_url sip_contact];
            fold (sip_of s2); subst s2; cbn [emit sip_of ev ev_sip];
            fold (sip_of s1); congruence|].
    split; [exact Hlog2|]. right. eexists. reflexivity.
  - right. exists s1, dest, []. split; [reflexivity|].
    split; [exact K|]. split; [congruence|]. rewrite app_nil_r.
    split; [congruence | now left].
Qed.

Lemma sendRequest_482 (w : World) (s : State) (dest : dest_t)
      (phrase server : string) :
  In (Reply 482 phrase server) (ev_log (ev (sendRequest w s dest))) ->
  ~ In (Reply 482 phrase server) (ev_log (ev s)) ->
  sendRequest w s dest = reply w 482 "Loop Detected" (before_branch w s dest).
Proof.
  intros Hin Hfresh.
  destruct (before_branch_log w s dest) as (rest & Hlog & Hrest & _).
  set (rr := if mRecordRouteAdded (ev s) && _ then _ else _) in Hlog.
  assert (Hhdr : ~ In (Reply 482 phrase server) (ev_log (ev (before_branch w s dest)))).
  { rewrite Hlog, !in_app_iff. intros [H | [H | H]]; [now apply Hfresh | |].
    - subst rr. destruct (_ && _); repeat (destruct H as [H|H]; try discriminate H); exact H.
    - rewrite forallb_forall in Hrest. now specialize (Hrest _ H). }
  destruct (sendRequest_result w s dest) as [E | [E | (b & E)]];
    [| exact E |]; rewrite E in Hin; cbn [emit ev ev_log] in Hin;
    apply in_app_iff in Hin; destruct Hin as [Hin | [Hin | []]];
    try discriminate Hin; contradiction.
Qed.

(** *** Loop rejection *)

Lemma pop_routes_head (ag : Agent) (route : list sip_route_t) (r : sip_route_t) :
  hd_error (pop_routes ag route) = Some r -> isUs ag r = false.
Proof.
  induction route as [|r0 route IH]; cbn [pop_routes]; [discriminate|].
  destruct (isUs ag r0) eqn:E; [exact IH|].
  cbn. intros H. injection H as <-. exact E.
Qed.

Lemma removeParamsFromContacts_absent
      (params : list string) (cs : list sip_contact_t) (c : sip_contact_t)
      (p : string) :
  In c (removeParamsFromContacts cs params) -> In p params ->
  url_has_param (m_url c) p = false.
Proof.
  unfold removeParamsFromContacts. rewrite in_map_iff.
  intros (c0 & <- & _) Hp. cbn [m_url]. now apply removeParamsFromUrl_absent.
Qed.

(** C10, as the code has it: when a request is rejected with 482 Loop
    Detected, the message already carries the mutations made on the way:
    Max-Forwards, if present, is decremented, the Route entries naming this
    proxy are popped, the configured parameters are stripped from the
    Request-URI and, unless the request is a REGISTER, from every Contact
    URI; the Contacts of a REGISTER are as received.  The reply is the last
    action on the event and nothing is sent. *)
Theorem loop_rejection_keeps_mutations
        (w : World) (a : registrar_answer) (s : State)
        (phrase server : string) :
  wf_sip (sip_of s) ->
  ev_log (ev s) = [] ->
  In (Reply 482 phrase server) (ev_log (ev (process w a s))) ->
  let sip' := sip_of (process w a s) in
  let method := rq_method (sip_request (sip_of s)) in
  (forall mf, sip_max_forwards (sip_of s) = Some mf ->
              sip_max_forwards sip' = Some (mf - 1)) /\
  sip_route sip' = pop_routes (getAgent w) (sip_route (sip_of s)) /\
  (forall r, hd_error (sip_route sip') = Some r -> isUs (getAgent w) r = false) /\
  (forall p, In p (mParamsToRemove (fwd s)) ->
             url_has_param (rq_url (sip_request sip')) p = false) /\
  (method <> sip_method_register ->
   forall c p, In c (sip_contact sip') -> In p (mParamsToRemove (fwd s)) ->
               url_has_param (m_url c) p = false) /\
  (method = sip_method_register -> sip_contact sip' = sip_contact (sip_of s)) /\
  (exists before,
     ev_log (ev (process w a s)) =
       (before ++ [Reply 482 "Loop Detected" (getServerString (getAgent w))])%list /\
     forall u b tp, ~ In (Send u b tp) before).
Proof.
  intros Hwf Hfresh Hin sip' method. subst sip'.
  destruct (process_cases w a s)
    as [E | (Hhops & [E | [(s2 & u & E & Hlog2) | (sx & dx & pre & E & K & Hct & Hlogx & Hpre)]])].
  - rewrite E in Hin. cbn in Hin. rewrite Hfresh in Hin.
    destruct Hin as [Hin | []]. discriminate Hin.
  - rewrite E in Hin. cbn [reply emit ev ev_log] in Hin.
    destruct (after_route_pop_fields w s) as (_ & _ & _ & _ & _ & _ & _ & Hl & _).
    rewrite Hl, Hfresh in Hin. destruct Hin as [Hin | []]. discriminate Hin.
  - rewrite E in Hin. cbn [reply emit ev ev_log] in Hin.
    rewrite Hlog2, Hfresh in Hin. cbn in Hin.
    repeat (destruct Hin as [Hin | Hin]; try discriminate Hin). destruct Hin.
  - rewrite Hfresh in Hlogx. cbn [app] in Hlogx.
    assert (Hnot : ~ In (Reply 482 phrase server) (ev_log (ev sx))).
    { rewrite Hlogx. destruct Hpre as [-> | (u & ->)]; cbn; intros H;
        repeat (destruct H as [H | H]; try discriminate H); exact H. }
    rewrite E in Hin |- *.
    rewrite (sendRequest_482 w sx dx phrase server Hin Hnot).
    change (sip_of (reply w 482 "Loop Detected" (before_branch w sx dx)))
      with (sip_of (before_branch w sx dx)).
    pose proof (sendRequest_keeps_routing w sx dx) as Ks.
    rewrite (sendRequest_482 w sx dx phrase server Hin Hnot) in Ks.
    change (keeps_routing sx (before_branch w sx dx)) in Ks.
    destruct (keeps_routing_trans _ _ _ K Ks) as (_ & Hroute & Hmf & _).
    destruct K as (_ & _ & _ & Hmeth & _ & Hparams).
    destruct (after_route_pop_fields w s)
      as (_ & Hroute0 & Hmf0 & Hmeth0 & _ & _ & _ & _ & Hfwd0).
    rewrite Hfwd0 in Hparams. rewrite Hmeth0 in Hmeth.
    destruct (before_branch_sip w sx dx) as (Hrq & Hcontact).
    rewrite Hmeth, Hparams, Hct in Hcontact. rewrite Hparams in Hrq.
    split.
    { intros mf Hmf1. rewrite Hmf, Hmf0, Hmf1. cbn [option_map].
      destruct Hwf as (Hrange & _ & Hvia). specialize (Hrange mf Hmf1).
      unfold too_many_hops in Hhops. rewrite Hmf1, countVia_length in Hhops by exact Hvia.
      apply Z.leb_gt in Hhops. rewrite Z.mod_small by lia. reflexivity. }
    split; [congruence|].
    split; [intros r Hr; rewrite Hroute, Hroute0 in Hr;
            now apply pop_routes_head in Hr|].
    split; [intros p Hp; rewrite Hrq; now apply removeParamsFromUrl_absent|].
    split.
    { intros Hne c p Hc Hp. rewrite Hcontact in Hc.
      destruct (sip_method_eqb _ _) eqn:Em in Hc.
      - destruct (rq_method (sip_request (sip_of s))); try discriminate Em.
        now destruct Hne.
      - eapply removeParamsFromContacts_absent; eassumption. }
    split.
    { intros Hreg. rewrite Hcontact. fold method. now rewrite Hreg. }
    exists (ev_log (ev (before_branch w sx dx))). split; [reflexivity|].
    destruct (before_branch_log w sx dx) as (rest & Hlog & Hrest & _).
    intros u b tp. rewrite Hlog, Hlogx, !in_app_iff. intros [H | [H | H]].
    + destruct Hpre as [-> | (u' & ->)];
        repeat (destruct H as [H | H]; try discriminate H); exact H.
    + destruct (_ && _); repeat (destruct H as [H | H]; try discriminate H); exact H.
    + rewrite forallb_forall in Hrest. now specialize (Hrest _ H).
Qed.

Lemma invite_looping_wf : wf_sip (sip_of Sample.invite_looping).
Proof. solve_wf_sip. Qed.

Lemma loop_rejection_keeps_mutations_witness :
  In (Reply 482 "Loop Detected" "Flexisip")
     (ev_log (ev (process Sample.world LookupError Sample.invite_looping))) /\
  sip_max_forwards
    (sip_of (process Sample.world LookupError Sample.invite_looping)) = Some 69 /\
  url_has_param
    (rq_url (sip_request
       (sip_of (process Sample.world LookupError Sample.invite_looping))))
    "pn-tok" = false.
Proof.
  assert (Hin : In (Reply 482 "Loop Detected" "Flexisip")
                   (ev_log (ev (process Sample.world LookupError
                                        Sample.invite_looping))))
    by (vm_compute; left; reflexivity).
  destruct (loop_rejection_keeps_mutations Sample.world LookupError
              Sample.invite_looping "Loop Detected" "Flexisip"
              invite_looping_wf eq_refl Hin)
    as (Hmf & _ & _ & Hrq & _).
  split; [exact Hin|]. split.
  - apply (Hmf 70). reflexivity.
  - apply (Hrq "pn-tok"). simpl. left. reflexivity.
Defined.

(** C10 as stated fails on a REGISTER: it is rejected with 482 while its
    Contact URI still carries the push parameter [pn-tok]. *)
Lemma loop_rejection_keeps_register_contacts :
  let s' := process Sample.world LookupError Sample.register_looping in
  rq_method (sip_request (sip_of Sample.register_looping)) = sip_method_register /\
  In "pn-tok" (mParamsToRemove (fwd Sample.register_looping)) /\
  ev_log (ev s') =
    [AddPathHeader None "proxy-1"; Reply 482 "Loop Detected" "Flexisip"] /\
  sip_contact (sip_of s') = [Sample.alice_contact] /\
  url_has_param (m_url Sample.alice_contact) "pn-tok" = true /\
  ~ (forall c, In c (sip_contact (sip_of s')) ->
               url_has_param (m_url c) "pn-tok" = false).
Proof.
  cbv zeta.
  split; [reflexivity|]. split; [simpl; tauto|].
  split; [vm_compute; reflexivity|]. split; [vm_compute; reflexivity|].
  split; [vm_compute; reflexivity|].
  assert (E : sip_contact (sip_of (process Sample.world LookupError
                                           Sample.register_looping)) =
              [Sample.alice_contact]) by (vm_compute; reflexivity).
  rewrite E. intros H. specialize (H Sample.alice_contact (or_introl eq_refl)).
  assert (Ht : url_has_param (m_url Sample.alice_contact) "pn-tok" = true)
    by (vm_compute; reflexivity).
  rewrite Ht in H. discriminate H.
Qed.

(** *** Record-Route *)

(** C4, as the code has it: an INVITE or SUBSCRIBE that [sendRequest] does
    not drop gets a Record-Route from it, added for the selected transport
    before anything else, exactly when the event's record-route-added flag
    is already set; with the flag unset no Record-Route is added. *)
Theorem record_route_added_when_flagged
        (w : World) (s : State) (dest : dest_t) :
  rq_method (sip_request (sip_of s)) = sip_method_invite \/
  rq_method (sip_request (sip_of s)) = sip_method_subscribe ->
  let tport := find_tport w s (resolve_etc_hosts w s dest) in
  sendRequest w s dest = emit TerminateProcessing s \/
  exists rest outcome,
    ev_log (ev (sendRequest w s dest)) =
      (ev_log (ev s) ++
       (if mRecordRouteAdded (ev s) then [AddRecordRoute tport] else []) ++
       rest ++ [outcome])%list /\
    (forall tp, ~ In (AddRecordRoute tp) (rest ++ [outcome])) /\
    ((exists server, outcome = Reply 482 "Loop Detected" server) \/
     (exists u branch, outcome = Send u branch tport)).
Proof.
  intros Hmethod tport.
  destruct (before_branch_log w s dest) as (rest & Hlog & _ & Hrest).
  fold tport in Hlog.
  assert (Hrr : mRecordRouteAdded (ev s) &&
                (sip_method_eqb (rq_method (sip_request (sip_of s))) sip_method_invite ||
                 sip_method_eqb (rq_method (sip_request (sip_of s))) sip_method_subscribe) =
                mRecordRouteAdded (ev s)).
  { destruct Hmethod as [-> | ->]; cbn; apply andb_true_r. }
  rewrite Hrr in Hlog.
  destruct (sendRequest_result w s dest) as [E | [E | (b & E)]];
    [now left | right | right]; rewrite E; cbn [reply emit ev ev_log];
    rewrite Hlog, <- !app_assoc; eexists rest, _;
    (split; [reflexivity|]); (split; [|eauto]);
    intros tp Hin; apply in_app_iff in Hin;
    destruct Hin as [Hin | [Hin | []]];
    try discriminate Hin; now apply (Hrest tp).
Qed.

Lemma record_route_added_when_flagged_witness :
  exists tport rest outcome,
    ev_log (ev (sendRequest Sample.world
                  (Sample.state Sample.default_module Sample.invite true)
                  dest_rq_url)) =
    (AddRecordRoute tport :: rest ++ [outcome])%list.
Proof.
  destruct (record_route_added_when_flagged Sample.world
              (Sample.state Sample.default_module Sample.invite true)
              dest_rq_url (or_introl eq_refl))
    as [E | (rest & outcome & Hlog & _)].
  - apply (f_equal (fun st => ev_log (ev st))) in E.
    assert (Hsent : exists branch tport,
               ev_log (ev (sendRequest Sample.world
                 (Sample.state Sample.default_module Sample.invite true)
                 dest_rq_url)) =
               [AddRecordRoute tport; Send (Sample.bob_at []) branch tport])
      by (eexists _, _; vm_compute; reflexivity).
    destruct Hsent as (branch & tport & Hsent). rewrite Hsent in E.
    discriminate E.
  - eexists _, rest, outcome. exact Hlog.
Defined.

(** C4 as stated fails: an INVITE for which no Record-Route was added
    earlier is forwarded without [sendRequest] adding one. *)
Lemma record_route_not_added_when_unflagged :
  let s := Sample.state Sample.default_module Sample.invite false in
  mRecordRouteAdded (ev s) = false /\
  rq_method (sip_request (sip_of s)) = sip_method_invite /\
  (exists branch tport,
     ev_log (ev (onRequest Sample.world s)) =
     [Send (Sample.bob_at []) branch tport]) /\
  forall tp, ~ In (AddRecordRoute tp) (ev_log (ev (onRequest Sample.world s))).
Proof.
  cbv zeta.
  assert (E : exists branch tport,
             ev_log (ev (onRequest Sample.world
               (Sample.state Sample.default_module Sample.invite false))) =
             [Send (Sample.bob_at []) branch tport])
    by (eexists _, _; vm_compute; reflexivity).
  split; [reflexivity|]. split; [reflexivity|]. split; [exact E|].
  destruct E as (branch & tport & ->). intros tp [H | []]. discriminate H.
Qed.

(** *** Transport pinning *)

(** In [sendRequest] the registration id of the destination is always 0,
    so the test on the transport's registration id never holds. *)
Lemma regid_mismatch_never (tport : option tport_t) :
  regid_mismatch tport 0 = false.
Proof.
  unfold regid_mismatch. destruct tport as [tp|]; [|reflexivity].
  cbn. now rewrite andb_false_r.
Qed.

(** C5 fails on the code: a request to [sip:bob@192.0.2.9;regid=ab], while
    the transport found for 192.0.2.9 is bound to registration id 0xcd, is
    sent over that transport, the hint being stripped and never compared;
    the event is not terminated. *)
Theorem regid_hint_never_compared :
  let s := Sample.state Sample.default_module Sample.invite_regid false in
  let tport := mk_tport (mk_tp_name "udp" "192.0.2.9" "5060") 205 in
  rq_url (sip_request (sip_of s)) = Sample.bob_at ["regid=ab"] /\
  find_tport Sample.world s dest_rq_url = Some tport /\
  tport_get_user_data tport <> 171 /\
  (exists branch,
     ev_log (ev (onRequest Sample.world s)) =
     [Send (Sample.bob_at []) branch (Some tport)]) /\
  ~ In TerminateProcessing (ev_log (ev (onRequest Sample.world s))).
Proof.
  cbv zeta.
  assert (E : exists branch,
             ev_log (ev (onRequest Sample.world
               (Sample.state Sample.default_module Sample.invite_regid false))) =
             [Send (Sample.bob_at []) branch
                   (Some (mk_tport (mk_tp_name "udp" "192.0.2.9" "5060") 205))])
    by (eexists; vm_compute; reflexivity).
  split; [vm_compute; reflexivity|]. split; [vm_compute; reflexivity|].
  split; [cbn; lia|]. split; [exact E|].
  destruct E as (branch & ->). intros [H | []]. discriminate H.
Qed.

(** *** Next hop from a Route entry *)

(** C6 fails on the code: from a Route URI carrying both [fs-received] and
    [fs-rport], [getDestinationFromRoute] derives a URI whose host and port
    are overridden but whose parameters still hold [fs-received], the second
    strip starting again from the parameters of the Route entry. *)
Theorem route_markers_not_both_stripped :
  url_params (r_url Sample.nat_route) =
    ["fs-received=203.0.113.5"; "fs-rport=5062"; "lr"] /\
  getDestinationFromRoute Sample.invite_nat_route =
    Some (mk_url url_sip None (Some "203.0.113.5") (Some "5062")
                 ["fs-received=203.0.113.5"; "lr"]) /\
  (forall u, getDestinationFromRoute Sample.invite_nat_route = Some u ->
             url_has_param u "fs-received" = true) /\
  exists branch tport,
    ev_log (ev (onRequest Sample.world
                  (Sample.state Sample.default_module Sample.invite_nat_route false))) =
    [Send (mk_url url_sip None (Some "203.0.113.5") (Some "5062")
                  ["fs-received=203.0.113.5"; "lr"]) branch tport].
Proof.
  split; [reflexivity|]. split; [vm_compute; reflexivity|]. split.
  - intros u H. vm_compute in H. injection H as <-. vm_compute. reflexivity.
  - eexists _, _. vm_compute. reflexivity.
Qed.

(** With a single marker the derived URI carries neither. *)
Example route_single_marker_stripped :
  getDestinationFromRoute
    (set_sip_route Sample.invite
       [mk_route (mk_url url_sip None (Some "edge.example.net") None
                         ["fs-received=203.0.113.5"; "lr"]) []]) =
  Some (mk_url url_sip None (Some "203.0.113.5") None ["lr"]).
Proof. vm_compute. reflexivity. Qed.

(** *** Default transport *)

Lemma onLoad_default_transport (w : World) (mc : ForwardConfig) (m : ForwardModule) :
  onLoad w mc = Some m ->
  mDefaultTransport m =
  if String.eqb (cfg_default_transport mc) "udp" then EmptyString
  else "transport=" ++ cfg_default_transport mc.
Proof.
  unfold onLoad. destruct (_ && _); [discriminate|].
  intros H. injection H as <-. reflexivity.
Qed.

Lemma addDefaultTransport_spec (s : State) (d : dest_t) :
  points_to_url s d ->
  let r := addDefaultTransport s d in
  deref (fst r) (snd r) =
  if negb (String.eqb (mDefaultTransport (fwd s)) EmptyString) &&
     url_type_eqb (url_type (deref s d)) url_sip &&
     negb (url_has_param (deref s d) "transport")
  then url_param_add (deref s d) (CStr.c_str (mDefaultTransport (fwd s)))
  else deref s d.
Proof.
  intros Hp. cbv zeta. unfold addDefaultTransport.
  match goal with
  | |- context [if ?c then store _ _ _ else _] => destruct c
  end; [|reflexivity].
  destruct d; cbn in *; try reflexivity.
  unfold out_route_url. destruct (mOutRoute (fwd s)); [reflexivity | now destruct Hp].
Qed.

Lemma overrideDest_cases (w : World) (s : State) (dest : dest_t) :
  points_to_url s dest ->
  (static_route_in_via w s = true /\ overrideDest w s dest = (s, dest) /\
   routed_dest w s dest = dest) \/
  (static_route_in_via w s = false /\
   exists sa,
     overrideDest w s dest = addDefaultTransport sa (routed_dest w s dest) /\
     points_to_url sa (routed_dest w s dest) /\
     deref sa (routed_dest w s dest) = deref s (routed_dest w s dest) /\
     fwd sa = fwd s).
Proof.
  intros Hp. unfold overrideDest, routed_dest, static_route_in_via.
  destruct (mOutRoute (fwd s)) as [out|] eqn:Eout;
    [|right; split; [reflexivity|]; now exists s].
  destruct (outRouteInVia _ _ _ _); [now left|right]. split; [reflexivity|].
  destruct (negb _); [|now exists s].
  eexists. split; [reflexivity|].
  destruct (mRewriteReqUri (fwd s)); cbn; rewrite Eout; repeat split; discriminate.
Qed.

Lemma find_app_none {A : Type} (f : A -> bool) (l1 l2 : list A) :
  find f l1 = None -> find f (l1 ++ l2) = find f l2.
Proof.
  induction l1 as [|x l1 IH]; [reflexivity|]. cbn.
  destruct (f x); [discriminate | exact IH].
Qed.

Lemma overrideDest_default_transport
      (w : World) (t : string) (s : State) (dest : dest_t) :
  mDefaultTransport (fwd s) =
    (if String.eqb t "udp" then EmptyString else "transport=" ++ t) ->
  points_to_url s dest ->
  let r := overrideDest w s dest in
  let before := deref s (routed_dest w s dest) in
  let after := deref (fst r) (snd r) in
  (t <> "udp" ->
   static_route_in_via w s = false ->
   url_type before = url_sip ->
   url_has_param before "transport" = false ->
   after = url_param_add before ("transport=" ++ CStr.c_str t) /\
   url_has_param after "transport" = true) /\
  (t = "udp" -> after = before) /\
  (url_type before <> url_sip -> after = before) /\
  (url_has_param before "transport" = true -> after = before) /\
  (static_route_in_via w s = true -> after = before).
Proof.
  intros Hload Hp r before after. subst r before after.
  destruct (overrideDest_cases w s dest Hp)
    as [(Hvia & -> & ->) | (Hvia & sa & -> & Hpa & Hderef & Hfwd)].
  - cbn [fst snd]. repeat split; congruence.
  - rewrite (addDefaultTransport_spec sa _ Hpa).
    rewrite Hderef, Hfwd, Hload.
    set (da := routed_dest w s dest).
    split; [|split; [|split; [|split]]];
      [| | | intros ->; now rewrite andb_false_r | congruence].
    + intros Hudp _ Hsip Hnone.
      destruct (String.eqb_spec t "udp"); [contradiction|].
      rewrite Hsip, Hnone. cbn -[url_has_param]. split; [reflexivity|].
      rewrite url_has_param_find in *. cbn [url_params url_param_add set_url_params].
      destruct (find _ (url_params (deref s da))) eqn:F; [discriminate|].
      rewrite (find_app_none _ _ _ F). reflexivity.
    + intros ->. reflexivity.
    + intros Hne. destruct (url_type (deref s da)); try (now destruct Hne);
        cbn; now rewrite andb_false_r.
Qed.

(** ** Further properties of the module *)

(** *** Counting the Via chain *)

Lemma countVia_from_mod (via : list sip_via_t) (c : Z) :
  0 <= c < UINT32_MOD ->
  countVia_from via c = (c + Z.of_nat (length via)) mod UINT32_MOD.
Proof.
  intros Hc.
  destruct (countVia_from_length via c) as [-> | ->]; [reflexivity|].
  cbn. rewrite Z.add_0_r. symmetry. now apply Z.mod_small.
Qed.

(** X1: [countVia] is the number of Via entries of the message, reduced
    modulo 2^32 by its 32-bit counter, and so always lies in that range. *)
Theorem countVia_counts_modulo (s : State) :
  countVia s = Z.of_nat (length (sip_via (sip_of s))) mod UINT32_MOD /\
  0 <= countVia s < UINT32_MOD.
Proof.
  assert (E : countVia s = Z.of_nat (length (sip_via (sip_of s))) mod UINT32_MOD).
  { unfold countVia. rewrite countVia_from_mod by (unfold UINT32_MOD; lia).
    reflexivity. }
  split; [exact E|]. rewrite E. apply Z.mod_pos_bound. unfold UINT32_MOD. lia.
Qed.

(** *** Popping the Route header *)

Lemma pop_routes_split (ag : Agent) (route : list sip_route_t) :
  exists popped,
    route = (popped ++ pop_routes ag route)%list /\
    Forall (fun r => isUs ag r = true) popped.
Proof.
  induction route as [|r route (popped & Heq & Hall)].
  - exists []. split; [reflexivity | constructor].
  - cbn [pop_routes]. destruct (isUs ag r) eqn:E.
    + exists (r :: popped). split; [cbn; now f_equal | now constructor].
    + exists []. split; [reflexivity | constructor].
Qed.

(** X2: the loop of [onRequest] on the Route header removes a prefix made
    only of entries naming this proxy, stops at the first entry that does
    not, and, run again on what it left, removes nothing. *)
Theorem pop_routes_removes_own_prefix (ag : Agent) (route : list sip_route_t) :
  (exists popped,
     route = (popped ++ pop_routes ag route)%list /\
     Forall (fun r => isUs ag r = true) popped) /\
  (forall r, hd_error (pop_routes ag route) = Some r -> isUs ag r = false) /\
  pop_routes ag (pop_routes ag route) = pop_routes ag route.
Proof.
  split; [apply pop_routes_split|]. split; [apply pop_routes_head|].
  destruct (pop_routes ag route) as [|r rest] eqn:E; [reflexivity|].
  cbn [pop_routes]. now rewrite (pop_routes_head ag route r) by now rewrite E.
Qed.

(** *** Loading the configuration *)

(** X3: [onLoad] fails exactly when a route is configured that does not
    parse or has no host; a module that loaded has a route if and only if
    one was configured, that route is the parsed one and has a host, the two
    flags and the parameter list are those of the configuration, and the
    default transport is kept empty exactly for udp. *)
Theorem onLoad_checks_route (w : World) (mc : ForwardConfig) :
  (onLoad w mc = None <->
   cfg_route mc <> EmptyString /\
   forall r, sip_route_make w (cfg_route mc) = Some r ->
             url_host (r_url r) = None) /\
  (forall m,
     onLoad w mc = Some m ->
     (mOutRoute m = None <-> cfg_route mc = EmptyString) /\
     (forall r, mOutRoute m = Some r ->
                sip_route_make w (cfg_route mc) = Some r /\
                url_host (r_url r) <> None) /\
     mRewriteReqUri m = cfg_rewrite_req_uri mc /\
     mAddPath m = cfg_add_path mc /\
     mParamsToRemove m = cfg_params_to_remove mc /\
     (mDefaultTransport m = EmptyString <-> cfg_default_transport mc = "udp")).
Proof.
  unfold onLoad.
  destruct (cfg_route mc) as [|c route] eqn:Eroute; cbn [String.length Nat.ltb Nat.leb andb].
  - split.
    + split; [discriminate | intros (H & _); now destruct H].
    + intros m H. injection H as <-. cbn.
      repeat split; try discriminate; try reflexivity;
        destruct (String.eqb_spec (cfg_default_transport mc) "udp");
        intros H; try discriminate H; congruence.
  - destruct (sip_route_make w (String c route)) as [r|] eqn:Emake.
    + destruct (url_host (r_url r)) as [h|] eqn:Ehost.
      * split.
        -- split; [discriminate|]. intros (_ & H).
           specialize (H r eq_refl). congruence.
        -- intros m H. injection H as <-. cbn.
           split; [split; discriminate|].
           split; [intros r' H; injection H as <-; split; congruence|].
           repeat split;
             destruct (String.eqb_spec (cfg_default_transport mc) "udp");
             intros H; try discriminate H; congruence.
      * split; [|discriminate]. split; [|reflexivity]. intros _.
        split; [discriminate|]. intros r' H. injection H as <-. exact Ehost.
    + split; [|discriminate]. split; [|reflexivity]. intros _.
      split; [discriminate|]. intros r' H. discriminate H.
Qed.

Lemma onLoad_checks_route_witness :
  onLoad Sample.gateway_world Sample.gateway_config = Some Sample.gateway_module /\
  url_host (r_url Sample.gateway_route) <> None /\
  onLoad Sample.gateway_world
    (mk_config "gw.example.com" true false "udp" []) = None.
Proof.
  assert (Hload : onLoad Sample.gateway_world Sample.gateway_config =
                  Some Sample.gateway_module) by (vm_compute; reflexivity).
  split; [exact Hload|]. split.
  - apply (proj1 (proj2 (proj2 (onLoad_checks_route Sample.gateway_world
                                  Sample.gateway_config)
                                Sample.gateway_module Hload))
             Sample.gateway_route eq_refl).
  - apply (proj2 (proj1 (onLoad_checks_route Sample.gateway_world
                           (mk_config "gw.example.com" true false "udp" [])))).
    split; [intro H; discriminate H|]. intros r H. vm_compute in H. discriminate H.
Defined.

(** *** The configured route and the Via chain *)

Lemma outRouteInVia_once (w : World) (u : url_t) (chain via : list sip_via_t) :
  outRouteInVia w u chain via =
  match via with
  | [] => false
  | _ :: _ => urlViaMatch w u chain false
  end.
Proof.
  induction via as [|v via IH]; [reflexivity|]. cbn [outRouteInVia].
  destruct (urlViaMatch w u chain false) eqn:E; [reflexivity|].
  rewrite IH. now destruct via.
Qed.

(** X4: the loop of [overrideDest] over the Via chain amounts to one test
    of the configured route against the chain, made when the chain is not
    empty; when that test succeeds [overrideDest] returns at once, leaving
    the module, the message and [dest] as they were, the default transport
    included. *)
Theorem static_route_found_skips_override (w : World) (s : State) :
  (static_route_in_via w s = true <->
   exists out,
     mOutRoute (fwd s) = Some out /\
     sip_via (sip_of s) <> [] /\
     urlViaMatch w (r_url out) (sip_via (sip_of s)) false = true) /\
  (static_route_in_via w s = true ->
   forall dest, overrideDest w s dest = (s, dest)).
Proof.
  unfold static_route_in_via, overrideDest.
  destruct (mOutRoute (fwd s)) as [out|].
  - rewrite outRouteInVia_once. split.
    + split.
      * intros H. exists out. destruct (sip_via (sip_of s)); [discriminate|].
        repeat split; [discriminate | exact H].
      * intros (out' & Hout & Hvia & Hmatch). injection Hout as <-.
        destruct (sip_via (sip_of s)); [now destruct Hvia | exact Hmatch].
    + intros H dest. now rewrite H.
  - split; [|discriminate]. split; [discriminate|].
    intros (out & H & _). discriminate H.
Qed.

Lemma static_route_found_skips_override_witness :
  let s := Sample.state Sample.gateway_module
             (mk_sip (mk_request sip_method_invite
                                 (Sample.sip_uri "bob" "example.org" []))
                     [mk_via "SIP/2.0/UDP" "gw.example.com" None (Some "z9hG4bK.1")]
                     [] (Some 70) (Some Sample.alice) (Some (Sample.bob None))
                     (Some "3848276298220188511@example.org") (Some 1) [])
             false in
  overrideDest Sample.gateway_world s dest_rq_url = (s, dest_rq_url).
Proof.
  intros s.
  apply (proj2 (static_route_found_skips_override Sample.gateway_world s)).
  vm_compute. reflexivity.
Defined.

(** *** Next hop from a Route entry carrying one marker *)

(** X5: from a top Route entry whose URI carries neither [fs-received] nor
    [fs-rport], [getDestinationFromRoute] returns that URI as it is; when it
    carries only [fs-received], with a value of 1 to 63 characters, the
    result has that value as host and the parameters of the Route URI
    without [fs-received]; when it carries only [fs-rport], with a value of
    1 to 7 characters, the result has that value as port and the parameters
    without [fs-rport].  In both cases neither marker is left. *)
Theorem next_hop_from_single_marker
        (sip : sip_t) (route : sip_route_t) (rest : list sip_route_t) :
  sip_route sip = route :: rest ->
  let u := r_url route in
  let ps := url_params u in
  (find (names "fs-received") ps = None ->
   find (names "fs-rport") ps = None ->
   getDestinationFromRoute sip = Some u) /\
  (forall tok v,
     find (names "fs-received") ps = Some tok ->
     param_value tok = Some v ->
     v <> EmptyString -> (String.length v < 64)%nat ->
     find (names "fs-rport") ps = None ->
     let d := mk_url (url_type u) (url_user u) (Some v) (url_port u)
                     (url_strip_param_string ps "fs-received") in
     getDestinationFromRoute sip = Some d /\
     url_has_param d "fs-received" = false /\
     url_has_param d "fs-rport" = false) /\
  (forall tok v,
     find (names "fs-rport") ps = Some tok ->
     param_value tok = Some v ->
     v <> EmptyString -> (String.length v < 8)%nat ->
     find (names "fs-received") ps = None ->
     let d := mk_url (url_type u) (url_user u) (url_host u) (Some v)
                     (url_strip_param_string ps "fs-rport") in
     getDestinationFromRoute sip = Some d /\
     url_has_param d "fs-received" = false /\
     url_has_param d "fs-rport" = false).
Proof.
  intros Hroute u ps. unfold getDestinationFromRoute. rewrite Hroute.
  fold u. fold ps. unfold url_param, buffer.
  split; [|split].
  - intros -> ->. cbn. now destruct u.
  - intros tok v Hf Hval Hv Hlen Hnone. rewrite Hf, Hval, Hnone. cbn [snd fst].
    apply Nat.leb_gt in Hlen. rewrite Hlen. cbn [snd negb String.eqb].
    destruct (String.eqb_spec v EmptyString); [contradiction|].
    cbn [negb]. split; [reflexivity|].
    split; rewrite url_has_param_find; cbn [url_params];
      [now rewrite find_strip_same | now rewrite find_strip_other].
  - intros tok v Hf Hval Hv Hlen Hnone. rewrite Hf, Hval, Hnone. cbn [snd fst].
    apply Nat.leb_gt in Hlen. rewrite Hlen. cbn [snd negb String.eqb].
    destruct (String.eqb_spec v EmptyString); [contradiction|].
    cbn [negb]. split; [reflexivity|].
    split; rewrite url_has_param_find; cbn [url_params];
      [now rewrite find_strip_other | now rewrite find_strip_same].
Qed.

Lemma next_hop_from_single_marker_witness :
  getDestinationFromRoute
    (set_sip_route Sample.invite
       [mk_route (mk_url url_sip None (Some "edge.example.net") None
                         ["lr"; "fs-rport=5062"]) []]) =
  Some (mk_url url_sip None (Some "edge.example.net") (Some "5062") ["lr"]).
Proof.
  apply (proj2 (proj2 (next_hop_from_single_marker
                         (set_sip_route Sample.invite
                            [mk_route (mk_url url_sip None (Some "edge.example.net")
                                              None ["lr"; "fs-rport=5062"]) []])
                         _ [] eq_refl)) "fs-rport=5062" "5062").
  - reflexivity.
  - reflexivity.
  - intro H; discriminate H.
  - simpl; lia.
  - reflexivity.
Defined.

(** *** The From tag in the branch *)

(** X6: without outgoing transaction the branch does not depend on the
    case of the letters of the From tag: two requests that agree on the
    fields entering the digest, their From tags being equal once
    lower-cased, get the same branch. *)
Theorem compute_branch_folds_from_tag_case
        (w : World) (string_server : string) (sip1 sip2 : sip_t)
        (from1 from2 : sip_addr_t) :
  sip_from sip1 = Some from1 ->
  sip_from sip2 = Some from2 ->
  a_url from1 = a_url from2 ->
  option_map CStr.lowercase (a_tag from1) =
  option_map CStr.lowercase (a_tag from2) ->
  rq_url (sip_request sip1) = rq_url (sip_request sip2) ->
  sip_call_id sip1 = sip_call_id sip2 ->
  option_map a_url (sip_to sip1) = option_map a_url (sip_to sip2) ->
  sip_cseq sip1 = sip_cseq sip2 ->
  map r_url (sip_route sip1) = map r_url (sip_route sip2) ->
  compute_branch w sip1 string_server None =
  compute_branch w sip2 string_server None.
Proof.
  intros Hf1 Hf2 Hurl Htag Hrq Hid Hto Hcseq Hroute.
  unfold compute_branch. do 3 f_equal.
  unfold branch_digest_input.
  rewrite !fold_route_urls, Hroute, Hrq, Hid, Hcseq, Hf1, Hf2. f_equal.
  unfold su_md5_stri0update. rewrite Hurl, Htag.
  destruct (sip_to sip1) as [to1|], (sip_to sip2) as [to2|];
    cbn in Hto; try discriminate; [|reflexivity].
  injection Hto as ->. reflexivity.
Qed.

Lemma compute_branch_folds_from_tag_case_witness :
  sip_from Sample.invite <> sip_from Sample.invite_upper_tag /\
  compute_branch Sample.world Sample.invite "proxy-1" None =
  compute_branch Sample.world Sample.invite_upper_tag "proxy-1" None.
Proof.
  split; [intro H; discriminate H|].
  apply (compute_branch_folds_from_tag_case Sample.world "proxy-1"
           Sample.invite Sample.invite_upper_tag
           Sample.alice
           (mk_addr (Sample.sip_uri "alice" "example.org" []) (Some "A73KSZLFL")));
    reflexivity.
Defined.

(** *** How a request ends *)

Lemma next_hop_deref (w : World) (s : State) :
  let s0 := after_route_pop w s in
  deref s0 (match sip_route (sip_of s0), getDestinationFromRoute (sip_of s0) with
            | _ :: _, Some u => dest_copy u
            | _, _ => dest_rq_url
            end) = next_hop w s.
Proof.
  cbv zeta. unfold next_hop.
  destruct (sip_route (sip_of (after_route_pop w s)));
    destruct (getDestinationFromRoute (sip_of (after_route_pop w s)));
    reflexivity.
Qed.

Lemma onRequest_resolve_outcomes (w : World) (s : State) :
  (too_many_hops s = true /\
   onRequest_resolve w s = Rejected (reply w 483 "Too Many Hops" s)) \/
  (too_many_hops s = false /\ bad_destination (next_hop w s) = true /\
   onRequest_resolve w s =
   Rejected (reply w 400 "Bad Request" (after_route_pop w s))) \/
  (too_many_hops s = false /\ bad_destination (next_hop w s) = false /\
   exists s1 dest,
     onRequest_resolve w s = Resolved s1 dest /\
     rewrites_uri_only (after_route_pop w s) s1).
Proof.
  pose proof (next_hop_deref w s) as Hd. cbv zeta in Hd.
  unfold onRequest_resolve.
  destruct (too_many_hops s); [left; split; reflexivity|right].
  set (s0 := after_route_pop w s) in *.
  set (dest := match sip_route (sip_of s0), getDestinationFromRoute (sip_of s0) with
               | _ :: _, Some u => dest_copy u
               | _, _ => dest_rq_url
               end) in *.
  match goal with
  | |- context [if ?c then Rejected _ else _] =>
      change c with (bad_destination (deref s0 dest))
  end.
  destruct (bad_destination (deref s0 dest)) eqn:Eb; rewrite Hd in Eb;
    [left; repeat split; assumption|right].
  split; [reflexivity|]. split; [exact Eb|].
  set (p := match url_params (deref s0 dest) with
            | [] => (s0, dest)
            | _ => _
            end).
  assert (Hp : rewrites_uri_only s0 (fst p)).
  { subst p. destruct (url_params (deref s0 dest)) as [|tok ps];
      [apply rewrites_uri_only_refl|].
    break_match; [apply store_rewrites_uri_only | apply rewrites_uri_only_refl]. }
  destruct p as [s2 d2]. cbn [fst] in Hp.
  pose proof (overrideDest_rewrites_uri_only w s2 d2) as Ho.
  destruct (overrideDest w s2 d2) as [s3 d3]. cbn [fst] in Ho.
  exists s3, d3. split; [reflexivity|].
  eapply rewrites_uri_only_trans; eassumption.
Qed.

Lemma header_actions_are_steps (l : list action) :
  forallb is_header_action l = true -> forallb is_step_action l = true.
Proof.
  induction l as [|a l IH]; [reflexivity|]. cbn [forallb].
  intros H. apply andb_true_iff in H. destruct H as (Ha & Hl).
  rewrite (IH Hl), andb_true_r. now destruct a.
Qed.

Lemma process_outcome (w : World) (a : registrar_answer) (s : State) :
  let server := getServerString (getAgent w) in
  exists steps outcome,
    ev_log (ev (process w a s)) = (ev_log (ev s) ++ steps ++ [outcome])%list /\
    forallb is_step_action steps = true /\
    ((too_many_hops s = true /\ steps = [] /\
      outcome = Reply 483 "Too Many Hops" server) \/
     (too_many_hops s = false /\ bad_destination (next_hop w s) = true /\
      steps = [] /\ outcome = Reply 400 "Bad Request" server) \/
     (too_many_hops s = false /\ bad_destination (next_hop w s) = false /\
      (outcome = Reply 500 "Internal Server Error" server \/
       is_forward_outcome outcome = true))).
Proof.
  cbv zeta. unfold process, onRequest.
  destruct (after_route_pop_fields w s)
    as (_ & _ & _ & _ & _ & _ & _ & Hlog0 & _).
  destruct (onRequest_resolve_outcomes w s)
    as [(Hh & ->) | [(Hh & Hb & ->) | (Hh & Hb & s1 & dest & -> & _ & _ & Hlog & _)]].
  - exists [], (Reply 483 "Too Many Hops" (getServerString (getAgent w))).
    split; [reflexivity|]. split; [reflexivity|]. left. now repeat split.
  - exists [], (Reply 400 "Bad Request" (getServerString (getAgent w))).
    cbn [reply emit ev ev_log app]. rewrite Hlog0.
    split; [reflexivity|]. split; [reflexivity|]. right; left. now repeat split.
  - rewrite Hlog0 in Hlog.
    assert (Hsend : forall sx dx pre,
               ev_log (ev sx) = (ev_log (ev s) ++ pre)%list ->
               forallb is_step_action pre = true ->
               exists steps outcome,
                 ev_log (ev (sendRequest w sx dx)) =
                   (ev_log (ev s) ++ steps ++ [outcome])%list /\
                 forallb is_step_action steps = true /\
                 is_forward_outcome outcome = true).
    { intros sx dx pre Hx Hpre.
      destruct (sendRequest_log w sx dx) as (headers & outcome & Hl & Hhd & Ho).
      exists (pre ++ headers)%list, outcome.
      rewrite Hl, Hx, <- !app_assoc. split; [reflexivity|].
      split; [|exact Ho].
      now rewrite forallb_app, Hpre, (header_actions_are_steps _ Hhd). }
    assert (Hfinish : forall st,
               (exists steps outcome,
                  ev_log (ev st) = (ev_log (ev s) ++ steps ++ [outcome])%list /\
                  forallb is_step_action steps = true /\
                  (outcome = Reply 500 "Internal Server Error"
                                   (getServerString (getAgent w)) \/
                   is_forward_outcome outcome = true)) ->
               exists steps outcome,
                 ev_log (ev st) = (ev_log (ev s) ++ steps ++ [outcome])%list /\
                 forallb is_step_action steps = true /\
                 ((too_many_hops s = true /\ steps = [] /\
                   outcome = Reply 483 "Too Many Hops" (getServerString (getAgent w))) \/
                  (too_many_hops s = false /\ bad_destination (next_hop w s) = true /\
                   steps = [] /\
                   outcome = Reply 400 "Bad Request" (getServerString (getAgent w))) \/
                  (too_many_hops s = false /\ bad_destination (next_hop w s) = false /\
                   (outcome = Reply 500 "Internal Server Error"
                                    (getServerString (getAgent w)) \/
                    is_forward_outcome outcome = true)))).
    { intros st (steps & outcome & H1 & H2 & H3). exists steps, outcome.
      split; [exact H1|]. split; [exact H2|]. right; right. now repeat split. }
    apply Hfinish.
    destruct (needs_gruu_lookup s1 dest).
    + set (s2 := emit (Fetch (deref s1 dest) false) (emit SuspendProcessing s1)).
      assert (Hlog2 : ev_log (ev s2) =
                (ev_log (ev s) ++ [SuspendProcessing; Fetch (deref s1 dest) false])%list).
      { subst s2. cbn [emit ev ev_log]. now rewrite Hlog, <- app_assoc. }
      assert (H500 : exists steps outcome,
                 ev_log (ev (reply w 500 "Internal Server Error" s2)) =
                   (ev_log (ev s) ++ steps ++ [outcome])%list /\
                 forallb is_step_action steps = true /\
                 (outcome = Reply 500 "Internal Server Error"
                                  (getServerString (getAgent w)) \/
                  is_forward_outcome outcome = true)).
      { exists [SuspendProcessing; Fetch (deref s1 dest) false],
          (Reply 500 "Internal Server Error" (getServerString (getAgent w))).
        cbn [reply emit ev ev_log]. fold s2. rewrite Hlog2, <- app_assoc.
        split; [reflexivity|]. split; [reflexivity | now left]. }
      destruct a as [r| |]; cbn [deliver]; [|exact H500..].
      destruct (onRecordFound_cases w r s2) as [(c & _ & ->) | (_ & ->)];
        [|exact H500].
      destruct (Hsend (set_sip s2 (set_rq_url (sip_of s2)
                  (set_url_params (m_url (toSofiaContact c))
                     (url_strip_param_string
                        (url_strip_param_string
                           (url_params (m_url (toSofiaContact c))) "gr") "regid"))))
                  (dest_copy (m_url (toSofiaContact c)))
                  [SuspendProcessing; Fetch (deref s1 dest) false] Hlog2 eq_refl)
        as (steps & outcome & H1 & H2 & H3).
      exists steps, outcome. auto.
    + destruct (Hsend s1 dest [] ltac:(now rewrite app_nil_r) eq_refl)
        as (steps & outcome & H1 & H2 & H3).
      exists steps, outcome. auto.
Qed.

(** X7: a request without Max-Forwards is never answered 483 and ends its
    processing still without Max-Forwards; a request with Max-Forwards 0 is
    answered 483 and nothing else, whatever its Via chain. *)
Theorem max_forwards_absent_or_zero (w : World) (s : State) :
  (sip_max_forwards (sip_of s) = None ->
   forall a,
     sip_max_forwards (sip_of (process w a s)) = None /\
     forall phrase server,
       In (Reply 483 phrase server) (ev_log (ev (process w a s))) ->
       In (Reply 483 phrase server) (ev_log (ev s))) /\
  (sip_max_forwards (sip_of s) = Some 0 ->
   forall a, process w a s = reply w 483 "Too Many Hops" s).
Proof.
  split.
  - intros Hnone a.
    assert (Hh : too_many_hops s = false) by (unfold too_many_hops; now rewrite Hnone).
    split.
    + destruct (process_keeps_routing w a s Hh) as (_ & _ & -> & _).
      destruct (after_route_pop_fields w s) as (_ & _ & -> & _).
      now rewrite Hnone.
    + intros phrase server Hin.
      destruct (process_outcome w a s)
        as (steps & outcome & Hlog & Hsteps & Hcase).
      rewrite Hlog, !in_app_iff in Hin. destruct Hin as [Hin | [Hin | [Hin | []]]].
      * exact Hin.
      * rewrite forallb_forall in Hsteps. now specialize (Hsteps _ Hin).
      * subst outcome.
        destruct Hcase as [(H & _) | [(_ & _ & _ & H) | (_ & _ & [H | H])]];
          [congruence | discriminate H | discriminate H | discriminate H].
  - intros Hzero a.
    assert (Hh : too_many_hops s = true).
    { unfold too_many_hops. rewrite Hzero. apply Z.leb_le.
      unfold countVia. rewrite countVia_from_mod by (unfold UINT32_MOD; lia).
      apply Z.mod_pos_bound. unfold UINT32_MOD. lia. }
    unfold process, onRequest.
    destruct (onRequest_resolve_outcomes w s)
      as [(_ & ->) | [(H & _) | (H & _)]]; [reflexivity | congruence..].
Qed.

Lemma max_forwards_absent_or_zero_witness :
  sip_max_forwards
    (sip_of (process Sample.world LookupError
               (Sample.state Sample.default_module
                  Sample.invite_no_max_forwards false))) = None /\
  process Sample.world LookupError
    (Sample.state Sample.default_module Sample.invite_zero_hops false) =
  reply Sample.world 483 "Too Many Hops"
    (Sample.state Sample.default_module Sample.invite_zero_hops false).
Proof.
  split.
  - apply (proj1 (max_forwards_absent_or_zero Sample.world
                    (Sample.state Sample.default_module
                       Sample.invite_no_max_forwards false)) eq_refl LookupError).
  - apply (proj2 (max_forwards_absent_or_zero Sample.world
                    (Sample.state Sample.default_module
                       Sample.invite_zero_hops false)) eq_refl LookupError).
Defined.

(** X8: once the Max-Forwards test is passed, a request is answered 400 Bad
    Request exactly when its next hop (the URI derived from the top Route
    entry left after popping, else the Request-URI) is neither sip: nor
    sips:, has no host, or has a host containing [@]; the reply is then the
    only action, and it finds the message with Max-Forwards already
    decremented and the Route entries naming this proxy already popped. *)
Theorem bad_destination_rejected (w : World) (s : State) :
  too_many_hops s = false ->
  (bad_destination (next_hop w s) = true <->
   (url_type (next_hop w s) <> url_sip /\ url_type (next_hop w s) <> url_sips) \/
   url_host (next_hop w s) = None \/
   exists host, url_host (next_hop w s) = Some host /\
                CStr.strchr host "@"%char = true) /\
  (bad_destination (next_hop w s) = true ->
   forall a,
     process w a s = reply w 400 "Bad Request" (after_route_pop w s) /\
     onRequest w s = reply w 400 "Bad Request" (after_route_pop w s)) /\
  (bad_destination (next_hop w s) = false ->
   forall a phrase server,
     In (Reply 400 phrase server) (ev_log (ev (process w a s))) ->
     In (Reply 400 phrase server) (ev_log (ev s))).
Proof.
  intros Hh. split; [|split].
  - unfold bad_destination.
    destruct (url_type (next_hop w s)), (url_host (next_hop w s)) as [h|];
      cbn; split; try (intros [(H1 & H2) | [H | (h' & H & H')]]);
      try congruence; try discriminate; intros H;
      try (right; right; exists h; now split);
      try (right; left; reflexivity);
      try (left; split; discriminate);
      try (injection H as <-; exact H').
  - intros Hb a. unfold process, onRequest.
    destruct (onRequest_resolve_outcomes w s)
      as [(H & _) | [(_ & _ & ->) | (_ & H & _)]];
      [congruence | now split | congruence].
  - intros Hb a phrase server Hin.
    destruct (process_outcome w a s)
      as (steps & outcome & Hlog & Hsteps & Hcase).
    rewrite Hlog, !in_app_iff in Hin. destruct Hin as [Hin | [Hin | [Hin | []]]].
    + exact Hin.
    + rewrite forallb_forall in Hsteps. now specialize (Hsteps _ Hin).
    + subst outcome.
      destruct Hcase as [(H & _) | [(_ & H & _) | (_ & _ & [H | H])]];
        [congruence | congruence | discriminate H | discriminate H].
Qed.

Lemma bad_destination_rejected_witness :
  onRequest Sample.world
    (Sample.state Sample.default_module Sample.invite_two_at false) =
  reply Sample.world 400 "Bad Request"
    (Sample.state Sample.default_module
       (set_max_forwards Sample.invite_two_at (Some 69)) false).
Proof.
  assert (Hh : too_many_hops
                 (Sample.state Sample.default_module Sample.invite_two_at false)
               = false) by (vm_compute; reflexivity).
  assert (Hb : bad_destination
                 (next_hop Sample.world
                    (Sample.state Sample.default_module Sample.invite_two_at false))
               = true) by (vm_compute; reflexivity).
  destruct (bad_destination_rejected Sample.world
              (Sample.state Sample.default_module Sample.invite_two_at false) Hh)
    as (_ & Hrej & _).
  destruct (Hrej Hb LookupError) as (_ & ->). vm_compute. reflexivity.
Defined.

(** X9: whatever the request and the registrar's answer, the processing of
    an event performs exactly one final action (a reply, a drop or a send)
    and performs it last: the actions before it only suspend, query the
    registrar or add a header or a transaction, so a request is never both
    answered and sent, nor answered twice. *)
Theorem one_final_action (w : World) (a : registrar_answer) (s : State) :
  exists steps outcome,
    ev_log (ev (process w a s)) = (ev_log (ev s) ++ steps ++ [outcome])%list /\
    forallb is_step_action steps = true /\
    (forall x, In x steps -> is_final_action x = false) /\
    is_final_action outcome = true.
Proof.
  destruct (process_outcome w a s) as (steps & outcome & Hlog & Hsteps & Hcase).
  exists steps, outcome. split; [exact Hlog|]. split; [exact Hsteps|]. split.
  - intros x Hx. rewrite forallb_forall in Hsteps. specialize (Hsteps x Hx).
    now destruct x.
  - destruct Hcase as [(_ & _ & ->) | [(_ & _ & _ & ->) | (_ & _ & [-> | H])]];
      try reflexivity. now destruct outcome.
Qed.

(** *** What [sendRequest] does with a request it keeps *)

Lemma sendRequest_when_not_self (w : World) (s : State) (dest : dest_t) :
  forwards_to_self w s dest = false ->
  let d := resolve_etc_hosts w s dest in
  let tport := find_tport w s d in
  let s' := before_branch w s dest in
  sendRequest w s dest =
  if isLooping s' (CStr.advance 7 (branch_of w s dest))
  then reply w 482 "Loop Detected" s'
  else emit (Send (deref s' d) (branch_of w s dest) tport) s'.
Proof.
  intros Hself. cbv zeta. unfold sendRequest.
  change (is_some (getOutgoingAgent (ev s)) &&
          Agent_isUs (getAgent w) (deref s (resolve_etc_hosts w s dest)) true)
    with (forwards_to_self w s dest).
  rewrite Hself, regid_mismatch_never. reflexivity.
Qed.

Lemma emit_differs (a b : action) (s1 s2 : State) :
  emit a s1 = emit b s2 -> a = b.
Proof.
  intros H. apply (f_equal (fun st => ev_log (ev st))) in H.
  cbn [emit ev ev_log] in H. now apply app_inj_tail in H.
Qed.

Lemma before_branch_keeps (w : World) (s : State) (dest : dest_t) :
  keeps_routing s (before_branch w s dest) /\
  fwd (before_branch w s dest) = fwd s.
Proof.
  unfold before_branch. set (tp := find_tport _ _ _).
  destruct (add_route_headers_keeps w s tp) as (K1 & _ & F1).
  destruct (clean_push_params_keeps (add_route_headers w s tp)) as (K2 & _ & F2).
  destruct (outgoing_transaction_keeps w
              (clean_push_params (add_route_headers w s tp))) as (K3 & _ & F3).
  split; [|congruence].
  eapply keeps_routing_trans; [exact K1|].
  eapply keeps_routing_trans; eassumption.
Qed.

(** X10: [sendRequest] drops a request, terminating the event without
    reply, send or write to the message, exactly when the event has an
    outgoing agent and the destination, after the /etc/hosts substitution,
    is this proxy; in particular an event without outgoing agent is never
    dropped.  A request that is not dropped is neither dropped nor rejected
    for lack of a transport: whatever the transport lookup gave, found or
    not, the only reply [sendRequest] makes is the 482 of the loop test,
    and the request is otherwise handed to [send] with the result of the
    lookup as it is. *)
Theorem dropped_only_when_forwarding_to_self
        (w : World) (s : State) (dest : dest_t) :
  (forwards_to_self w s dest = true <->
   sendRequest w s dest = emit TerminateProcessing s) /\
  (forwards_to_self w s dest = false ->
   In TerminateProcessing (ev_log (ev (sendRequest w s dest))) ->
   In TerminateProcessing (ev_log (ev s))) /\
  (getOutgoingAgent (ev s) = None -> forwards_to_self w s dest = false) /\
  (forwards_to_self w s dest = false ->
   forall status phrase server,
     In (Reply status phrase server) (ev_log (ev (sendRequest w s dest))) ->
     In (Reply status phrase server) (ev_log (ev s)) \/
     (status = 482 /\
      isLooping (before_branch w s dest)
                (CStr.advance 7 (branch_of w s dest)) = true)) /\
  (forwards_to_self w s dest = false ->
   sendRequest w s dest =
   if isLooping (before_branch w s dest) (CStr.advance 7 (branch_of w s dest))
   then reply w 482 "Loop Detected" (before_branch w s dest)
   else emit (Send (deref (before_branch w s dest) (resolve_etc_hosts w s dest))
                   (branch_of w s dest)
                   (find_tport w s (resolve_etc_hosts w s dest)))
             (before_branch w s dest)).
Proof.
  split; [|split; [|split; [|split]]].
  - split.
    + intros Hself. unfold sendRequest.
      change (is_some (getOutgoingAgent (ev s)) &&
              Agent_isUs (getAgent w) (deref s (resolve_etc_hosts w s dest)) true)
        with (forwards_to_self w s dest).
      now rewrite Hself.
    + intros E. destruct (forwards_to_self w s dest) eqn:Hself; [reflexivity|].
      rewrite (sendRequest_when_not_self w s dest Hself) in E.
      destruct (isLooping _ _); apply emit_differs in E; discriminate E.
  - intros Hself Hin.
    destruct (before_branch_log w s dest) as (rest & Hlog & Hrest & _).
    rewrite (sendRequest_when_not_self w s dest Hself) in Hin.
    assert (Hb : In TerminateProcessing (ev_log (ev (before_branch w s dest)))).
    { destruct (isLooping _ _); cbn [reply emit ev ev_log] in Hin;
        apply in_app_iff in Hin; destruct Hin as [Hin | [Hin | []]];
        try discriminate Hin; exact Hin. }
    rewrite Hlog, !in_app_iff in Hb. destruct Hb as [Hb | [Hb | Hb]].
    + exact Hb.
    + destruct (_ && _) in Hb; [destruct Hb as [Hb | []]; discriminate Hb | destruct Hb].
    + rewrite forallb_forall in Hrest. now specialize (Hrest _ Hb).
  - intros Hnone. unfold forwards_to_self. now rewrite Hnone.
  - intros Hself status phrase server Hin.
    destruct (before_branch_log w s dest) as (rest & Hlog & Hrest & _).
    rewrite (sendRequest_when_not_self w s dest Hself) in Hin.
    assert (Hb : In (Reply status phrase server)
                    (ev_log (ev (before_branch w s dest))) ->
                 In (Reply status phrase server) (ev_log (ev s))).
    { rewrite Hlog, !in_app_iff. intros [H | [H | H]]; [exact H | |].
      - destruct (_ && _) in H; [destruct H as [H | []]; discriminate H | destruct H].
      - rewrite forallb_forall in Hrest. now specialize (Hrest _ H). }
    destruct (isLooping _ _); cbn [reply emit ev ev_log] in Hin;
      apply in_app_iff in Hin; destruct Hin as [Hin | [Hin | []]];
      try discriminate Hin; auto.
    injection Hin as <- _ _. right. now split.
  - intros Hself. exact (sendRequest_when_not_self w s dest Hself).
Qed.

Lemma dropped_only_when_forwarding_to_self_witness :
  ~ In TerminateProcessing
      (ev_log (ev (sendRequest Sample.world
                     (Sample.state Sample.default_module Sample.invite false)
                     dest_rq_url))).
Proof.
  intros H.
  apply (proj1 (proj2 (dropped_only_when_forwarding_to_self Sample.world
                         (Sample.state Sample.default_module Sample.invite false)
                         dest_rq_url))) in H.
  - simpl in H. exact H.
  - vm_compute. reflexivity.
Defined.

Lemma headers_keep_agents (w : World) (s : State) (tp : option tport_t) :
  getOutgoingAgent (ev (clean_push_params (add_route_headers w s tp))) =
    getOutgoingAgent (ev s) /\
  getIncomingAgent (ev (clean_push_params (add_route_headers w s tp))) =
    getIncomingAgent (ev s).
Proof.
  unfold clean_push_params, add_route_headers.
  repeat break_match; split; reflexivity.
Qed.

(** X11: a request that [sendRequest] keeps gets its actions in one fixed
    order: a Record-Route if the event's flag is set and the method is
    INVITE or SUBSCRIBE, a Path carrying the proxy's unique id if add-path
    is configured and the method is REGISTER, an outgoing transaction if the
    event has an outgoing agent that is not a transaction while its incoming
    agent is one, and last the 482 reply or the send, which carries the
    transport that the headers were given.  Record-Route and Path are never
    both added. *)
Theorem sendRequest_actions_in_order (w : World) (s : State) (dest : dest_t) :
  forwards_to_self w s dest = false ->
  let tport := find_tport w s (resolve_etc_hosts w s dest) in
  let method := rq_method (sip_request (sip_of s)) in
  let rr :=
    if mRecordRouteAdded (ev s) &&
       (sip_method_eqb method sip_method_invite ||
        sip_method_eqb method sip_method_subscribe)
    then [AddRecordRoute tport] else [] in
  let path :=
    if mAddPath (fwd s) && sip_method_eqb method sip_method_register
    then [AddPathHeader tport (CStr.c_str (getUniqueId (getAgent w)))] else [] in
  let tx :=
    match getOutgoingAgent (ev s) with
    | Some OutgoingAgent_stateless =>
        if is_IncomingTransaction (getIncomingAgent (ev s))
        then [CreateOutgoingTransaction] else []
    | _ => []
    end in
  (exists outcome,
     ev_log (ev (sendRequest w s dest)) =
       (ev_log (ev s) ++ rr ++ path ++ tx ++ [outcome])%list /\
     (outcome = Reply 482 "Loop Detected" (getServerString (getAgent w)) \/
      exists u, outcome = Send u (branch_of w s dest) tport)) /\
  (rr = [] \/ path = []).
Proof.
  intros Hself tport method rr path tx.
  assert (Hlog : ev_log (ev (before_branch w s dest)) =
                 (ev_log (ev s) ++ rr ++ path ++ tx)%list).
  { unfold before_branch. fold tport.
    destruct (headers_keep_agents w s tport) as (Hout & Hin).
    destruct (clean_push_params_keeps (add_route_headers w s tport))
      as (_ & Hl & _).
    pose proof (add_route_headers_log w s tport) as Hh. cbv zeta in Hh.
    fold method rr path in Hh.
    unfold outgoing_transaction, createOutgoingTransaction.
    rewrite Hout, Hin. subst tx.
    destruct (getOutgoingAgent (ev s)) as [[|tr]|]; cbn [is_some as_OutgoingTransaction fst];
      try (rewrite Hl, Hh, <- ?app_assoc, ?app_nil_r; reflexivity).
    destruct (is_IncomingTransaction (getIncomingAgent (ev s))); cbn [fst];
      [cbn [emit set_outgoing ev ev_log] |];
      rewrite Hl, Hh, <- ?app_assoc, ?app_nil_r; reflexivity. }
  split.
  - rewrite (sendRequest_when_not_self w s dest Hself).
    destruct (isLooping _ _); cbn [reply emit ev ev_log]; rewrite Hlog, <- !app_assoc;
      eexists; (split; [reflexivity|]); [now left | right; eexists; reflexivity].
  - subst rr path method.
    destruct (rq_method (sip_request (sip_of s))); cbn;
      rewrite ?andb_false_r; auto.
Qed.

Lemma sendRequest_actions_in_order_witness :
  exists outcome,
    ev_log (ev (sendRequest Sample.world Sample.register_looping dest_rq_url)) =
    [AddPathHeader None "proxy-1"; outcome].
Proof.
  assert (Hself : forwards_to_self Sample.world Sample.register_looping
                    dest_rq_url = false) by (vm_compute; reflexivity).
  destruct (sendRequest_actions_in_order Sample.world Sample.register_looping
              dest_rq_url Hself) as ((outcome & Hlog & _) & _).
  exists outcome. rewrite Hlog. vm_compute. reflexivity.
Defined.

Lemma clean_push_params_sip (s1 s2 : State) :
  sip_of s1 = sip_of s2 -> fwd s1 = fwd s2 ->
  sip_of (clean_push_params s1) = sip_of (clean_push_params s2).
Proof.
  destruct s1 as [f1 [sip1 rr1 o1 i1 l1]], s2 as [f2 [sip2 rr2 o2 i2 l2]].
  cbn. intros -> ->. unfold clean_push_params. cbn.
  destruct (sip_contact sip2); [reflexivity|]. now destruct (negb _).
Qed.

Lemma clean_after_headers (w : World) (s : State) (tp : option tport_t) :
  sip_of (clean_push_params (add_route_headers w s tp)) =
  sip_of (clean_push_params s).
Proof.
  destruct (add_route_headers_keeps w s tp) as (_ & Hsip & Hfwd).
  now apply clean_push_params_sip.
Qed.

Lemma branch_of_prefix (w : World) (s : State) (dest : dest_t) :
  exists token, branch_of w s dest = "branch=z9hG4bK." ++ token.
Proof. unfold branch_of, compute_branch. eexists. reflexivity. Qed.

(** X12: the branch [sendRequest] sends with is taken from the event's
    outgoing transaction when it has one, from the transaction it creates
    when the event has a plain outgoing agent and an incoming transaction,
    in both cases as the first 26 characters of the transaction's branch id
    after [branch=z9hG4bK.]; otherwise it is computed from the message as it
    stands after the push parameters were cleaned.  A created transaction
    becomes the event's outgoing agent. *)
Theorem branch_follows_transaction (w : World) (s : State) (dest : dest_t) :
  let uid := CStr.c_str (getUniqueId (getAgent w)) in
  let digest_branch := compute_branch w (sip_of (clean_push_params s)) uid None in
  branch_of w s dest =
    match getOutgoingAgent (ev s) with
    | Some (OutgoingAgent_transaction tr) =>
        "branch=z9hG4bK." ++ CStr.strncpy 26 (getBranchId tr)
    | Some OutgoingAgent_stateless =>
        if is_IncomingTransaction (getIncomingAgent (ev s))
        then "branch=z9hG4bK." ++ CStr.strncpy 26 (new_transaction_branch w)
        else digest_branch
    | None => digest_branch
    end /\
  getOutgoingAgent (ev (before_branch w s dest)) =
    match getOutgoingAgent (ev s) with
    | Some OutgoingAgent_stateless =>
        if is_IncomingTransaction (getIncomingAgent (ev s))
        then Some (OutgoingAgent_transaction (mk_out_tr (new_transaction_branch w)))
        else Some OutgoingAgent_stateless
    | agent => agent
    end /\
  (forwards_to_self w s dest = false ->
   sendRequest w s dest =
     reply w 482 "Loop Detected" (before_branch w s dest) \/
   sendRequest w s dest =
     emit (Send (deref (before_branch w s dest) (resolve_etc_hosts w s dest))
                (branch_of w s dest)
                (find_tport w s (resolve_etc_hosts w s dest)))
          (before_branch w s dest)).
Proof.
  cbv zeta. unfold branch_of, before_branch.
  set (tp := find_tport w s (resolve_etc_hosts w s dest)).
  destruct (headers_keep_agents w s tp) as (Hout & Hin).
  pose proof (clean_after_headers w s tp) as Hsip.
  destruct (outgoing_transaction_keeps w
              (clean_push_params (add_route_headers w s tp))) as (_ & Hsip' & _).
  split; [|split].
  - rewrite Hsip', Hsip. unfold outgoing_transaction, createOutgoingTransaction.
    rewrite Hout, Hin.
    destruct (getOutgoingAgent (ev s)) as [[|tr]|]; cbn [is_some as_OutgoingTransaction snd];
      try reflexivity.
    destruct (is_IncomingTransaction (getIncomingAgent (ev s))); reflexivity.
  - unfold outgoing_transaction, createOutgoingTransaction. rewrite Hout, Hin.
    destruct (getOutgoingAgent (ev s)) as [[|tr]|] eqn:E;
      cbn [is_some as_OutgoingTransaction fst]; try (now rewrite Hout).
    destruct (is_IncomingTransaction (getIncomingAgent (ev s)));
      cbn [fst]; [reflexivity | now rewrite Hout].
  - intros Hself. pose proof (sendRequest_when_not_self w s dest Hself) as E.
    cbv zeta in E. unfold branch_of, before_branch in E. fold tp in E.
    rewrite E. destruct (isLooping _ _); [now left | now right].
Qed.

Lemma branch_follows_transaction_witness :
  exists u tport,
    ev_log (ev (sendRequest Sample.world
                  (mk_state Sample.default_module
                     (mk_ev Sample.invite false (Some OutgoingAgent_stateless)
                            (Some IncomingAgent_transaction) []))
                  dest_rq_url)) =
    [CreateOutgoingTransaction;
     Send u "branch=z9hG4bK.sLpYx3Qm0aZk9Tg7Wb2Nc5Re1V" tport].
Proof.
  set (s := mk_state Sample.default_module
              (mk_ev Sample.invite false (Some OutgoingAgent_stateless)
                     (Some IncomingAgent_transaction) [])).
  assert (Hself : forwards_to_self Sample.world s dest_rq_url = false)
    by (vm_compute; reflexivity).
  destruct (branch_follows_transaction Sample.world s dest_rq_url)
    as (Hbranch & _ & Hsend).
  destruct (Hsend Hself) as [E | E]; rewrite E.
  - exfalso. apply (f_equal (fun st => ev_log (ev st))) in E.
    vm_compute in E. discriminate E.
  - rewrite Hbranch. eexists _, _. vm_compute. reflexivity.
Defined.

(** X13: a request that [sendRequest] keeps is answered 482 Loop Detected
    exactly when some Via entry of the message carries, as its branch, the
    computed branch string without its leading [branch=], magic cookie
    included; a Via entry without branch never counts.  Exactly when no Via
    entry carries it, the request is handed to [send], with the destination
    after the /etc/hosts substitution, the computed branch and the transport
    found for that destination. *)
Theorem loop_rejected_iff_branch_in_via (w : World) (s : State) (dest : dest_t) :
  forwards_to_self w s dest = false ->
  (sendRequest w s dest = reply w 482 "Loop Detected" (before_branch w s dest) <->
   exists v tok,
     In v (sip_via (sip_of s)) /\ v_branch v = Some tok /\
     branch_of w s dest = "branch=" ++ tok) /\
  (exists token, branch_of w s dest = "branch=z9hG4bK." ++ token) /\
  (sendRequest w s dest =
     emit (Send (deref (before_branch w s dest) (resolve_etc_hosts w s dest))
                (branch_of w s dest)
                (find_tport w s (resolve_etc_hosts w s dest)))
          (before_branch w s dest) <->
   ~ exists v tok,
       In v (sip_via (sip_of s)) /\ v_branch v = Some tok /\
       branch_of w s dest = "branch=" ++ tok).
Proof.
  intros Hself.
  rewrite (sendRequest_when_not_self w s dest Hself).
  destruct (before_branch_keeps w s dest) as ((Hvia & _) & _).
  destruct (branch_of_prefix w s dest) as (token & Hb).
  assert (Hadv : CStr.advance 7 (branch_of w s dest) = "z9hG4bK." ++ token)
    by (rewrite Hb; reflexivity).
  unfold isLooping. rewrite Hvia, Hadv.
  destruct (isLooping_from (sip_via (sip_of s)) ("z9hG4bK." ++ token)) eqn:E.
  - assert (Hex : exists v tok,
               In v (sip_via (sip_of s)) /\ v_branch v = Some tok /\
               branch_of w s dest = "branch=" ++ tok).
    { apply isLooping_from_spec in E. destruct E as (v & Hin & Hv).
      exists v, ("z9hG4bK." ++ token). now rewrite Hb. }
    split; [|split].
    + split; [intros _; exact Hex | reflexivity].
    + now exists token.
    + split; [|intros Hno; now destruct Hno].
      intros H. apply emit_differs in H. discriminate H.
  - assert (Hno : ~ exists v tok,
               In v (sip_via (sip_of s)) /\ v_branch v = Some tok /\
               branch_of w s dest = "branch=" ++ tok).
    { intros (v & tok & Hin & Hv & Htok). rewrite Hb in Htok.
      injection Htok as <-.
      assert (isLooping_from (sip_via (sip_of s)) ("z9hG4bK." ++ token) = true)
        by (apply isLooping_from_spec; now exists v).
      congruence. }
    split; [|split].
    + split; [|intros Hex; now destruct Hno].
      intros H. apply emit_differs in H. discriminate H.
    + now exists token.
    + split; [intros _; exact Hno | reflexivity].
Qed.

Lemma loop_rejected_iff_branch_in_via_witness :
  sendRequest Sample.world Sample.invite_looping dest_rq_url =
  reply Sample.world 482 "Loop Detected"
        (before_branch Sample.world Sample.invite_looping dest_rq_url).
Proof.
  assert (Hself : forwards_to_self Sample.world Sample.invite_looping
                    dest_rq_url = false) by (vm_compute; reflexivity).
  apply (proj1 (loop_rejected_iff_branch_in_via Sample.world
                  Sample.invite_looping dest_rq_url Hself)).
  exists Sample.looping_via, "z9hG4bK.Hq7rT2mVx0cPz8Lk4Ns6Yb1Wd3".
  split; [simpl; left; reflexivity|]. split; [reflexivity|].
  vm_compute. reflexivity.
Defined.

(** *** The destination handed to [send] *)

Lemma sendRequest_sends (w : World) (s : State) (dest : dest_t)
      (d : url_t) (b : string) (tp : option tport_t) :
  In (Send d b tp) (ev_log (ev (sendRequest w s dest))) ->
  In (Send d b tp) (ev_log (ev s)) \/
  (sendRequest w s dest = emit (Send d b tp) (before_branch w s dest) /\
   d = deref (before_branch w s dest) (resolve_etc_hosts w s dest) /\
   tp = find_tport w s (resolve_etc_hosts w s dest)).
Proof.
  intros Hin.
  destruct (before_branch_log w s dest) as (rest & Hlog & Hrest & _).
  assert (Hb : In (Send d b tp) (ev_log (ev (before_branch w s dest))) ->
               In (Send d b tp) (ev_log (ev s))).
  { rewrite Hlog, !in_app_iff. intros [H | [H | H]]; [exact H | |].
    - destruct (_ && _) in H; [destruct H as [H | []]; discriminate H | destruct H].
    - rewrite forallb_forall in Hrest. now specialize (Hrest _ H). }
  destruct (sendRequest_result w s dest) as [E | [E | (branch & E)]];
    rewrite E in Hin; cbn [reply emit ev ev_log] in Hin;
    apply in_app_iff in Hin; destruct Hin as [Hin | [Hin | []]];
    try discriminate Hin; auto.
  injection Hin as <- <- <-. right. now repeat split.
Qed.

(** X14: when the host of the destination is found in /etc/hosts, the
    self-forwarding test, the transport lookup and the send all use a
    duplicate of the destination carrying the resolved address, with the
    parameters the destination had on entry (the push parameters are not
    cleaned from it); the Request-URI of the message keeps its host. *)
Theorem hosts_override_spares_message
        (w : World) (s : State) (dest : dest_t) (host ip : string) :
  url_host (deref s dest) = Some host ->
  EtcHostsResolver_resolve w host = Some ip ->
  let d := set_url_host (deref s dest) (Some ip) in
  let tport := if is_some (getOutgoingAgent (ev s))
               then match tport_name_by_url w d with
                    | Some name => tport_by_name w name
                    | None => None
                    end
               else None in
  forwards_to_self w s dest =
    is_some (getOutgoingAgent (ev s)) && Agent_isUs (getAgent w) d true /\
  url_host (rq_url (sip_request (sip_of (sendRequest w s dest)))) =
    url_host (rq_url (sip_request (sip_of s))) /\
  (forwards_to_self w s dest = false ->
   sendRequest w s dest =
     reply w 482 "Loop Detected" (before_branch w s dest) \/
   sendRequest w s dest =
     emit (Send d (branch_of w s dest) tport) (before_branch w s dest)).
Proof.
  intros Hhost Hip d tport.
  assert (Hres : resolve_etc_hosts w s dest = dest_copy d).
  { unfold resolve_etc_hosts. now rewrite Hhost, Hip. }
  split; [|split].
  - unfold forwards_to_self. now rewrite Hres.
  - destruct (sendRequest_rq_url w s dest) as [-> | ->]; [reflexivity|].
    pose proof (removeParamsFromUrl_fields (mParamsToRemove (fwd s))
                  (rq_url (sip_request (sip_of s)))) as H.
    cbv zeta in H. congruence.
  - intros Hself. rewrite (sendRequest_when_not_self w s dest Hself).
    rewrite Hres. unfold find_tport. cbn [deref]. fold tport.
    destruct (isLooping _ _); [now left | now right].
Qed.

Lemma hosts_override_spares_message_witness :
  let s := Sample.state Sample.default_module Sample.invite_by_name false in
  exists branch tport,
    ev_log (ev (sendRequest Sample.gateway_world s dest_rq_url)) =
      [Send (Sample.sip_uri "bob" "192.0.2.9" ["pn-tok=xyz"]) branch tport] /\
    rq_url (sip_request (sip_of (sendRequest Sample.gateway_world s dest_rq_url))) =
      Sample.sip_uri "bob" "bob.example.org" [].
Proof.
  intros s.
  assert (Hself : forwards_to_self Sample.gateway_world s dest_rq_url = false)
    by (vm_compute; reflexivity).
  destruct (hosts_override_spares_message Sample.gateway_world s dest_rq_url
              "bob.example.org" "192.0.2.9" eq_refl eq_refl)
    as (_ & _ & Hsend).
  destruct (Hsend Hself) as [E | E].
  - exfalso. apply (f_equal (fun st => ev_log (ev st))) in E.
    vm_compute in E. discriminate E.
  - rewrite E. eexists _, _. split; vm_compute; reflexivity.
Defined.

(** X15: when [dest] is the Request-URI of the message and its host is not
    in /etc/hosts, the destination handed to [send] is the Request-URI as
    cleaned, free of every configured parameter; when [dest] is a URI apart
    from the message, it is handed over as it is, or with only its host
    replaced by the /etc/hosts address, the cleaning not reaching it. *)
Theorem sent_destination_follows_dest
        (w : World) (s : State) (d : url_t) (b : string) (tp : option tport_t) :
  (resolve_etc_hosts w s dest_rq_url = dest_rq_url ->
   In (Send d b tp) (ev_log (ev (sendRequest w s dest_rq_url))) ->
   In (Send d b tp) (ev_log (ev s)) \/
   (d = rq_url (sip_request (sip_of (sendRequest w s dest_rq_url))) /\
    d = removeParamsFromUrl (rq_url (sip_request (sip_of s)))
                            (mParamsToRemove (fwd s)) /\
    forall p, In p (mParamsToRemove (fwd s)) -> url_has_param d p = false)) /\
  (forall u,
     In (Send d b tp) (ev_log (ev (sendRequest w s (dest_copy u)))) ->
     In (Send d b tp) (ev_log (ev s)) \/
     d = u \/
     exists host ip,
       url_host u = Some host /\ EtcHostsResolver_resolve w host = Some ip /\
       d = set_url_host u (Some ip)).
Proof.
  split.
  - intros Hres Hin.
    destruct (sendRequest_sends w s dest_rq_url d b tp Hin) as [H | (E & -> & _)];
      [now left | right].
    rewrite Hres in *. cbn [deref] in *.
    destruct (before_branch_sip w s dest_rq_url) as (Hrq & _).
    split; [now rewrite E|]. split; [exact Hrq|].
    intros p Hp. rewrite Hrq. now apply removeParamsFromUrl_absent.
  - intros u Hin.
    destruct (sendRequest_sends w s (dest_copy u) d b tp Hin) as [H | (_ & -> & _)];
      [now left | right].
    unfold resolve_etc_hosts. cbn [deref].
    destruct (url_host u) as [host|] eqn:Eh; [|now left].
    destruct (EtcHostsResolver_resolve w host) as [ip|] eqn:Ei; [|now left].
    right. now exists host, ip.
Qed.

Lemma sent_destination_follows_dest_witness :
  let s := Sample.state Sample.default_module Sample.invite false in
  exists b tp,
    In (Send (Sample.bob_at []) b tp)
       (ev_log (ev (sendRequest Sample.world s dest_rq_url))) /\
    Sample.bob_at [] =
      removeParamsFromUrl (rq_url (sip_request (sip_of s)))
                          (mParamsToRemove (fwd s)).
Proof.
  intros s.
  assert (Hlog : exists b tp,
             ev_log (ev (sendRequest Sample.world s dest_rq_url)) =
             [Send (Sample.bob_at []) b tp])
    by (eexists _, _; vm_compute; reflexivity).
  destruct Hlog as (b & tp & Hlog). exists b, tp.
  assert (Hin : In (Send (Sample.bob_at []) b tp)
                   (ev_log (ev (sendRequest Sample.world s dest_rq_url))))
    by (rewrite Hlog; left; reflexivity).
  split; [exact Hin|].
  destruct (proj1 (sent_destination_follows_dest Sample.world s
                     (Sample.bob_at []) b tp) eq_refl Hin)
    as [[] | (_ & Hclean & _)].
  exact Hclean.
Defined.

(** X16: the request resumed by [onRecordFound] is sent to the contact URI
    of the binding as the registrar gave it, with at most its host replaced
    by an /etc/hosts address: the parameters of the destination are those of
    the contact, [gr] and [regid] included if it has them, while the
    Request-URI carries neither. *)
Theorem gruu_resume_sends_to_contact
        (w : World) (contact : ExtendedContact) (s : State)
        (d : url_t) (b : string) (tp : option tport_t) :
  let u := m_url (toSofiaContact contact) in
  let s' := RegistrarListener.onRecordFound w (Some [contact]) s in
  In (Send d b tp) (ev_log (ev s')) ->
  In (Send d b tp) (ev_log (ev s)) \/
  ((url_type d, url_user d, url_port d, url_params d) =
     (url_type u, url_user u, url_port u, url_params u) /\
   (d = u \/
    exists host ip,
      url_host u = Some host /\ EtcHostsResolver_resolve w host = Some ip /\
      url_host d = Some ip) /\
   url_has_param (rq_url (sip_request (sip_of s'))) "gr" = false /\
   url_has_param (rq_url (sip_request (sip_of s'))) "regid" = false).
Proof.
  intros u s' Hin. subst s'.
  destruct (onRecordFound_cases w (Some [contact]) s)
    as [(c & Hc & E) | (Hnot & _)]; [|now destruct (Hnot contact)].
  injection Hc as <-. cbv zeta in E. fold u in E. rewrite E in *.
  set (stripped := set_url_params u _) in *.
  set (s3 := set_sip s (set_rq_url (sip_of s) stripped)) in *.
  destruct (proj2 (sent_destination_follows_dest w s3 d b tp) u Hin)
    as [H | H]; [now left | right].
  assert (Hgr : url_has_param stripped "gr" = false).
  { rewrite url_has_param_find. subst stripped. cbn [url_params set_url_params].
    now rewrite find_strip_other by apply find_strip_same. }
  assert (Hregid : url_has_param stripped "regid" = false).
  { rewrite url_has_param_find. subst stripped. cbn [url_params set_url_params].
    now rewrite find_strip_same. }
  assert (Hrq : rq_url (sip_request (sip_of s3)) = stripped) by reflexivity.
  assert (Hfinal :
            url_has_param (rq_url (sip_request (sip_of (sendRequest w s3 (dest_copy u)))))
                          "gr" = false /\
            url_has_param (rq_url (sip_request (sip_of (sendRequest w s3 (dest_copy u)))))
                          "regid" = false).
  { destruct (sendRequest_rq_url w s3 (dest_copy u)) as [-> | ->]; rewrite Hrq;
      [now split|]. split; now apply removeParamsFromUrl_keeps_absent. }
  destruct H as [-> | (host & ip & Hh & Hi & ->)].
  - split; [reflexivity|]. split; [now left | exact Hfinal].
  - split; [reflexivity|]. split; [|exact Hfinal].
    right. now exists host, ip.
Qed.

Lemma gruu_resume_sends_to_contact_witness :
  let s := Sample.state Sample.default_module Sample.bye_gruu false in
  let s' := RegistrarListener.onRecordFound Sample.world
              (Some [Sample.bob_binding]) s in
  exists d b tp,
    In (Send d b tp) (ev_log (ev s')) /\
    url_params d = ["regid=ab"; "transport=tcp"] /\
    url_has_param (rq_url (sip_request (sip_of s'))) "regid" = false.
Proof.
  intros s s'.
  assert (Hlog : exists d b tp, ev_log (ev s') = [Send d b tp])
    by (eexists _, _, _; vm_compute; reflexivity).
  destruct Hlog as (d & b & tp & Hlog). exists d, b, tp.
  assert (Hin : In (Send d b tp) (ev_log (ev s')))
    by (rewrite Hlog; left; reflexivity).
  split; [exact Hin|].
  destruct (gruu_resume_sends_to_contact Sample.world Sample.bob_binding s
              d b tp Hin) as [[] | (Hfields & _ & _ & Hregid)].
  split; [|exact Hregid].
  injection Hfields as _ _ _ ->. reflexivity.
Defined.

(** *** The configured route as destination *)

(** X17: when a route is configured, was not found in the Via chain and
    the Request-URI is not resolved, [overrideDest] makes [dest] point to the
    URI of the route inside the module, whatever [dest] was; with
    rewrite-req-uri the Request-URI becomes a copy of that URI taken before
    the default transport is added, so the transport parameter, when one is
    appended, is written to the module's route and not to the Request-URI.
    When the Request-URI is resolved the route is not used. *)
Theorem static_route_substituted
        (w : World) (s : State) (dest : dest_t) (out : sip_route_t) :
  mOutRoute (fwd s) = Some out ->
  static_route_in_via w s = false ->
  let r := overrideDest w s dest in
  let appended :=
    negb (String.eqb (mDefaultTransport (fwd s)) EmptyString) &&
    url_type_eqb (url_type (r_url out)) url_sip &&
    negb (url_has_param (r_url out) "transport") in
  let route_url :=
    if appended
    then url_param_add (r_url out) (CStr.c_str (mDefaultTransport (fwd s)))
    else r_url out in
  (urlIsResolved w (rq_url (sip_request (sip_of s))) = false ->
   snd r = dest_out_route /\
   mOutRoute (fwd (fst r)) = Some (mk_route route_url (r_params out)) /\
   deref (fst r) (snd r) = route_url /\
   rq_url (sip_request (sip_of (fst r))) =
     (if mRewriteReqUri (fwd s) then r_url out
      else rq_url (sip_request (sip_of s)))) /\
  (urlIsResolved w (rq_url (sip_request (sip_of s))) = true ->
   r = addDefaultTransport s dest).
Proof.
  intros Hout Hvia r appended route_url. subst r.
  unfold static_route_in_via in Hvia. rewrite Hout in Hvia.
  unfold overrideDest. rewrite Hout, Hvia.
  split.
  - intros ->. cbn [negb]. unfold addDefaultTransport.
    assert (Hd : forall s1, fwd s1 = fwd s -> deref s1 dest_out_route = r_url out).
    { intros s1 H. cbn. unfold out_route_url. now rewrite H, Hout. }
    set (s1 := if mRewriteReqUri (fwd s) then _ else s).
    assert (Hf : fwd s1 = fwd s) by (subst s1; now destruct (mRewriteReqUri (fwd s))).
    assert (Hrq : rq_url (sip_request (sip_of s1)) =
                  if mRewriteReqUri (fwd s) then r_url out
                  else rq_url (sip_request (sip_of s)))
      by (subst s1; now destruct (mRewriteReqUri (fwd s))).
    rewrite (Hd s1 Hf), Hf. fold appended. subst route_url.
    destruct appended; cbn [store fst snd].
    + cbn. unfold out_route_url. rewrite Hf, Hout. cbn.
      repeat split; try reflexivity. exact Hrq.
    + cbn. unfold out_route_url. rewrite Hf, Hout.
      repeat split; try reflexivity; [now destruct out | exact Hrq].
  - intros ->. reflexivity.
Qed.

Lemma static_route_substituted_witness :
  let s := Sample.state Sample.gateway_module Sample.invite_unresolved false in
  let r := overrideDest Sample.gateway_world s dest_rq_url in
  snd r = dest_out_route /\
  mOutRoute (fwd (fst r)) =
    Some (mk_route (mk_url url_sip None (Some "gw.example.com") None
                           ["lr"; "transport=tcp"]) []) /\
  rq_url (sip_request (sip_of (fst r))) =
    mk_url url_sip None (Some "gw.example.com") None ["lr"].
Proof.
  intros s r.
  assert (Hvia : static_route_in_via Sample.gateway_world s = false)
    by (vm_compute; reflexivity).
  assert (Hres : urlIsResolved Sample.gateway_world
                   (rq_url (sip_request (sip_of s))) = false)
    by (vm_compute; reflexivity).
  destruct (proj1 (static_route_substituted Sample.gateway_world s dest_rq_url
                     Sample.gateway_route eq_refl Hvia) Hres)
    as (Hd & Hm & _ & Hrq).
  split; [exact Hd|]. split.
  - subst r. rewrite Hm. vm_compute. reflexivity.
  - subst r. rewrite Hrq. vm_compute. reflexivity.
Defined.

(** *** Suspension *)

Lemma resolved_keeps_to_and_log (w : World) (s s1 : State) (dest : dest_t) :
  onRequest_resolve w s = Resolved s1 dest ->
  sip_to (sip_of s1) = sip_to (sip_of s) /\
  ev_log (ev s1) = ev_log (ev s).
Proof.
  intros E.
  destruct (onRequest_resolve_cases w s)
    as [(_ & E') | [(_ & E') | (_ & s1' & dest' & E' & K)]];
    rewrite E' in E; try discriminate E.
  injection E as <- <-.
  destruct K as ((_ & _ & _ & _ & Hto & _) & _ & Hlog & _).
  destruct (after_route_pop_fields w s)
    as (_ & _ & _ & _ & Hto0 & _ & _ & Hlog0 & _).
  split; congruence.
Qed.

(** X18: [onRequest] suspends an event only for a resolved destination
    that has a [gr] parameter while the To header has a tag; a destination
    without [gr], or a request whose To header is absent or has no tag, goes
    straight to [sendRequest]. *)
Theorem suspends_only_for_gruu (w : World) (s : State) :
  (In SuspendProcessing (ev_log (ev (onRequest w s))) ->
   In SuspendProcessing (ev_log (ev s)) \/
   exists s1 dest to tag,
     onRequest_resolve w s = Resolved s1 dest /\
     url_has_param (deref s1 dest) "gr" = true /\
     sip_to (sip_of s) = Some to /\ a_tag to = Some tag) /\
  (forall s1 dest,
     onRequest_resolve w s = Resolved s1 dest ->
     url_has_param (deref s1 dest) "gr" = false \/
     sip_to (sip_of s) = None \/
     (exists to, sip_to (sip_of s) = Some to /\ a_tag to = None) ->
     onRequest w s = sendRequest w s1 dest).
Proof.
  split.
  - intros Hin. unfold onRequest in Hin.
    destruct (onRequest_resolve w s) as [s'|s1 dest] eqn:E.
    + left.
      destruct (onRequest_resolve_cases w s)
        as [(_ & E') | [(_ & E') | (_ & s1' & dest' & E' & _)]];
        rewrite E' in E; try discriminate E; injection E as <-;
        cbn [reply emit ev ev_log] in Hin; apply in_app_iff in Hin;
        destruct Hin as [Hin | [Hin | []]]; try discriminate Hin; [exact Hin|].
      destruct (after_route_pop_fields w s)
        as (_ & _ & _ & _ & _ & _ & _ & Hlog0 & _). now rewrite <- Hlog0.
    + destruct (resolved_keeps_to_and_log w s s1 dest E) as (Hto & Hlog).
      destruct (needs_gruu_lookup s1 dest) eqn:Hneeds.
      * right. unfold needs_gruu_lookup in Hneeds.
        apply andb_true_iff in Hneeds. destruct Hneeds as (Hgr & Htag).
        rewrite Hto in Htag.
        destruct (sip_to (sip_of s)) as [to|]; [|discriminate Htag].
        destruct (a_tag to) as [tag|] eqn:Et; [|discriminate Htag].
        now exists s1, dest, to, tag.
      * left.
        destruct (sendRequest_log w s1 dest)
          as (headers & outcome & Hl & Hhd & Ho).
        rewrite Hl, Hlog, !in_app_iff in Hin.
        destruct Hin as [Hin | [Hin | [Hin | []]]]; [exact Hin | |].
        -- rewrite forallb_forall in Hhd. now specialize (Hhd _ Hin).
        -- subst outcome. discriminate Ho.
  - intros s1 dest E Hno. unfold onRequest. rewrite E.
    destruct (resolved_keeps_to_and_log w s s1 dest E) as (Hto & _).
    assert (Hneeds : needs_gruu_lookup s1 dest = false).
    { unfold needs_gruu_lookup. rewrite Hto.
      destruct Hno as [-> | [-> | (to & -> & ->)]];
        [reflexivity | apply andb_false_r | apply andb_false_r]. }
    now rewrite Hneeds.
Qed.

Lemma suspends_only_for_gruu_witness :
  let s := Sample.state Sample.default_module
             (Sample.request sip_method_bye
                (Sample.sip_uri "bob" "203.0.113.5" ["gr=xyz"]) (Some 70) None)
             false in
  exists s1, onRequest Sample.world s = sendRequest Sample.world s1 dest_rq_url.
Proof.
  intros s.
  set (s1 := Sample.state Sample.default_module
               (set_max_forwards (sip_of s) (Some 69)) false).
  assert (E : onRequest_resolve Sample.world s = Resolved s1 dest_rq_url)
    by (vm_compute; reflexivity).
  exists s1.
  apply (proj2 (suspends_only_for_gruu Sample.world s) s1 dest_rq_url E).
  right; right. exists (Sample.bob None). split; reflexivity.
Defined.

(** *** The registration id hint *)

Lemma url_param_zero (ps : list string) (tag : string) (n : nat) :
  Nat.ltb 0 (fst (url_param ps tag n)) = false ->
  find (names tag) ps = None.
Proof.
  unfold url_param. destruct (find (names tag) ps) as [tok|]; [|reflexivity].
  destruct (param_value tok); [destruct (Nat.leb _ _)|]; discriminate.
Qed.

Lemma store_apart (s : State) (d : dest_t) (u : url_t) :
  d <> dest_out_route ->
  fwd (fst (store s d u)) = fwd s /\
  deref (fst (store s d u)) (snd (store s d u)) = u /\
  snd (store s d u) <> dest_out_route /\
  (d = dest_rq_url -> snd (store s d u) = dest_rq_url) /\
  (d <> dest_rq_url ->
   fst (store s d u) = s /\ snd (store s d u) <> dest_rq_url).
Proof.
  intros Hd. destruct d as [| |u0]; [| now destruct Hd |]; cbn;
    intuition (try discriminate; try congruence).
Qed.

Lemma has_no_param_after_add (u : url_t) (tag tok : string) :
  url_has_param u tag = false -> names tag tok = false ->
  url_has_param (url_param_add u tok) tag = false.
Proof.
  rewrite !url_has_param_find. cbn [url_params url_param_add set_url_params].
  destruct (find (names tag) (url_params u)) eqn:F; [discriminate|]. intros _ Hn.
  rewrite (find_app_none _ _ _ F). cbn. now rewrite Hn.
Qed.

(** X19: with no route configured, the destination that [onRequest]
    resolves never has a [regid] parameter, the default transport being the
    only parameter that may have been added to it.  When no Route entry is
    left after popping, that destination is the Request-URI of the message
    itself; when one is left, the destination is apart from the message and
    the Request-URI is as received, a [regid] of its own included. *)
Theorem regid_stripped_from_destination
        (w : World) (mc : ForwardConfig) (s s1 : State) (dest : dest_t) :
  onLoad w mc = Some (fwd s) ->
  cfg_route mc = EmptyString ->
  onRequest_resolve w s = Resolved s1 dest ->
  url_has_param (deref s1 dest) "regid" = false /\
  (sip_route (sip_of (after_route_pop w s)) = [] -> dest = dest_rq_url) /\
  (sip_route (sip_of (after_route_pop w s)) <> [] ->
   rq_url (sip_request (sip_of s1)) = rq_url (sip_request (sip_of s))).
Proof.
  intros Hload Hroute E.
  assert (Hmod : mOutRoute (fwd s) = None /\
                 names "regid" (CStr.c_str (mDefaultTransport (fwd s))) = false).
  { unfold onLoad in Hload. rewrite Hroute in Hload. cbn in Hload.
    injection Hload as <-. cbn. split; [reflexivity|].
    now destruct (String.eqb (cfg_default_transport mc) "udp"). }
  destruct Hmod as (Hnone & Htok).
  destruct (after_route_pop_fields w s)
    as (_ & _ & _ & _ & _ & _ & Hrq0 & _ & Hfwd0).
  unfold onRequest_resolve in E.
  destruct (too_many_hops s); [discriminate E|].
  set (s0 := after_route_pop w s) in *.
  set (dest0 := match sip_route (sip_of s0), getDestinationFromRoute (sip_of s0) with
                | _ :: _, Some u => dest_copy u
                | _, _ => dest_rq_url
                end) in *.
  assert (Hdest0 : dest0 <> dest_out_route /\
                   (sip_route (sip_of s0) = [] -> dest0 = dest_rq_url) /\
                   (sip_route (sip_of s0) <> [] -> dest0 <> dest_rq_url)).
  { subst dest0. unfold getDestinationFromRoute.
    destruct (sip_route (sip_of s0)) as [|r rest];
      intuition (try discriminate; try congruence). }
  destruct Hdest0 as (Hapart0 & Hempty & Hroute0).
  match type of E with
  | context [if ?c then Rejected _ else _] => destruct c; [discriminate E|]
  end.
  set (p := match url_params (deref s0 dest0) with
            | [] => (s0, dest0)
            | _ => _
            end) in E.
  assert (Hp : url_has_param (deref (fst p) (snd p)) "regid" = false /\
               snd p <> dest_out_route /\
               fwd (fst p) = fwd s0 /\
               (dest0 = dest_rq_url -> snd p = dest_rq_url) /\
               (dest0 <> dest_rq_url -> fst p = s0 /\ snd p <> dest_rq_url)).
  { subst p. destruct (url_params (deref s0 dest0)) as [|tok ps] eqn:Eps.
    - cbn [fst snd]. rewrite url_has_param_find, Eps. cbn. intuition.
    - destruct (Nat.ltb 0 (fst (url_param (tok :: ps) "regid" 31))) eqn:Efound.
      + destruct (store_apart s0 dest0
                    (set_url_params (deref s0 dest0)
                       (url_strip_param_string (tok :: ps) "regid")) Hapart0)
          as (Hf & Hd & Ha & Hr & Hc).
        rewrite Hd. split; [|intuition].
        rewrite url_has_param_find. cbn [url_params set_url_params].
        now rewrite find_strip_same.
      + cbn [fst snd]. rewrite url_has_param_find, Eps.
        rewrite (url_param_zero _ _ _ Efound). cbn. intuition. }
  destruct p as [s2 d2]. cbn [fst snd] in Hp.
  destruct Hp as (Hno & Hapart & Hfwd2 & Hrq2 & Hcopy2).
  assert (Ho : overrideDest w s2 d2 = addDefaultTransport s2 d2).
  { unfold overrideDest. now rewrite Hfwd2, Hfwd0, Hnone. }
  rewrite Ho in E. unfold addDefaultTransport in E.
  rewrite Hfwd2, Hfwd0 in E.
  match type of E with
  | context [if ?c then store _ _ _ else _] => destruct c
  end.
  - destruct (store_apart s2 d2
                (url_param_add (deref s2 d2)
                   (CStr.c_str (mDefaultTransport (fwd s)))) Hapart)
      as (_ & Hd & _ & Hr & Hc).
    destruct (store s2 d2 _) as [s3 d3]. injection E as <- <-.
    cbn [fst snd] in *. rewrite Hd.
    split; [now apply has_no_param_after_add|]. split.
    + intros H. apply Hr, Hrq2, Hempty, H.
    + intros H. destruct (Hcopy2 (Hroute0 H)) as (-> & Hne).
      destruct (Hc Hne) as (-> & _). exact Hrq0.
  - injection E as <- <-. split; [exact Hno|]. split.
    + intros H. apply Hrq2, Hempty, H.
    + intros H. destruct (Hcopy2 (Hroute0 H)) as (-> & _). exact Hrq0.
Qed.

Lemma regid_stripped_from_destination_witness :
  let s := Sample.state Sample.default_module Sample.invite_regid false in
  let s1 := Sample.state Sample.default_module
              (set_max_forwards (set_rq_url Sample.invite_regid (Sample.bob_at []))
                                (Some 69)) false in
  onRequest_resolve Sample.world s = Resolved s1 dest_rq_url /\
  url_has_param (deref s1 dest_rq_url) "regid" = false.
Proof.
  intros s s1.
  assert (Hload : onLoad Sample.world onDeclare = Some (fwd s))
    by (vm_compute; reflexivity).
  assert (E : onRequest_resolve Sample.world s = Resolved s1 dest_rq_url)
    by (vm_compute; reflexivity).
  split; [exact E|].
  apply (regid_stripped_from_destination Sample.world onDeclare s s1
           dest_rq_url Hload eq_refl E).
Defined.

(** *** What the module never rewrites *)

(** X20: whatever the outcome, the processing of a request leaves its Via
    chain, its To header and its method as received, and changes its Route
    header only by removing a prefix of entries naming this proxy. *)
Theorem process_keeps_via_to_method
        (w : World) (a : registrar_answer) (s : State) :
  sip_via (sip_of (process w a s)) = sip_via (sip_of s) /\
  sip_to (sip_of (process w a s)) = sip_to (sip_of s) /\
  rq_method (sip_request (sip_of (process w a s))) =
    rq_method (sip_request (sip_of s)) /\
  exists popped,
    sip_route (sip_of s) =
      (popped ++ sip_route (sip_of (process w a s)))%list /\
    Forall (fun r => isUs (getAgent w) r = true) popped.
Proof.
  destruct (too_many_hops s) eqn:Hh.
  - assert (E : process w a s = reply w 483 "Too Many Hops" s).
    { unfold process, onRequest.
      destruct (onRequest_resolve_outcomes w s)
        as [(_ & ->) | [(H & _) | (H & _)]]; [reflexivity | congruence..]. }
    rewrite E. repeat split. exists []. split; [reflexivity | constructor].
  - destruct (process_keeps_routing w a s Hh) as (Hvia & Hroute & _ & Hm & Hto & _).
    destruct (after_route_pop_fields w s)
      as (Hvia0 & Hroute0 & _ & Hm0 & Hto0 & _).
    split; [congruence|]. split; [congruence|]. split; [congruence|].
    rewrite Hroute, Hroute0. apply pop_routes_split.
Qed.

(** *** The default transport, from [overrideDest] to [send] *)

Lemma resolve_etc_hosts_cases (w : World) (s : State) (dest : dest_t) :
  url_params (deref s (resolve_etc_hosts w s dest)) = url_params (deref s dest) /\
  (resolve_etc_hosts w s dest = dest \/
   exists u, resolve_etc_hosts w s dest = dest_copy u) /\
  (deref s (resolve_etc_hosts w s dest) = deref s dest \/
   exists host ip,
     url_host (deref s dest) = Some host /\
     EtcHostsResolver_resolve w host = Some ip /\
     deref s (resolve_etc_hosts w s dest) =
       set_url_host (deref s dest) (Some ip)).
Proof.
  unfold resolve_etc_hosts.
  destruct (url_host (deref s dest)) as [host|] eqn:Eh;
    [|split; [reflexivity|]; split; now left].
  destruct (EtcHostsResolver_resolve w host) as [ip|] eqn:Er;
    [|split; [reflexivity|]; split; now left].
  split; [reflexivity|]. split; right.
  - eexists. reflexivity.
  - exists host, ip. now repeat split.
Qed.

Lemma find_strip_unrelated (ps : list string) (tag other : string) :
  tag <> other ->
  find (names tag) (url_strip_param_string ps other) = find (names tag) ps.
Proof.
  intros Hne. unfold url_strip_param_string.
  induction ps as [|tok ps IH]; [reflexivity|]. cbn [find filter].
  destruct (names other tok) eqn:Eo; cbn [negb].
  - destruct (names tag tok) eqn:Et; [|exact IH]. exfalso.
    unfold names in Eo, Et.
    apply String.eqb_eq in Eo. apply String.eqb_eq in Et. congruence.
  - cbn [find]. destruct (names tag tok); [reflexivity | exact IH].
Qed.

Lemma removeParamsFromUrl_keeps_present
      (params : list string) (u : url_t) (tag : string) :
  ~ In tag params ->
  url_has_param (removeParamsFromUrl u params) tag = url_has_param u tag.
Proof.
  unfold removeParamsFromUrl.
  revert u; induction params as [|q params IH]; intros u Hnot; [reflexivity|].
  cbn [fold_left]. rewrite IH by (intros H; apply Hnot; now right).
  rewrite !url_has_param_find. cbn [url_params set_url_params].
  rewrite find_strip_unrelated; [reflexivity|].
  intros ->. apply Hnot. now left.
Qed.

Lemma sendRequest_sent_destination
      (w : World) (s : State) (dest : dest_t)
      (d : url_t) (b : string) (tp : option tport_t) :
  In (Send d b tp) (ev_log (ev (sendRequest w s dest))) ->
  In (Send d b tp) (ev_log (ev s)) \/
  (tp = find_tport w s (resolve_etc_hosts w s dest) /\
   (d = deref s (resolve_etc_hosts w s dest) \/
    (resolve_etc_hosts w s dest = dest_rq_url /\
     d = removeParamsFromUrl (rq_url (sip_request (sip_of s)))
                             (mParamsToRemove (fwd s))))).
Proof.
  intros Hin.
  destruct (sendRequest_sends w s dest d b tp Hin) as [H | (_ & -> & ->)];
    [now left | right]. split; [reflexivity|].
  destruct (resolve_etc_hosts w s dest) as [| |u] eqn:Er; cbn [deref].
  - right. split; [reflexivity|]. apply (proj1 (before_branch_sip w s dest)).
  - left. destruct (before_branch_keeps w s dest) as (_ & Hf). now rewrite Hf.
  - now left.
Qed.

Lemma onRequest_resolve_call_site
      (w : World) (s s1 : State) (dest : dest_t) :
  onRequest_resolve w s = Resolved s1 dest ->
  exists s2 d2,
    overrideDest w s2 d2 = (s1, dest) /\
    d2 <> dest_out_route /\
    fwd s2 = fwd s /\
    sip_via (sip_of s2) = sip_via (sip_of s) /\
    deref s2 d2 =
      set_url_params (next_hop w s)
        (url_strip_param_string (url_params (next_hop w s)) "regid").
Proof.
  intros E.
  pose proof (next_hop_deref w s) as Hnh. cbv zeta in Hnh.
  destruct (after_route_pop_fields w s)
    as (Hvia0 & _ & _ & _ & _ & _ & _ & _ & Hfwd0).
  unfold onRequest_resolve in E.
  destruct (too_many_hops s); [discriminate E|].
  set (s0 := after_route_pop w s) in *.
  set (dest0 := match sip_route (sip_of s0), getDestinationFromRoute (sip_of s0) with
                | _ :: _, Some u => dest_copy u
                | _, _ => dest_rq_url
                end) in *.
  assert (Hapart0 : dest0 <> dest_out_route).
  { subst dest0. destruct (sip_route (sip_of s0));
      [discriminate|]. destruct (getDestinationFromRoute (sip_of s0)); discriminate. }
  match type of E with
  | context [if ?c then Rejected _ else _] => destruct c; [discriminate E|]
  end.
  set (p := match url_params (deref s0 dest0) with
            | [] => (s0, dest0)
            | _ => _
            end) in E.
  assert (Hp : snd p <> dest_out_route /\
               fwd (fst p) = fwd s0 /\
               sip_via (sip_of (fst p)) = sip_via (sip_of s0) /\
               deref (fst p) (snd p) =
                 set_url_params (deref s0 dest0)
                   (url_strip_param_string (url_params (deref s0 dest0)) "regid")).
  { subst p. destruct (url_params (deref s0 dest0)) as [|tok ps] eqn:Eps.
    - cbn [fst snd]. repeat split; try assumption.
      change (url_strip_param_string [] "regid") with (@nil string).
      rewrite <- Eps. now destruct (deref s0 dest0).
    - destruct (Nat.ltb 0 (fst (url_param (tok :: ps) "regid" 31))) eqn:Efound.
      + destruct (store_apart s0 dest0
                    (set_url_params (deref s0 dest0)
                       (url_strip_param_string (tok :: ps) "regid")) Hapart0)
          as (Hf & Hd & Ha & _ & _).
        destruct (store_rewrites_uri_only s0 dest0
                    (set_url_params (deref s0 dest0)
                       (url_strip_param_string (tok :: ps) "regid")))
          as ((Hv & _) & _).
        repeat split; assumption.
      + cbn [fst snd]. repeat split; try assumption.
        rewrite (strip_absent _ _ (url_param_zero _ _ _ Efound)), <- Eps.
        now destruct (deref s0 dest0). }
  destruct p as [s2 d2]. cbn [fst snd] in Hp.
  destruct Hp as (Hapart & Hfwd2 & Hvia2 & Hd2).
  destruct (overrideDest w s2 d2) as [s3 d3] eqn:Eo. injection E as <- <-.
  exists s2, d2. rewrite <- Hnh.
  repeat split; try assumption; congruence.
Qed.

Lemma static_route_in_via_same (w : World) (s s' : State) :
  fwd s' = fwd s ->
  sip_via (sip_of s') = sip_via (sip_of s) ->
  static_route_in_via w s' = static_route_in_via w s.
Proof.
  intros Hf Hv. unfold static_route_in_via. now rewrite Hf, Hv.
Qed.

Lemma url_has_param_same_params (u u' : url_t) (tag : string) :
  url_params u' = url_params u -> url_has_param u' tag = url_has_param u tag.
Proof.
  intros H. now rewrite !url_has_param_find, H.
Qed.

Lemma resolved_keeps_params_to_remove
      (w : World) (s s1 : State) (dest : dest_t) :
  onRequest_resolve w s = Resolved s1 dest ->
  mParamsToRemove (fwd s1) = mParamsToRemove (fwd s).
Proof.
  intros E.
  destruct (onRequest_resolve_cases w s)
    as [(_ & E') | [(_ & E') | (_ & s1' & dest' & E' & K)]];
    rewrite E' in E; try discriminate E.
  injection E as <- <-.
  destruct K as ((_ & _ & _ & _ & _ & Hp) & _).
  destruct (after_route_pop_fields w s)
    as (_ & _ & _ & _ & _ & _ & _ & _ & Hfwd0).
  now rewrite Hp, Hfwd0.
Qed.

(** C9, as the code has it.  [overrideDest] is called by [onRequest] on the
    next hop with its [regid] stripped, and settles on a destination.  With
    [default-transport] configured to anything but udp, a destination that
    is a sip: URI without transport parameter gets the parameter
    [transport=] followed by the configured value appended, provided the
    configured route was not found in the Via chain; with the declared
    default udp nothing is appended, and a destination that is not a sip:
    URI, or has a transport parameter, or is chosen while the configured
    route is found in the Via chain, is left as it is.  When no GRUU lookup
    is needed the request goes to
    [sendRequest] with that destination: the transport is looked up for it
    and it is handed to [send], with at most its host replaced by an
    /etc/hosts address and, when it is the Request-URI, the configured
    parameters removed, so it still carries the transport parameter unless
    [transport] is one of the parameters to remove.  A request suspended
    for a GRUU lookup is sent, when the registrar answers with one binding,
    to the contact URI of the binding with the parameters the registrar
    gave: no default transport is added to it. *)
Theorem default_transport_appended
        (w : World) (mc : ForwardConfig) (m0 : ForwardModule)
        (s s1 : State) (dest : dest_t) :
  onLoad w mc = Some m0 ->
  mDefaultTransport (fwd s) = mDefaultTransport m0 ->
  onRequest_resolve w s = Resolved s1 dest ->
  exists s2 d2,
    overrideDest w s2 d2 = (s1, dest) /\
    fwd s2 = fwd s /\
    sip_via (sip_of s2) = sip_via (sip_of s) /\
    deref s2 d2 =
      set_url_params (next_hop w s)
        (url_strip_param_string (url_params (next_hop w s)) "regid") /\
    let before := deref s2 (routed_dest w s2 d2) in
    let after := deref s1 dest in
    let sent := deref s1 (resolve_etc_hosts w s1 dest) in
    (cfg_default_transport mc <> "udp" ->
     static_route_in_via w s = false ->
     url_type before = url_sip ->
     url_has_param before "transport" = false ->
     after = url_param_add before
               ("transport=" ++ CStr.c_str (cfg_default_transport mc)) /\
     url_has_param after "transport" = true) /\
    (cfg_default_transport mc = "udp" -> after = before) /\
    (url_type before <> url_sip -> after = before) /\
    (url_has_param before "transport" = true -> after = before) /\
    (static_route_in_via w s = true -> after = before) /\
    (needs_gruu_lookup s1 dest = false ->
     onRequest w s = sendRequest w s1 dest /\
     (sent = after \/
      exists host ip,
        url_host after = Some host /\
        EtcHostsResolver_resolve w host = Some ip /\
        sent = set_url_host after (Some ip)) /\
     url_params sent = url_params after /\
     forall d b tp,
       In (Send d b tp) (ev_log (ev (onRequest w s))) ->
       In (Send d b tp) (ev_log (ev s)) \/
       (tp = find_tport w s1 (resolve_etc_hosts w s1 dest) /\
        (d = sent \/ d = removeParamsFromUrl sent (mParamsToRemove (fwd s))) /\
        (url_has_param after "transport" = true ->
         ~ In "transport" (mParamsToRemove (fwd s)) ->
         url_has_param d "transport" = true))) /\
    (needs_gruu_lookup s1 dest = true ->
     forall contact d b tp,
       In (Send d b tp)
          (ev_log (ev (process w (RecordFound (Some [contact])) s))) ->
       In (Send d b tp) (ev_log (ev s)) \/
       url_params d = url_params (m_url (toSofiaContact contact))).
Proof.
  intros Hload Hdt E.
  destruct (onRequest_resolve_call_site w s s1 dest E)
    as (s2 & d2 & Ho & Hapart & Hfwd & Hvia & Hd2).
  exists s2, d2.
  split; [exact Ho|]. split; [exact Hfwd|]. split; [exact Hvia|].
  split; [exact Hd2|]. cbv zeta.
  assert (Hp : points_to_url s2 d2)
    by (destruct d2; cbn; try exact I; now destruct Hapart).
  assert (Hm : mDefaultTransport (fwd s2) =
               if String.eqb (cfg_default_transport mc) "udp" then EmptyString
               else "transport=" ++ cfg_default_transport mc).
  { rewrite Hfwd, Hdt. now apply onLoad_default_transport with (w := w). }
  pose proof (overrideDest_default_transport w (cfg_default_transport mc)
                s2 d2 Hm Hp) as Hov.
  cbv zeta in Hov. rewrite Ho in Hov. cbn [fst snd] in Hov.
  rewrite (static_route_in_via_same w s s2 Hfwd Hvia) in Hov.
  destruct Hov as (Happend & Hudp & Hother & Hhas & Hfound).
  split; [exact Happend|]. split; [exact Hudp|]. split; [exact Hother|].
  split; [exact Hhas|]. split; [exact Hfound|].
  destruct (resolved_keeps_to_and_log w s s1 dest E) as (_ & Hlog).
  pose proof (resolved_keeps_params_to_remove w s s1 dest E) as Hrm.
  split.
  - intros Hg.
    assert (Hon : onRequest w s = sendRequest w s1 dest)
      by (unfold onRequest; now rewrite E, Hg).
    destruct (resolve_etc_hosts_cases w s1 dest) as (Hparams & Hr & Hhost).
    split; [exact Hon|]. split; [exact Hhost|]. split; [exact Hparams|].
    intros d b tp Hin. rewrite Hon in Hin.
    destruct (sendRequest_sent_destination w s1 dest d b tp Hin)
      as [H | (Htp & Hd)]; [left; now rewrite <- Hlog | right].
    split; [exact Htp|].
    destruct Hd as [-> | (Hrq & ->)].
    + split; [now left|]. intros Hafter _.
      now rewrite (url_has_param_same_params _ _ _ Hparams).
    + rewrite Hrq in *. cbn [deref] in *. rewrite Hrm.
      split; [now right|]. intros Hafter Hnot.
      rewrite (removeParamsFromUrl_keeps_present _ _ _ Hnot).
      now rewrite (url_has_param_same_params _ _ _ Hparams).
  - intros Hg contact d b tp Hin.
    assert (Hpr : process w (RecordFound (Some [contact])) s =
                  RegistrarListener.onRecordFound w (Some [contact])
                    (emit (Fetch (deref s1 dest) false)
                          (emit SuspendProcessing s1)))
      by (unfold process, onRequest; now rewrite E, Hg).
    rewrite Hpr in Hin.
    set (s3 := emit (Fetch (deref s1 dest) false) (emit SuspendProcessing s1)) in *.
    destruct (onRecordFound_cases w (Some [contact]) s3)
      as [(c & Hc & Eq) | (Hnot & _)]; [|now destruct (Hnot contact)].
    injection Hc as <-. cbv zeta in Eq. rewrite Eq in Hin.
    set (u := m_url (toSofiaContact contact)) in *.
    set (s4 := set_sip s3 _) in *.
    destruct (sendRequest_sent_destination w s4 (dest_copy u) d b tp Hin)
      as [H | (_ & Hd)].
    + left. subst s4 s3. cbn [set_sip emit ev ev_log] in H.
      rewrite !in_app_iff in H. rewrite <- Hlog.
      destruct H as [[H | [H | []]] | [H | []]];
        [exact H | discriminate H | discriminate H].
    + right.
      destruct (resolve_etc_hosts_cases w s4 (dest_copy u))
        as (Hparams & Hr & _).
      destruct Hd as [-> | (Hrq & _)]; [exact Hparams|].
      destruct Hr as [Hr | (u' & Hr)]; rewrite Hr in Hrq; discriminate Hrq.
Qed.

Lemma default_transport_appended_witness :
  let s := Sample.state Sample.tcp_module Sample.invite_plain false in
  exists d b tp,
    In (Send d b tp) (ev_log (ev (onRequest Sample.world s))) /\
    url_has_param d "transport" = true.
Proof.
  intros s.
  assert (Hload : onLoad Sample.world Sample.tcp_config = Some (fwd s))
    by (vm_compute; reflexivity).
  assert (Hres : exists s1 dest,
             onRequest_resolve Sample.world s = Resolved s1 dest /\
             needs_gruu_lookup s1 dest = false)
    by (eexists _, _; split; vm_compute; reflexivity).
  destruct Hres as (s1 & dest & E & Hg).
  assert (Hlog : exists d b tp,
             ev_log (ev (onRequest Sample.world s)) = [Send d b tp])
    by (eexists _, _, _; vm_compute; reflexivity).
  destruct Hlog as (d & b & tp & Hlog). exists d, b, tp.
  assert (Hin : In (Send d b tp) (ev_log (ev (onRequest Sample.world s))))
    by (rewrite Hlog; left; reflexivity).
  split; [exact Hin|].
  destruct (default_transport_appended Sample.world Sample.tcp_config (fwd s)
              s s1 dest Hload eq_refl E)
    as (s2 & d2 & _ & Hfwd & _ & Hd2 & Happend & _ & _ & _ & _ & Hsend & _).
  assert (Hrouted : routed_dest Sample.world s2 d2 = d2)
    by (unfold routed_dest; rewrite Hfwd; reflexivity).
  rewrite Hrouted, Hd2 in Happend.
  assert (Htcp : cfg_default_transport Sample.tcp_config <> "udp")
    by (simpl; intro H; discriminate H).
  assert (Hvia : static_route_in_via Sample.world s = false)
    by (vm_compute; reflexivity).
  destruct (Happend Htcp Hvia) as (_ & Hhas);
    [vm_compute; reflexivity | vm_compute; reflexivity |].
  destruct (Hsend Hg) as (_ & _ & _ & Hsent).
  destruct (Hsent d b tp Hin) as [[] | (_ & _ & Hd)].
  apply Hd; [exact Hhas|].
  simpl. intuition discriminate.
Defined.

(** C9 as stated fails in three ways.  With the declared default
    [default-transport=udp] a destination without transport parameter is
    sent as it is.  With [default-transport=tcp] a sips: destination gets
    no parameter either.  And with [default-transport=tcp] a request
    suspended for a GRUU lookup has [transport=tcp] appended to its
    Request-URI, but is sent to the contact URI the registrar gives, which
    has no transport parameter and gets none. *)
Lemma default_transport_not_appended :
  let s := Sample.state Sample.default_module Sample.invite_plain false in
  let sips_bob := mk_url url_sips (Some "bob") (Some "192.0.2.9") None [] in
  let s_tcp := Sample.state Sample.tcp_module
                 (set_rq_url Sample.invite_plain sips_bob) false in
  let s_gruu := Sample.state Sample.tcp_module Sample.bye_gruu false in
  let bob_contact := m_url (toSofiaContact Sample.bob_plain_binding) in
  (onLoad Sample.world onDeclare = Some (fwd s) /\
   cfg_default_transport onDeclare = "udp" /\
   url_has_param (rq_url (sip_request (sip_of s))) "transport" = false /\
   overrideDest Sample.world s dest_rq_url = (s, dest_rq_url) /\
   exists branch tport,
     ev_log (ev (onRequest Sample.world s)) =
     [Send (Sample.bob_at []) branch tport]) /\
  (onLoad Sample.world Sample.tcp_config = Some (fwd s_tcp) /\
   url_has_param sips_bob "transport" = false /\
   overrideDest Sample.world s_tcp dest_rq_url = (s_tcp, dest_rq_url) /\
   exists branch tport,
     ev_log (ev (onRequest Sample.world s_tcp)) = [Send sips_bob branch tport]) /\
  (onLoad Sample.world Sample.tcp_config = Some (fwd s_gruu) /\
   url_has_param bob_contact "transport" = false /\
   exists branch tport,
     ev_log (ev (process Sample.world
                   (RecordFound (Some [Sample.bob_plain_binding])) s_gruu)) =
     [SuspendProcessing;
      Fetch (Sample.sip_uri "bob" "203.0.113.5" ["gr=xyz"; "transport=tcp"]) false;
      Send bob_contact branch tport]).
Proof.
  cbv zeta. split; [|split].
  - split; [vm_compute; reflexivity|]. split; [reflexivity|].
    split; [vm_compute; reflexivity|]. split; [vm_compute; reflexivity|].
    eexists _, _. vm_compute. reflexivity.
  - split; [vm_compute; reflexivity|]. split; [vm_compute; reflexivity|].
    split; [vm_compute; reflexivity|].
    eexists _, _. vm_compute. reflexivity.
  - split; [vm_compute; reflexivity|]. split; [vm_compute; reflexivity|].
    eexists _, _. vm_compute. reflexivity.
Qed.
